(** * searchme: the result-acquisition and ranking pipeline

    A shallow embedding of the two search applications of the repository,
    [src/main.py] (class [ImprovedSearch], module [Main] below) and
    [src/app.py] (class [AppleSearch], module [App] below), and the
    properties their specification states about them.

    Conventions of the embedding:
    - Python [str] is [string]; [str.lower], [str.split], [str.strip], the
      [in] test on strings and slicing are written out in module [Py].
    - The libraries the code calls ([urllib.parse], [hashlib], [re],
      [datetime], [json], the HTML parser behind [BeautifulSoup]) are the
      fields of the class [PyLib].  [urlparse] may raise [ValueError];
      a [PyLib] stands for the libraries at one instant, the clock
      [datetime.now()] reads included.
    - Everything outside the process (the HTTP peer, [random], the thread
      pool's completion order) is an oracle of the record [Env].
    - Mutable state (clock, requests sent, cache, log) is the record
      [World]; effectful methods live in a state-and-exception monad.
      Time is a rational number of seconds.
    - The cache of main.py is the Redis server or the in-process dict.
      Whether a server answers the Redis client is the class
      [RedisServer]: without one every Redis command raises
      [ConnectionError].  The model does not follow a server that
      comes or goes between two commands.
    - The tasks main.py hands to its thread pool run one after the
      other, in the order in which their futures complete. *)

From Stdlib Require Import String Ascii ZArith QArith Lqa List Bool Lia.
From Stdlib Require Import Permutation Sorted Qpower.
From stdpp Require Import base option list gmap strings pretty.

Local Open Scope string_scope.
Local Open Scope Z_scope.

(** ** Python string primitives *)

Module Py.

Definition is_upper (c : ascii) : bool :=
  let n := nat_of_ascii c in (65 <=? n)%nat && (n <=? 90)%nat.

Definition lower_char (c : ascii) : ascii :=
  if is_upper c then ascii_of_nat (nat_of_ascii c + 32) else c.

(** [s.lower()], on ASCII text: the letters [A] to [Z] are lowered and
    every other character is kept. *)
Fixpoint lower (s : string) : string :=
  match s with
  | EmptyString => EmptyString
  | String c t => String (lower_char c) (lower t)
  end.

(** [needle in hay] *)
Fixpoint contains (needle hay : string) : bool :=
  String.prefix needle hay ||
  match hay with
  | EmptyString => false
  | String _ t => contains needle t
  end.

(** The characters [str.split()] and [str.strip()] treat as blank, among
    the ASCII ones. *)
Definition is_space (c : ascii) : bool :=
  let n := nat_of_ascii c in
  ((9 <=? n)%nat && (n <=? 13)%nat) || ((28 <=? n)%nat && (n <=? 32)%nat).

Definition flush (word : string) : list string :=
  match word with
  | EmptyString => []
  | _ => [word]
  end.

Fixpoint split_aux (word s : string) : list string :=
  match s with
  | EmptyString => flush word
  | String c t =>
      if is_space c then flush word ++ split_aux EmptyString t
      else split_aux (word +:+ String c EmptyString) t
  end.

(** [s.split()]: the maximal runs of non-blank characters. *)
Definition split (s : string) : list string := split_aux EmptyString s.

Fixpoint split_sep_aux (sep : string) (skip : nat) (word s : string)
  : list string :=
  match s with
  | EmptyString => [word]
  | String c t =>
      match skip with
      | S k => split_sep_aux sep k word t
      | O =>
          if String.prefix sep s
          then word :: split_sep_aux sep (String.length sep - 1) EmptyString t
          else split_sep_aux sep 0 (word +:+ String c EmptyString) t
      end
  end.

(** [s.split(sep)] for a non-empty separator. *)
Definition split_sep (sep s : string) : list string :=
  split_sep_aux sep 0 EmptyString s.

Fixpoint lstrip (s : string) : string :=
  match s with
  | EmptyString => EmptyString
  | String c t => if is_space c then lstrip t else s
  end.

Fixpoint rstrip (s : string) : string :=
  match s with
  | EmptyString => EmptyString
  | String c t =>
      match rstrip t with
      | EmptyString => if is_space c then EmptyString else String c EmptyString
      | t' => String c t'
      end
  end.

(** [s.strip()] *)
Definition strip (s : string) : string := rstrip (lstrip s).

(** Truthiness of a [str]: non-empty. *)
Definition truthy (s : string) : bool :=
  match s with
  | EmptyString => false
  | _ => true
  end.

(** [url[:60] + '...' if len(url) > 60 else url] *)
Definition display_url (url : string) : string :=
  if (60 <? String.length url)%nat
  then String.substring 0 60 url +:+ "..."
  else url.

(** [range(n)] *)
Definition range (n : Z) : list nat := seq 0 (Z.to_nat n).

(** [sum(w for x in xs if p(x))] *)
Definition sum_if {A} (w : Z) (p : A -> bool) (xs : list A) : Z :=
  fold_right (fun x acc => (if p x then w else 0) + acc) 0 xs.

End Py.

(** ** Library functions the code relies on *)

(** A parsed HTML document, as [BeautifulSoup] exposes it: a tree of tags
    and strings.  [class] is multi-valued, so a tag carries its classes
    as a list next to its other attributes. *)
#[warnings="-register-all"]
Inductive Node : Type :=
| NavigableString (s : string)
| Tag (name : string) (classes : list string)
      (attrs : list (string * string)) (contents : list Node).

(** Exceptions, by the class the handlers of the code tell apart. *)
Inductive Exn : Type :=
| RequestException (msg : string)
| OtherException (msg : string).

Inductive Exc (A : Type) : Type :=
| Ok (a : A)
| Raise (e : Exn).
Arguments Ok {A} a.
Arguments Raise {A} e.

Class PyLib : Type := {
  (** [urlparse(url).netloc]: the network location of the URL, or the
      [ValueError] that [urlparse] raises on a URL it rejects (such as
      [http://[bad/], an unclosed bracket in the host). *)
  urlparse : string -> Exc string;
  (** [hashlib.md5(s.encode()).hexdigest()] *)
  md5_hexdigest : string -> string;
  (** [BeautifulSoup(html, 'html.parser')] *)
  html_parser : string -> Exc Node;
  (** [re.search(pattern, text)], the matched text; the three date
      patterns of [_extract_date] are numbered 0, 1, 2. *)
  re_search_date : nat -> string -> option string;
  (** [datetime.strptime(s, '%Y-%m-%d').strftime('%b %d, %Y')] *)
  reformat_iso_date : string -> option string;
  (** [(datetime.now() - datetime.strptime(s, '%b %d, %Y')).days], at the
      instant this library stands for: a later ranking reads a later
      clock and is a call with another [PyLib]. *)
  days_old : string -> option Z;
  (** [json.loads(text)[1]] *)
  json_second : string -> Exc (list string)
}.

(** [urlparse(url).netloc] of a URL that [urlparse] accepts.  The
    categorizers and the rankers below are written with it: they stand
    for the code on the URLs it gets through, and the parsers, which
    meet every URL first, check [urlparse] itself. *)
Definition urlparse_netloc `{lib : PyLib} (url : string) : string :=
  match urlparse url with
  | Ok netloc => netloc
  | Raise _ => ""
  end.

(** ** The subset of BeautifulSoup the parsers use *)

Module Soup.

(** All nodes below [n], in document order. *)
Fixpoint descendants (n : Node) : list Node :=
  match n with
  | NavigableString _ => []
  | Tag _ _ _ contents => flat_map (fun c => c :: descendants c) contents
  end.

(** Does [n] satisfy [find(names, {'class': classes})]?  An empty
    [classes] stands for a call without a class filter. *)
Definition matches (names classes : list string) (n : Node) : bool :=
  match n with
  | NavigableString _ => false
  | Tag name cls _ _ =>
      existsb (String.eqb name) names
      && match classes with
         | [] => true
         | _ => existsb (fun c => existsb (String.eqb c) classes) cls
         end
  end.

Definition find_all (names classes : list string) (n : Node) : list Node :=
  List.filter (matches names classes) (descendants n).

Definition find (names classes : list string) (n : Node) : option Node :=
  head (find_all names classes n).

Definition strings (n : Node) : list string :=
  flat_map (fun d => match d with
                     | NavigableString s => [s]
                     | Tag _ _ _ _ => []
                     end) (descendants n).

(** [tag.get_text()] *)
Definition get_text (n : Node) : string := String.concat "" (strings n).

(** [tag.get_text(strip=True)] *)
Definition get_text_strip (n : Node) : string :=
  String.concat "" (List.filter Py.truthy (map Py.strip (strings n))).

Fixpoint assoc (key : string) (kvs : list (string * string)) : option string :=
  match kvs with
  | [] => None
  | (k, v) :: rest => if String.eqb k key then Some v else assoc key rest
  end.

(** [tag.get(key)] *)
Definition get (key : string) (n : Node) : option string :=
  match n with
  | NavigableString _ => None
  | Tag _ _ attrs _ => assoc key attrs
  end.

End Soup.

(** ** The world the methods run in *)

Inductive Param : Type :=
| PStr (s : string)
| PInt (z : Z).

Record Request : Type := mkRequest {
  req_url : string;
  req_params : list (string * Param);
  req_headers : list (string * string);
  req_timeout : Z
}.

Record Response : Type := mkResponse {
  status_code : Z;
  text : string
}.

(** What one [session.get] comes back with. *)
Inductive NetOutcome : Type :=
| Responded (r : Response)
| NetworkError (msg : string).

(** The oracles: the [n]-th answer of the network, the [n]-th value of
    [random.uniform] and of [UserAgent().random], and whether the
    futures of the pool complete in the reverse of submission order. *)
Record Env : Type := mkEnv {
  http : nat -> Request -> NetOutcome;
  uniform : nat -> Q -> Q -> Q;
  user_agent_random : nat -> string;
  completes_reversed : nat -> bool
}.

Inductive Level : Type := DEBUG | INFO | WARNING | ERROR.

(** The mutable state: the clock read by [time.time()], the requests
    sent so far (oldest first), the number of random values drawn, the
    cache and the log. *)
Record World (C : Type) : Type := mkWorld {
  now : Q;
  sent : list Request;
  draws : nat;
  cache : C;
  log : list (Level * string)
}.
Arguments mkWorld {C} _ _ _ _ _.
Arguments now {C} _.
Arguments sent {C} _.
Arguments draws {C} _.
Arguments cache {C} _.
Arguments log {C} _.

(** State and exceptions. *)
Definition M (C A : Type) : Type := World C -> Exc A * World C.

Definition ret {C A} (a : A) : M C A := fun w => (Ok a, w).

Definition raise {C A} (e : Exn) : M C A := fun w => (Raise e, w).

Definition bind {C A B} (m : M C A) (k : A -> M C B) : M C B :=
  fun w => match m w with
           | (Ok a, w') => k a w'
           | (Raise e, w') => (Raise e, w')
           end.

Notation "x <- m ;; k" := (bind m (fun x => k))
  (at level 100, m at next level, right associativity).
Notation "m ;;; k" := (bind m (fun _ => k))
  (at level 100, right associativity).

(** [try: m except <classes accepted by handles> as e: handler e] *)
Definition try_except {C A} (m : M C A) (handles : Exn -> bool)
  (handler : Exn -> M C A) : M C A :=
  fun w => match m w with
           | (Raise e, w') => if handles e then handler e w' else (Raise e, w')
           | r => r
           end.

(** [except requests.exceptions.RequestException] *)
Definition is_RequestException (e : Exn) : bool :=
  match e with
  | RequestException _ => true
  | OtherException _ => false
  end.

(** [except Exception] *)
Definition is_Exception (e : Exn) : bool := true.

(** [str(e)] *)
Definition str_exn (e : Exn) : string :=
  match e with
  | RequestException msg => msg
  | OtherException msg => msg
  end.

Definition lift {C A} (r : Exc A) : M C A := fun w => (r, w).

(** [str(n)] of an [int]. *)
Definition str_int (z : Z) : string := pretty z.

Section Effects.
Context {C : Type} (env : Env).

(** [time.time()] *)
Definition time_time : M C Q := fun w => (Ok (now w), w).

(** [time.sleep(d)] *)
Definition time_sleep (d : Q) : M C unit :=
  fun w => (Ok tt, mkWorld (now w + d)%Q (sent w) (draws w) (cache w) (log w)).

(** [random.uniform(a, b)] *)
Definition random_uniform (a b : Q) : M C Q :=
  fun w => (Ok (uniform env (draws w) a b),
            mkWorld (now w) (sent w) (S (draws w)) (cache w) (log w)).

(** [self.user_agent.random] *)
Definition user_agent : M C string :=
  fun w => (Ok (user_agent_random env (draws w)),
            mkWorld (now w) (sent w) (S (draws w)) (cache w) (log w)).

(** [self.session.get(url, params=..., headers=..., timeout=...)]: the
    request goes on the wire; a network failure raises
    [RequestException]. *)
Definition session_get (rq : Request) : M C Response :=
  fun w =>
    let w' := mkWorld (now w) (sent w ++ [rq]) (draws w) (cache w) (log w) in
    match http env (length (sent w)) rq with
    | Responded r => (Ok r, w')
    | NetworkError msg => (Raise (RequestException msg), w')
    end.

(** [logger.<level>(msg)] *)
Definition logging (lvl : Level) (msg : string) : M C unit :=
  fun w => (Ok tt, mkWorld (now w) (sent w) (draws w) (cache w)
                           (log w ++ [(lvl, msg)])).

Definition get_cache : M C C := fun w => (Ok (cache w), w).

Definition put_cache (c : C) : M C unit :=
  fun w => (Ok tt, mkWorld (now w) (sent w) (draws w) c (log w)).

(** A task handed to the pool, run to its end: [future.result()] will
    return its value or raise its exception. *)
Definition run_future {A} (task : M C A) : M C (Exc A) :=
  fun w => let '(r, w') := task w in (Ok r, w').

Fixpoint run_futures {A} (tasks : list (M C A)) : M C (list (Exc A)) :=
  match tasks with
  | [] => ret []
  | task :: rest =>
      r <- run_future task;;
      rs <- run_futures rest;;
      ret (r :: rs)
  end.

(** [as_completed(futures)]: the tasks of the pool run, and their
    futures are yielded in the order in which they completed. *)
Definition as_completed {A} (tasks : list (M C A)) : M C (list (Exc A)) :=
  fun w =>
    let order := if completes_reversed env (draws w) then rev tasks else tasks in
    run_futures order w.

(** Truthiness of a [requests.Response]: [response.ok], that is, no
    status from 400 to 599. *)
Definition response_truthy (r : Response) : bool :=
  negb ((400 <=? status_code r) && (status_code r <? 600)).

End Effects.

(** [seconds] go by while nothing else happens. *)
Definition elapse {C} (seconds : Q) (w : World C) : World C :=
  mkWorld (now w + seconds)%Q (sent w) (draws w) (cache w) (log w).

(** A computation that leaves the cache as it found it. *)
Definition keeps_cache {C A} (m : M C A) : Prop :=
  forall w, cache (snd (m w)) = cache w.

(** A computation that maintains an invariant [J] of the cache. *)
Definition maintains {C A} (J : C -> Prop) (m : M C A) : Prop :=
  forall w, J (cache w) -> J (cache (snd (m w))).

(** A computation that returns a value, whatever the world: it never
    raises. *)
Definition returns {C A} (m : M C A) : Prop :=
  forall w, exists a, fst (m w) = Ok a.

(** [sorted(l, key=key, reverse=True)]: a stable sort, by insertion from
    the right; an element goes before the first one whose key is not
    greater than its own. *)
Fixpoint insert_desc {A} (key : A -> Z) (x : A) (l : list A) : list A :=
  match l with
  | [] => [x]
  | y :: l' => if key x <? key y then y :: insert_desc key x l' else x :: l
  end.

Fixpoint sorted_reverse {A} (key : A -> Z) (l : list A) : list A :=
  match l with
  | [] => []
  | x :: l' => insert_desc key x (sorted_reverse key l')
  end.

(** [a] may stand before [b] in a list sorted descending by [key]. *)
Definition desc {A} (key : A -> Z) (a b : A) : Prop := key b <= key a.

(** ** The fixed enumeration of categories (spec, section 3) *)

Definition category_enum : list string :=
  ["news"; "shopping"; "social"; "video"; "academic"; "official";
   "forums"; "tech"; "general"].

(** The loop shared by both categorizers: the first category, in the
    insertion order of the dict, one of whose keywords occurs in the
    domain or in the text. *)
Fixpoint first_category (table : list (string * list string))
  (domain text : string) : string :=
  match table with
  | [] => "general"
  | (category, keywords) :: rest =>
      if existsb (fun keyword => Py.contains keyword domain) keywords
         || existsb (fun keyword => Py.contains keyword text) keywords
      then category
      else first_category rest domain text
  end.

(** No keyword of the table occurs in the domain or in the text. *)
Definition no_keyword_matches (table : list (string * list string))
  (domain text : string) : Prop :=
  forall category keywords keyword,
    In (category, keywords) table -> In keyword keywords ->
    Py.contains keyword domain = false /\ Py.contains keyword text = false.

(** ** main.py: [SearchResult] and [ImprovedSearch] *)

Module Main.

Record SearchResult : Type := mkSearchResult {
  title : string;
  url : string;
  snippet : string;
  category : string;
  date : option string;
  favicon : string;
  score : Z
}.

(** [SearchResult(title, url, snippet, category, date)]: the favicon is
    left to its default, the score starts at 0. *)
Definition new_SearchResult (title url snippet category : string)
  (date : option string) : SearchResult :=
  mkSearchResult title url snippet category date
    ("https://www.google.com/s2/favicons?domain=" +:+ url) 0.

Definition set_score (s : Z) (r : SearchResult) : SearchResult :=
  mkSearchResult (title r) (url r) (snippet r) (category r) (date r)
    (favicon r) s.

Definition set_snippet (text : string) (r : SearchResult) : SearchResult :=
  mkSearchResult (title r) (url r) text (category r) (date r)
    (favicon r) (score r).

(** The dict [to_dict] builds, one field per key. *)
Record ResultDict : Type := mkResultDict {
  k_title : string;
  k_url : string;
  k_display_url : string;
  k_snippet : string;
  k_category : string;
  k_date : option string;
  k_favicon : string;
  k_score : Z;
  k_type : string
}.

Definition to_dict (r : SearchResult) : ResultDict :=
  mkResultDict (title r) (url r) (Py.display_url (url r)) (snippet r)
    (category r) (date r) (favicon r) (score r) "regular".

(** What the cache holds and the two public methods return: a list of
    result dicts ([search]) or of strings ([get_suggestions]). *)
Inductive PyItem : Type :=
| DictItem (d : ResultDict)
| StrItem (s : string).

(** The cache behind [_get_from_cache] and [_save_to_cache]: the Redis
    server when [redis_client] is set, else [self.in_memory_cache].
    Either way a key maps to its data and the time its entry expires;
    [json.loads (json.dumps data)] is [data]. *)
Inductive CacheStore : Type :=
| Redis (db : gmap string (list PyItem * Q))
| InMemory (in_memory_cache : gmap string (list PyItem * Q)).

(** Whether a Redis server answers [redis_client].  The module builds
    the client with [redis.Redis(host='localhost', port=6379, ...)],
    which opens no connection and so succeeds with or without a
    server: the [except] next to it, which would set [redis_client] to
    [None], never runs on that account.  Without a server every
    command of the client raises [redis.exceptions.ConnectionError]. *)
Class RedisServer : Type := { server_answers : bool }.

Definition ConnectionError : Exn :=
  OtherException "Error 111 connecting to localhost:6379. Connection refused.".

(** Redis [GET key], as the server answers at time [t]. *)
Definition redis_get (t : Q) (key : string)
  (db : gmap string (list PyItem * Q)) : option (list PyItem) :=
  match db !! key with
  | Some (data, expires) => if Qlt_le_dec t expires then Some data else None
  | None => None
  end.

(** Redis [SETEX key seconds value] at time [t]. *)
Definition redis_setex (t : Q) (key : string) (seconds : Q)
  (data : list PyItem) (db : gmap string (list PyItem * Q))
  : gmap string (list PyItem * Q) :=
  <[key := (data, (t + seconds)%Q)]> db.

Definition search_urls : list string :=
  ["https://www.google.com/search"; "https://www.bing.com/search"].

Definition categories : list (string * list string) :=
  [("news", ["news"; "breaking"; "latest"; "report"; "update"]);
   ("shopping", ["shop"; "buy"; "price"; "deal"; "amazon"; "store"]);
   ("social", ["facebook"; "twitter"; "instagram"; "linkedin"; "reddit"]);
   ("video", ["youtube"; "video"; "watch"; "stream"; "vimeo"]);
   ("academic", ["research"; "study"; "paper"; "journal"; ".edu"]);
   ("official", ["official"; "gov"; "organization"; ".gov"; ".org"]);
   ("tech", ["technology"; "software"; "hardware"; "review"; "digital"])].

Section WithLib.
Context `{lib : PyLib} `{srv : RedisServer} (env : Env).

Local Abbreviation MM := (M CacheStore).

Definition _get_cache_key (query : string) (page : Z) : string :=
  md5_hexdigest (query +:+ "_" +:+ str_int page).

Definition _get_from_cache (key : string) : MM (option (list PyItem)) :=
  c <- get_cache;;
  match c with
  | Redis db =>
      if server_answers then
        t <- time_time;;
        ret (redis_get t key db)
      else raise ConnectionError
  | InMemory in_memory_cache =>
      match in_memory_cache !! key with
      | Some (data, expire_time) =>
          t <- time_time;;
          if Qlt_le_dec t expire_time then ret (Some data)
          else put_cache (InMemory (delete key in_memory_cache));;; ret None
      | None => ret None
      end
  end.

Definition _save_to_cache (key : string) (data : list PyItem)
  (expire_time : Q) : MM unit :=
  c <- get_cache;;
  t <- time_time;;
  match c with
  | Redis db =>
      if server_answers
      then put_cache (Redis (redis_setex t key expire_time data db))
      else raise ConnectionError
  | InMemory in_memory_cache =>
      put_cache (InMemory (<[key := (data, (t + expire_time)%Q)]> in_memory_cache))
  end.

(** The cache store answers: it is the in-memory dict, or it is Redis
    and a server answers the client. *)
Definition answers (c : CacheStore) : bool :=
  match c with
  | Redis _ => server_answers
  | InMemory _ => true
  end.

Definition _get_headers : MM (list (string * string)) :=
  ua <- user_agent env;;
  ret [("User-Agent", ua);
       ("Accept", "text/html,application/xhtml+xml,application/xml;q=0.9,image/webp,*/*;q=0.8");
       ("Accept-Language", "en-US,en;q=0.5");
       ("DNT", "1");
       ("Connection", "keep-alive")].

(** The body of the [try] of one attempt: [Some response] when the
    method returns from inside the loop, [None] when the loop goes on. *)
Definition fetch_attempt (url : string) (params : list (string * Param))
  (backoff_factor : Q) (attempt : nat) : MM (option Response) :=
  jitter <- random_uniform env (1#10) (3#10);;
  let delay := (backoff_factor * 2 ^ Z.of_nat attempt + jitter)%Q in
  time_sleep delay;;;
  headers <- _get_headers;;
  response <- session_get env (mkRequest url params headers 5);;
  if status_code response =? 200 then ret (Some response)
  else if (status_code response =? 429) || (status_code response =? 403) then
    logging WARNING ("Rate limited on attempt " +:+ str_int (Z.of_nat attempt + 1)
                     +:+ " for " +:+ url);;;
    time_sleep (delay * 2)%Q;;;
    ret None
  else
    logging ERROR ("HTTP " +:+ str_int (status_code response) +:+ " on attempt "
                   +:+ str_int (Z.of_nat attempt + 1) +:+ " for " +:+ url);;;
    ret None.

Fixpoint fetch_loop (url : string) (params : list (string * Param))
  (max_retries : Z) (backoff_factor : Q) (attempts : list nat)
  (last_exception : option Exn) : MM Response :=
  match attempts with
  | [] =>
      match last_exception with
      | Some e => raise e
      | None => raise (OtherException ("Failed to fetch " +:+ url +:+ " after "
                                       +:+ str_int max_retries +:+ " attempts"))
      end
  | attempt :: rest =>
      r <- try_except
             (r <- fetch_attempt url params backoff_factor attempt;;
              ret (r, last_exception))
             is_RequestException
             (fun e =>
                logging ERROR ("Request failed on attempt "
                               +:+ str_int (Z.of_nat attempt + 1) +:+ " for "
                               +:+ url +:+ ": " +:+ str_exn e);;;
                ret (None, Some e));;
      match r with
      | (Some response, _) => ret response
      | (None, last_exception') =>
          fetch_loop url params max_retries backoff_factor rest last_exception'
      end
  end.

Definition _fetch_with_retry (url : string) (params : list (string * Param))
  (max_retries : Z) (backoff_factor : Q) : MM Response :=
  fetch_loop url params max_retries backoff_factor (Py.range max_retries) None.

Fixpoint extract_date_loop (patterns : list nat) (text : string)
  : option string :=
  match patterns with
  | [] => None
  | pattern :: rest =>
      match re_search_date pattern text with
      | Some matched =>
          match reformat_iso_date matched with
          | Some formatted => Some formatted
          | None => Some matched
          end
      | None => extract_date_loop rest text
      end
  end.

Definition _extract_date (text : string) : option string :=
  extract_date_loop [0; 1; 2]%nat text.

Definition _categorize_result (url title snippet : string) : string :=
  let domain := Py.lower (urlparse_netloc url) in
  let text := Py.lower title +:+ " " +:+ Py.lower snippet in
  first_category categories domain text.

(** [url.split('/url?q=')[1].split('&')[0]] *)
Definition unwrap_redirect (url : string) : string :=
  hd "" (Py.split_sep "&" (nth 1 (Py.split_sep "/url?q=" url) "")).

(** The body of the inner [try] of [_parse_results] for one container:
    [Ok (Some result)] when a result is appended, [Ok None] when the
    container is passed over ([continue], or the final [if] is false),
    [Raise e] when the body raises.  With the library functions of
    [PyLib] one call in it can: [urlparse], inside
    [_categorize_result]. *)
Definition try_candidate (div : Node) : Exc (option SearchResult) :=
  match Soup.find ["h3"; "h2"; "h1"] [] div with
  | None => Ok None
  | Some title_elem =>
      let title := Soup.get_text_strip title_elem in
      match Soup.find ["a"] [] div with
      | None => Ok None
      | Some link =>
          match Soup.get "href" link with
          | None => Ok None
          | Some href =>
              if negb (Py.truthy href) then Ok None
              else
                let url := if String.prefix "/url?q=" href
                           then unwrap_redirect href else href in
                let snippet :=
                  match Soup.find ["div"; "span"]
                          ["VwiC3b"; "snippet"; "description"] div with
                  | Some snippet_elem => Soup.get_text_strip snippet_elem
                  | None => ""
                  end in
                if Py.truthy title && Py.truthy url && Py.truthy snippet
                then
                  let date := _extract_date snippet in
                  match urlparse url with
                  | Raise e => Raise e
                  | Ok _ =>
                      let category := _categorize_result url title snippet in
                      Ok (Some (new_SearchResult title url snippet category date))
                  end
                else Ok None
          end
      end
  end.

(** What the loop appends for one container: nothing when the body
    raised, since the handler of the inner [try] logs and continues. *)
Definition parse_candidate (div : Node) : option SearchResult :=
  match try_candidate div with
  | Ok appended => appended
  | Raise _ => None
  end.

(** The loop of [_parse_results] over the containers. *)
Fixpoint parse_loop (divs : list Node) (results : list SearchResult)
  : MM (list SearchResult) :=
  match divs with
  | [] => ret results
  | div :: rest =>
      match try_candidate div with
      | Ok (Some result) => parse_loop rest (results ++ [result])%list
      | Ok None => parse_loop rest results
      | Raise e =>
          logging ERROR ("Error parsing individual result: " +:+ str_exn e);;;
          parse_loop rest results
      end
  end.

(** The results the loop appends, in document order. *)
Definition parse_soup (soup : Node) : list SearchResult :=
  omap parse_candidate (Soup.find_all ["div"; "article"] ["g"; "result"] soup).

Definition _parse_results (html : string) : MM (list SearchResult) :=
  match html_parser html with
  | Ok soup =>
      parse_loop (Soup.find_all ["div"; "article"] ["g"; "result"] soup) []
  | Raise e => logging ERROR ("Error parsing HTML: " +:+ str_exn e);;; ret []
  end.

(** The score the loop of [_rank_results] computes for one result. *)
Definition score_of (query : string) (result : SearchResult) : Z :=
  let query_terms := Py.split (Py.lower query) in
  let score := 0 in
  let title_lower := Py.lower (title result) in
  let score :=
    if Py.contains (Py.lower query) title_lower then score + 30 else score in
  let score :=
    score + Py.sum_if 10 (fun term => Py.contains term title_lower) query_terms in
  let domain := urlparse_netloc (url result) in
  let score :=
    if existsb (fun tld => Py.contains tld domain) [".edu"; ".gov"; ".org"]
    then score + 15 else score in
  let score :=
    if (length (Py.split_sep "." domain) =? 2)%nat then score + 5 else score in
  let snippet_lower := Py.lower (snippet result) in
  let score :=
    score + Py.sum_if 5 (fun term => Py.contains term snippet_lower) query_terms in
  let score :=
    match date result with
    | Some d =>
        if Py.truthy d then
          match days_old d with
          | Some days =>
              if days <? 30 then score + 20
              else if days <? 90 then score + 10
              else score
          | None => score
          end
        else score
    | None => score
    end in
  let score :=
    if existsb (String.eqb (category result)) ["news"; "official"; "academic"]
    then score + 10 else score in
  score.

Definition _rank_results (query : string) (results : list SearchResult)
  : list SearchResult :=
  let results := map (fun result => set_score (score_of query result) result)
                     results in
  sorted_reverse score results.

Definition _search_single_engine (search_url query : string) (page : Z)
  : MM (list SearchResult) :=
  try_except
    (let params := [("q", PStr query); ("start", PInt ((page - 1) * 10));
                    ("num", PInt 10); ("hl", PStr "en");
                    ("safe", PStr "active")] in
     response <- _fetch_with_retry search_url params 2 (3#10);;
     if response_truthy response && Py.truthy (text response) then
       _parse_results (text response)
     else ret [])
    is_Exception
    (fun e =>
       logging ERROR ("Search error on " +:+ search_url +:+ ": " +:+ str_exn e);;;
       ret []).

(** The loop over [as_completed(futures)]. *)
Fixpoint collect (futures : list (Exc (list SearchResult)))
  (results : list SearchResult) (errors : list string)
  : list SearchResult * list string :=
  match futures with
  | [] => (results, errors)
  | Ok current_results :: rest =>
      let results := (results ++ current_results)%list in
      if (5 <=? length results)%nat then (results, errors)
      else collect rest results errors
  | Raise e :: rest => collect rest results (errors ++ [str_exn e])%list
  end.

(** The part of [search] that follows a cache miss. *)
Definition search_miss (query : string) (page : Z) (cache_key : string)
  : MM (list PyItem) :=
  futures <- as_completed env
               (map (fun search_url =>
                       _search_single_engine search_url query page)
                    search_urls);;
  let '(results, errors) := collect futures [] [] in
  match results, errors with
  | [], _ :: _ =>
      logging ERROR (String.concat (String "010" "") errors);;;
      ret []
  | _, _ =>
      let ranked_results := _rank_results query results in
      let serialized_results :=
        map (fun result => DictItem (to_dict result)) ranked_results in
      _save_to_cache cache_key serialized_results 3600;;;
      ret serialized_results
  end.

Definition search (query : string) (page : Z) : MM (list PyItem) :=
  let cache_key := _get_cache_key query page in
  cached_results <- _get_from_cache cache_key;;
  match cached_results with
  | Some (item :: items) => ret (item :: items)
  | _ => search_miss query page cache_key
  end.

Definition get_suggestions (query : string) : MM (list PyItem) :=
  if negb (Py.truthy query) || (String.length query <? 2)%nat then ret []
  else
    let cache_key := "suggest_" +:+ query in
    cached_suggestions <- _get_from_cache cache_key;;
    match cached_suggestions with
    | Some (item :: items) => ret (item :: items)
    | _ =>
        try_except
          (let params := [("client", PStr "chrome"); ("q", PStr query)] in
           response <- _fetch_with_retry
                         "https://suggestqueries.google.com/complete/search"
                         params 2 (3#10);;
           if response_truthy response && (status_code response =? 200) then
             suggestions <- lift (json_second (text response));;
             let suggestions := map StrItem suggestions in
             _save_to_cache cache_key suggestions 1800;;;
             ret suggestions
           else ret [])
          is_Exception
          (fun e =>
             logging ERROR ("Suggestion error: " +:+ str_exn e);;;
             ret [])
    end.

(** The entries of the cache, whichever store holds them. *)
Definition store (c : CacheStore) : gmap string (list PyItem * Q) :=
  match c with
  | Redis db => db
  | InMemory in_memory_cache => in_memory_cache
  end.

(** Every result dict among [items] has ['type'] equal to
    ['regular']. *)
Definition regular_items (items : list PyItem) : Prop :=
  forall d, In (DictItem d) items -> k_type d = "regular".

Definition cache_regular (c : CacheStore) : Prop :=
  forall key data expires,
    store c !! key = Some (data, expires) -> regular_items data.

(** The worlds an [ImprovedSearch] can be in: it starts with an empty
    cache, and from then on its two public methods are called and time
    goes by.  The statements about these worlds are made in a
    deployment whose cache store answers. *)
Inductive reachable : World CacheStore -> Prop :=
| reachable_in_memory (t : Q) : reachable (mkWorld t [] 0 (InMemory ∅) [])
| reachable_redis (t : Q) : reachable (mkWorld t [] 0 (Redis ∅) [])
| reachable_search (w : World CacheStore) (query : string) (page : Z) :
    reachable w -> reachable (snd (search query page w))
| reachable_get_suggestions (w : World CacheStore) (query : string) :
    reachable w -> reachable (snd (get_suggestions query w))
| reachable_elapse (w : World CacheStore) (seconds : Q) :
    reachable w -> reachable (elapse seconds w).

End WithLib.
End Main.

(** ** app.py: [AppleSearch] *)

Module App.

(** The dict [_extract_info_box] returns; [ib_score] is the key
    ['score'], which only ranking adds. *)
Record InfoBox : Type := mkInfoBox {
  ib_title : string;
  ib_description : string;
  ib_image_url : option string;
  ib_score : option Z
}.

(** The dict [_parse_results] builds for an organic result; [date] is
    [None] when the key ['date'] is absent. *)
Record Regular : Type := mkRegular {
  title : string;
  url : string;
  display_url : string;
  snippet : string;
  favicon : string;
  category : string;
  score : Z;
  date : option string
}.

(** A result dict, told apart by its key ['type']. *)
Inductive Result : Type :=
| InfoBoxResult (d : InfoBox)
| RegularResult (d : Regular).

(** [result['type']] *)
Definition type_of (result : Result) : string :=
  match result with
  | InfoBoxResult _ => "info_box"
  | RegularResult _ => "regular"
  end.

Definition is_info_box (result : Result) : bool :=
  String.eqb (type_of result) "info_box".

Definition is_regular (result : Result) : bool :=
  String.eqb (type_of result) "regular".

(** [x['score']] of a ranked result. *)
Definition score_key (result : Result) : Z :=
  match result with
  | InfoBoxResult d => default 0 (ib_score d)
  | RegularResult d => score d
  end.

Definition set_score (s : Z) (d : Regular) : Regular :=
  mkRegular (title d) (url d) (display_url d) (snippet d) (favicon d)
    (category d) s (date d).

Definition base_url : string := "https://www.google.com/search".

Definition suggest_base_url : string :=
  "https://suggestqueries.google.com/complete/search".

Definition categories : list (string * list string) :=
  [("news", ["news"; "article"; "blog"; "press"]);
   ("shopping", ["shop"; "store"; "buy"; "price"]);
   ("social", ["facebook.com"; "twitter.com"; "instagram.com"; "linkedin.com"]);
   ("video", ["youtube.com"; "vimeo.com"; "watch"; "video"]);
   ("academic", ["edu"; "academic"; "research"; "study"]);
   ("official", ["gov"; "official"; "organization"]);
   ("forums", ["reddit.com"; "quora.com"; "forum"; "discussion"]);
   ("tech", ["tech"; "gadget"; "review"])].

(** [a or b] on the results of two [find] calls. *)
Definition or_else (a b : option Node) : option Node :=
  match a with
  | Some _ => a
  | None => b
  end.

Section WithLib.
Context `{lib : PyLib} (env : Env).

(** [self.cache]: a plain dict from cache key to ranked results. *)
Local Abbreviation MM := (M (gmap string (list Result))).

Definition _get_headers : MM (list (string * string)) :=
  ua <- user_agent env;;
  ret [("User-Agent", ua);
       ("Accept", "text/html,application/xhtml+xml");
       ("Accept-Language", "en-US,en;q=0.5");
       ("Referer", "https://www.apple.com/");
       ("DNT", "1");
       ("Connection", "keep-alive");
       ("Upgrade-Insecure-Requests", "1")].

Definition _extract_info_box (soup : Node) : option InfoBox :=
  match Soup.find ["div"] ["kp-wholepage"] soup with
  | None => None
  | Some info_box =>
      let title := or_else (Soup.find ["h2"] ["qrShPb"] info_box)
                           (Soup.find ["div"] ["kno-ecr-pt"] info_box) in
      let description := or_else (Soup.find ["div"] ["LGOjhe"] info_box)
                                 (Soup.find ["div"] ["kno-rdesc"] info_box) in
      let image := or_else (Soup.find ["g-img"] [] info_box)
                           (Soup.find ["img"] ["kno-fb-ctx"] info_box) in
      Some (mkInfoBox
              (match title with
               | Some t => Soup.get_text_strip t
               | None => ""
               end)
              (match description with
               | Some d => Soup.get_text_strip d
               | None => ""
               end)
              (match image with
               | Some i =>
                   match Soup.get "src" i with
                   | Some src => if Py.truthy src then Some src else None
                   | None => None
                   end
               | None => None
               end)
              None)
  end.

Definition _categorize_result (url title : string) : string :=
  let domain := Py.lower (urlparse_netloc url) in
  first_category categories domain (Py.lower title).

(** The body of the [try] of the loop of [_parse_results] for one
    container: [Ok (Some result)] when a result is appended, [Ok None]
    on [continue], [Raise e] when the body raises.  As in main.py, one
    call in it can: [urlparse], inside [_categorize_result]. *)
Definition try_candidate (div : Node) : Exc (option Result) :=
  let title_elem := Soup.find ["h3"] [] div in
  let link := Soup.find ["a"] [] div in
  let url := match link with
             | Some l => Soup.get "href" l
             | None => None
             end in
  let snippet := match Soup.find ["div"] ["VwiC3b"] div with
                 | Some snippet_elem => Soup.get_text snippet_elem
                 | None => ""
                 end in
  match url, title_elem with
  | Some url, Some title_elem =>
      if negb (Py.truthy url) then Ok None
      else
        match urlparse url with
        | Raise e => Raise e
        | Ok _ =>
            Ok (Some (RegularResult
                        (mkRegular (Soup.get_text title_elem) url
                           (Py.display_url url) snippet
                           ("https://www.google.com/s2/favicons?domain=" +:+ url)
                           (_categorize_result url (Soup.get_text title_elem))
                           0
                           (match Soup.find ["span"] ["MUxGbd"] div with
                            | Some date_elem => Some (Soup.get_text date_elem)
                            | None => None
                            end))))
        end
  | _, _ => Ok None
  end.

(** What the loop appends for one container: nothing when the body
    raised, since the handler logs and continues. *)
Definition parse_candidate (div : Node) : option Result :=
  match try_candidate div with
  | Ok appended => appended
  | Raise _ => None
  end.

(** The loop of [_parse_results] over the containers. *)
Fixpoint parse_loop (divs : list Node) (results : list Result)
  : MM (list Result) :=
  match divs with
  | [] => ret results
  | div :: rest =>
      match try_candidate div with
      | Ok (Some result) => parse_loop rest (results ++ [result])%list
      | Ok None => parse_loop rest results
      | Raise e =>
          logging ERROR ("Error parsing result: " +:+ str_exn e);;;
          parse_loop rest results
      end
  end.

(** The results [_parse_results] returns: the info box, when there is
    one, and what the loop appends, in document order. *)
Definition parse_soup (soup : Node) : list Result :=
  (match _extract_info_box soup with
   | Some info_box => [InfoBoxResult info_box]
   | None => []
   end ++ omap parse_candidate (Soup.find_all ["div"] ["tF2Cxc"] soup))%list.

(** The exception of the HTML parser is not handled here: it reaches
    the handler of [search]. *)
Definition _parse_results (html : string) : MM (list Result) :=
  soup <- lift (html_parser html);;
  parse_loop (Soup.find_all ["div"] ["tF2Cxc"] soup)
    match _extract_info_box soup with
    | Some info_box => [InfoBoxResult info_box]
    | None => []
    end.

(** The body of the [try] of one attempt, as in main.py.  (The debug
    line is written with the URL asked for, where the code prints
    [response.url].) *)
Definition fetch_attempt (url : string) (params : list (string * Param))
  : MM (option Response) :=
  pause <- random_uniform env (1#2) (3#2);;
  time_sleep pause;;;
  headers <- _get_headers;;
  response <- session_get env (mkRequest url params headers 10);;
  if status_code response =? 200 then ret (Some response)
  else
    logging DEBUG ("Received status code " +:+ str_int (status_code response)
                   +:+ " for URL: " +:+ url);;;
    ret None.

Fixpoint fetch_loop (url : string) (params : list (string * Param))
  (max_retries : Z) (attempts : list nat) : MM (option Response) :=
  match attempts with
  | [] => ret None
  | attempt :: rest =>
      r <- try_except (fetch_attempt url params) is_RequestException
             (fun e =>
                logging ERROR ("Request error on attempt "
                               +:+ str_int (Z.of_nat attempt + 1) +:+ ": "
                               +:+ str_exn e);;;
                if Z.of_nat attempt =? max_retries - 1 then raise e
                else ret None);;
      match r with
      | Some response => ret (Some response)
      | None => fetch_loop url params max_retries rest
      end
  end.

Definition _fetch_with_retry (url : string) (params : list (string * Param))
  (max_retries : Z) : MM (option Response) :=
  fetch_loop url params max_retries (Py.range max_retries).

(** The score the loop of [_rank_results] computes for a regular
    result. *)
Definition score_of (query : string) (result : Regular) : Z :=
  let keywords := Py.split (Py.lower query) in
  let score := 0 in
  let title_lower := Py.lower (title result) in
  let snippet_lower := Py.lower (snippet result) in
  let score :=
    if Py.contains (Py.lower query) title_lower then score + 20 else score in
  let score :=
    if Py.contains (Py.lower query) snippet_lower then score + 10 else score in
  let title_keywords :=
    Py.sum_if 1 (fun word => Py.contains word title_lower) keywords in
  let snippet_keywords :=
    Py.sum_if 1 (fun word => Py.contains word snippet_lower) keywords in
  let score := score + (title_keywords * 3 + snippet_keywords * 2) in
  let score :=
    if Py.contains "2024" (default "" (date result)) then score + 10 else score in
  let domain := urlparse_netloc (url result) in
  let score :=
    if existsb (fun tld => Py.contains tld domain) [".edu"; ".gov"; ".org"]
    then score + 8 else score in
  let score :=
    if existsb (String.eqb (category result)) ["news"; "official"; "tech"]
    then score + 5 else score in
  score.

(** The points [score_of] gives for every signal but the exact phrase
    in the snippet. *)
Definition other_signals (query : string) (result : Regular) : Z :=
  let keywords := Py.split (Py.lower query) in
  let title_lower := Py.lower (title result) in
  let snippet_lower := Py.lower (snippet result) in
  (if Py.contains (Py.lower query) title_lower then 20 else 0)
  + (Py.sum_if 1 (fun word => Py.contains word title_lower) keywords * 3
     + Py.sum_if 1 (fun word => Py.contains word snippet_lower) keywords * 2)
  + (if Py.contains "2024" (default "" (date result)) then 10 else 0)
  + (if existsb (fun tld => Py.contains tld (urlparse_netloc (url result)))
          [".edu"; ".gov"; ".org"] then 8 else 0)
  + (if existsb (String.eqb (category result)) ["news"; "official"; "tech"]
     then 5 else 0).

(** One turn of the scoring loop. *)
Definition rescore (query : string) (result : Result) : Result :=
  match result with
  | InfoBoxResult d =>
      InfoBoxResult (mkInfoBox (ib_title d) (ib_description d)
                       (ib_image_url d) (Some 50))
  | RegularResult d => RegularResult (set_score (score_of query d) d)
  end.

Definition _rank_results (query : string) (results : list Result)
  : list Result :=
  let results := map (rescore query) results in
  let info_boxes := List.filter is_info_box results in
  let regular_results := sorted_reverse score_key (List.filter is_regular results) in
  (info_boxes ++ regular_results)%list.

Definition search (query : string) (page : Z) : MM (list Result) :=
  let cache_key := query +:+ "_" +:+ str_int page in
  c <- get_cache;;
  match c !! cache_key with
  | Some cached => ret cached
  | None =>
      try_except
        (let params := [("q", PStr query); ("start", PInt ((page - 1) * 10));
                        ("num", PInt 10); ("hl", PStr "en")] in
         response <- _fetch_with_retry base_url params 5;;
         match response with
         | None => ret []
         | Some response =>
             if negb (response_truthy response) then ret []
             else
               results <- _parse_results (text response);;
               let ranked_results := _rank_results query results in
               c <- get_cache;;
               put_cache (<[cache_key := ranked_results]> c);;;
               ret ranked_results
         end)
        is_Exception
        (fun e => logging ERROR ("Search error: " +:+ str_exn e);;; ret [])
  end.

Definition get_suggestions (query : string) : MM (list string) :=
  try_except
    (let params := [("client", PStr "firefox"); ("q", PStr query)] in
     response <- _fetch_with_retry suggest_base_url params 5;;
     match response with
     | Some response =>
         if response_truthy response && (status_code response =? 200)
         then lift (json_second (text response))
         else ret []
     | None => ret []
     end)
    is_Exception
    (fun e => logging ERROR ("Suggestion fetch error: " +:+ str_exn e);;; ret []).

End WithLib.
End App.

(** ** The web layer: the Flask routes of both files *)

(** The loop both [/search] routes group results with:
    [if category not in categorized_results: categorized_results[category] = []]
    and then [categorized_results[category].append(result)].  The dict
    keeps its keys in the order in which they were first added. *)
Fixpoint add_to_group {A} (category : string) (result : A)
  (groups : list (string * list A)) : list (string * list A) :=
  match groups with
  | [] => [(category, [result])]
  | (c, members) :: rest =>
      if String.eqb c category then (c, (members ++ [result])%list) :: rest
      else (c, members) :: add_to_group category result rest
  end.

(** [categorized_results.get(category, [])] *)
Fixpoint group_of {A} (category : string) (groups : list (string * list A))
  : list A :=
  match groups with
  | [] => []
  | (c, members) :: rest =>
      if String.eqb c category then members else group_of category rest
  end.

Module MainWeb.

(** What a route hands to [render_template('search.html', ...)]. *)
Inductive Page : Type :=
| Home
| Listing (query : string) (results : list Main.PyItem)
    (categorized_results : list (string * list Main.ResultDict))
    (page : Z) (total_results : nat)
| Failed (query : string) (error : string).

(** The grouping loop of the route.  Indexing a suggestion string with
    ['type'] raises [TypeError]. *)
Fixpoint group_results (results : list Main.PyItem)
  (categorized_results : list (string * list Main.ResultDict))
  : Exc (list (string * list Main.ResultDict)) :=
  match results with
  | [] => Ok categorized_results
  | Main.DictItem result :: rest =>
      if String.eqb (Main.k_type result) "info_box"
      then group_results rest categorized_results
      else group_results rest
             (add_to_group (Main.k_category result) result categorized_results)
  | Main.StrItem _ :: rest =>
      Raise (OtherException "string indices must be integers")
  end.

Section WithLib.
Context `{lib : PyLib} `{srv : Main.RedisServer} (env : Env).
(** [int(s)] of a request argument: the number, or [ValueError]. *)
Context (int_of : string -> Exc Z).

(** [int(request.args.get('page', 1))] *)
Definition page_arg (page : option string) : Exc Z :=
  match page with
  | Some s => int_of s
  | None => Ok 1
  end.

(** [GET /search?q=...&page=...] *)
Definition search (q page : option string) : M Main.CacheStore Page :=
  let query := Py.strip (default "" q) in
  n <- lift (page_arg page);;
  let page := Z.max 1 n in
  if negb (Py.truthy query) then ret Home
  else
    try_except
      (results <- Main.search env query page;;
       categorized_results <- lift (group_results results []);;
       ret (Listing query results categorized_results page (length results)))
      is_Exception
      (fun e =>
         logging ERROR ("Search route error: " +:+ str_exn e);;;
         ret (Failed query
                "An error occurred while processing your search. Please try again.")).

(** [GET /suggest?q=...], up to [jsonify]. *)
Definition suggest (q : option string) : M Main.CacheStore (list Main.PyItem) :=
  let query := Py.strip (default "" q) in
  try_except (Main.get_suggestions env query) is_Exception
    (fun e =>
       logging ERROR ("Suggestion route error: " +:+ str_exn e);;;
       ret []).

End WithLib.
End MainWeb.

Module AppWeb.

(** What a route hands to [render_template('apple_search.html', ...)]. *)
Inductive Page : Type :=
| Home
| Listing (query : string) (results : list App.Result)
    (categorized_results : list (string * list App.Result))
    (info_box : option App.Result) (page : Z) (total_results : nat)
| Failed (query : string) (error : string).

(** [result['category']]; an info box has no such key, but the loop
    skips it before it asks. *)
Definition category_of (result : App.Result) : string :=
  match result with
  | App.InfoBoxResult _ => ""
  | App.RegularResult d => App.category d
  end.

Fixpoint group_results (results : list App.Result)
  (categorized_results : list (string * list App.Result))
  : list (string * list App.Result) :=
  match results with
  | [] => categorized_results
  | result :: rest =>
      if App.is_info_box result then group_results rest categorized_results
      else group_results rest
             (add_to_group (category_of result) result categorized_results)
  end.

Section WithLib.
Context `{lib : PyLib} (env : Env).
Context (int_of : string -> Exc Z).

Definition page_arg (page : option string) : Exc Z :=
  match page with
  | Some s => int_of s
  | None => Ok 1
  end.

(** [GET /search?q=...&page=...] *)
Definition search (q page : option string)
  : M (gmap string (list App.Result)) Page :=
  let query := default "" q in
  page <- lift (page_arg page);;
  if negb (Py.truthy query) then ret Home
  else
    try_except
      (results <- App.search env query page;;
       let categorized_results := group_results results [] in
       let info_box := List.find App.is_info_box results in
       ret (Listing query results categorized_results info_box page
              (length results)))
      is_Exception
      (fun e =>
         logging ERROR ("Search route error: " +:+ str_exn e);;;
         ret (Failed query "An error occurred. Please try again.")).

(** [GET /suggest?q=...], up to [jsonify]; no handler of its own. *)
Definition suggest (q : option string)
  : M (gmap string (list App.Result)) (list string) :=
  App.get_suggestions env (default "" q).

End WithLib.
End AppWeb.

(** ** The deployments *)

(** A deployment whose Redis server answers.  The statements below
    that name no server are about this deployment or about the
    in-memory dict: they say what the code does while its cache store
    answers.  What it does without a server is stated with
    [no_server]. *)
#[export] Instance server_up : Main.RedisServer :=
  {| Main.server_answers := true |}.

(** No Redis server listens at [localhost:6379]. *)
Definition no_server : Main.RedisServer :=
  {| Main.server_answers := false |}.

(** ** Invariants of what the two [search] methods return and cache *)

Module MainInv.

(** The result dicts among a list of items. *)
Definition dicts (items : list Main.PyItem) : list Main.ResultDict :=
  omap (fun item => match item with
                    | Main.DictItem d => Some d
                    | Main.StrItem _ => None
                    end) items.

(** A result dict as main.py's pipeline makes them: title, URL and
    snippet non-empty, a category of the enumeration, the display URL
    and the favicon derived from the URL, type [regular]. *)
Definition good_dict (d : Main.ResultDict) : Prop :=
  Main.k_title d <> "" /\ Main.k_url d <> "" /\ Main.k_snippet d <> ""
  /\ In (Main.k_category d) category_enum
  /\ Main.k_display_url d = Py.display_url (Main.k_url d)
  /\ Main.k_favicon d
     = "https://www.google.com/s2/favicons?domain=" +:+ Main.k_url d
  /\ Main.k_type d = "regular".

(** Result dicts that are all good and stand by descending score. *)
Definition good_items (items : list Main.PyItem) : Prop :=
  Forall good_dict (dicts items)
  /\ StronglySorted (desc Main.k_score) (dicts items).

(** Every entry of the cache satisfies [G]. *)
Definition cache_all (G : list Main.PyItem -> Prop) (c : Main.CacheStore)
  : Prop :=
  forall key data expires,
    Main.store c !! key = Some (data, expires) -> G data.

(** The parameters of every request of [search(query, page)]. *)
Definition search_params (query : string) (page : Z) : list (string * Param) :=
  [("q", PStr query); ("start", PInt ((page - 1) * 10)); ("num", PInt 10);
   ("hl", PStr "en"); ("safe", PStr "active")].

End MainInv.

Module AppInv.

Section WithLib.
Context `{lib : PyLib} (env : Env).

(** A list that came out of app.py's parser and then its ranker. *)
Definition ranked_page (results : list App.Result) : Prop :=
  exists query soup, results = App._rank_results query (App.parse_soup soup).

Definition cache_ranked (c : gmap string (list App.Result)) : Prop :=
  forall key results, c !! key = Some results -> ranked_page results.

(** The worlds an [AppleSearch] can be in: it starts with an empty
    cache, and then its two public methods are called and time goes
    by. *)
Inductive reachable : World (gmap string (list App.Result)) -> Prop :=
| reachable_start (t : Q) : reachable (mkWorld t [] 0 ∅ [])
| reachable_search (w : World (gmap string (list App.Result)))
    (query : string) (page : Z) :
    reachable w -> reachable (snd (App.search env query page w))
| reachable_get_suggestions (w : World (gmap string (list App.Result)))
    (query : string) :
    reachable w -> reachable (snd (App.get_suggestions env query w))
| reachable_elapse (w : World (gmap string (list App.Result))) (seconds : Q) :
    reachable w -> reachable (elapse seconds w).

End WithLib.

(** The parameters of every request of [search(query, page)]. *)
Definition search_params (query : string) (page : Z) : list (string * Param) :=
  [("q", PStr query); ("start", PInt ((page - 1) * 10)); ("num", PInt 10);
   ("hl", PStr "en")].

(** A ranked result dict as app.py's pipeline makes them: an info box
    has score 50; a regular result has a non-empty URL, the display URL
    and the favicon address derived from it, and a category of the
    enumeration. *)
Definition good_result (result : App.Result) : Prop :=
  match result with
  | App.InfoBoxResult d => App.ib_score d = Some 50
  | App.RegularResult d =>
      App.url d <> ""
      /\ App.display_url d = Py.display_url (App.url d)
      /\ App.favicon d
         = "https://www.google.com/s2/favicons?domain=" +:+ App.url d
      /\ In (App.category d) category_enum
  end.

(** A page of ranked results: at most one info box, ahead of the
    regular results, which stand by descending score. *)
Definition good_page (results : list App.Result) : Prop :=
  exists info_boxes regular_results,
    results = (info_boxes ++ regular_results)%list
    /\ (length info_boxes <= 1)%nat
    /\ Forall (fun r => App.is_info_box r = true) info_boxes
    /\ Forall (fun r => App.is_regular r = true) regular_results
    /\ Forall good_result results
    /\ StronglySorted (desc App.score_key) regular_results.

End AppInv.

(** ** More vocabulary *)

(** A computation that sends nothing but requests satisfying [P], after
    those already sent. *)
Definition sends_only {C A} (P : Request -> Prop) (m : M C A) : Prop :=
  forall w, exists new,
    sent (snd (m w)) = (sent w ++ new)%list /\ Forall P new.



(** The points the freshness signal of main.py's ranker gives a date,
    at the instant the library stands for: 20 under 30 days of age, 10
    under 90, none beyond or when the date does not parse. *)
Definition freshness_points `{lib : PyLib} (d : string) : Z :=
  match days_old d with
  | Some days => if days <? 30 then 20 else if days <? 90 then 10 else 0
  | None => 0
  end.


(** The values the futures hold, those that raised left out. *)
Definition values {A} (futures : list (Exc A)) : list A :=
  omap (fun future => match future with
                      | Ok a => Some a
                      | Raise _ => None
                      end) futures.

Module MoreFixtures.

(** [int(s)] for the page numbers the examples use. *)
Definition int_of (s : string) : Exc Z :=
  if String.eqb s "0" then Ok 0
  else if String.eqb s "1" then Ok 1
  else if String.eqb s "2" then Ok 2
  else if String.eqb s "-3" then Ok (-3)
  else Raise (OtherException "invalid literal for int() with base 10").

(** A network whose first answer is a refusal and whose later answers
    are status 503. *)
Definition env_flaky : Env :=
  mkEnv (fun n _ => match n with
                    | O => NetworkError "Connection refused"
                    | _ => Responded (mkResponse 503 "")
                    end)
        (fun _ a _ => a) (fun _ => "Mozilla/5.0") (fun _ => false).

(** A network whose first two requests fail, each in its own way. *)
Definition env_two_failures : Env :=
  mkEnv (fun n _ => match n with
                    | O => NetworkError "Connection refused"
                    | _ => NetworkError "Read timed out"
                    end)
        (fun _ a _ => a) (fun _ => "Mozilla/5.0") (fun _ => false).

(** A network that answers status 429 until its fifth request fails. *)
Definition env_last_down : Env :=
  mkEnv (fun n _ => match n with
                    | 4%nat => NetworkError "Read timed out"
                    | _ => Responded (mkResponse 429 "")
                    end)
        (fun _ a _ => a) (fun _ => "Mozilla/5.0") (fun _ => false).

Definition regular (title url category : string) (score : Z) : App.Result :=
  App.RegularResult
    (App.mkRegular title url (Py.display_url url) "" "" category score None).

Definition info_box : App.Result :=
  App.InfoBoxResult (App.mkInfoBox "Apple M3" "" None None).

Definition found (title url snippet category : string) : Main.SearchResult :=
  Main.new_SearchResult title url snippet category None.

End MoreFixtures.

(** ** Vocabulary of the properties *)

(** A response with a status other than 200. *)
Definition non_200_response (o : NetOutcome) : Prop :=
  exists r, o = Responded r /\ status_code r <> 200.

(** Not a 200 response: another status, or a network failure. *)
Definition not_200 (o : NetOutcome) : Prop :=
  forall r, o = Responded r -> status_code r <> 200.

(** The [count] requests sent from the [from]-th on are all answered
    with a status other than 200: no success, no network failure. *)
Definition all_non_200 (env : Env) (from count : nat) : Prop :=
  forall k rq, (from <= k < from + count)%nat -> non_200_response (http env k rq).

(** No request is ever answered with a 200. *)
Definition never_200 (env : Env) : Prop :=
  forall k rq, not_200 (http env k rq).

(** ** Stand-ins for the libraries and the network, to run the code on *)

Module Fixtures.

(** The host part of [scheme://host/path]. *)
Definition netloc (url : string) : string :=
  hd "" (Py.split_sep "/" (nth 1 (Py.split_sep "//" url) "")).

(** One result container of the layout main.py looks for, with or
    without its snippet. *)
Definition main_container (snippet : option string) : Node :=
  Tag "div" ["g"] []
    (Tag "a" [] [("href", "/url?q=https://www.apple.com/mac/&sa=U")]
       [Tag "h3" [] [] [NavigableString "Apple M3 chip"]]
     :: match snippet with
        | Some s => [Tag "div" ["VwiC3b"] [] [NavigableString s]]
        | None => []
        end).

(** One result container of the layout app.py looks for. *)
Definition app_container (snippet : option string) : Node :=
  Tag "div" ["tF2Cxc"] []
    (Tag "a" [] [("href", "https://www.apple.com/mac/")]
       [Tag "h3" [] [] [NavigableString "Apple M3 chip"]]
     :: match snippet with
        | Some s => [Tag "div" ["VwiC3b"] [] [NavigableString s]]
        | None => []
        end).

Definition page : Node :=
  Tag "html" [] []
    [Tag "body" [] []
       [Tag "div" ["kp-wholepage"] []
          [Tag "h2" ["qrShPb"] [] [NavigableString "Apple M3"]];
        main_container (Some "The M3 chip, 12 Jan 2024");
        app_container (Some "The M3 chip");
        app_container None]].

(** [urlparse(url).netloc] as [urllib] computes it: a host with one
    square bracket and not the other is an [Invalid IPv6 URL]. *)
Definition urlparse_host (url : string) : Exc string :=
  if xorb (Py.contains "[" (netloc url)) (Py.contains "]" (netloc url))
  then Raise (OtherException "Invalid IPv6 URL")
  else Ok (netloc url).


(** The same in the layout main.py looks for, snippet included. *)
Definition main_bad_container : Node :=
  Tag "div" ["g"] []
    [Tag "a" [] [("href", "http://[bad/")]
       [Tag "h3" [] [] [NavigableString "Apple M3 chip"]];
     Tag "div" ["VwiC3b"] [] [NavigableString "The M3 chip"]].

(** A library to run the code with: the one document it parses is
    [page], the digest of a string is the string itself behind a
    prefix (so distinct keys stay distinct), no date is ever found and
    no suggestion list decodes. *)
#[export] Instance lib : PyLib := {|
  urlparse := urlparse_host;
  md5_hexdigest := fun s => "md5:" +:+ s;
  html_parser := fun html =>
    if String.eqb html "<page>" then Ok page
    else Raise (OtherException "not a document");
  re_search_date := fun _ _ => None;
  reformat_iso_date := fun _ => None;
  days_old := fun _ => None;
  json_second := fun _ => Raise (OtherException "Expecting value")
|}.

(** A network that gives every request the same answer. *)
Definition env_const (answer : NetOutcome) : Env :=
  mkEnv (fun _ _ => answer) (fun _ a _ => a) (fun _ => "Mozilla/5.0")
        (fun _ => false).

Definition env_500 : Env := env_const (Responded (mkResponse 500 "")).

Definition env_down : Env := env_const (NetworkError "Connection refused").

Definition env_page : Env := env_const (Responded (mkResponse 200 "<page>")).

(** A freshly started [ImprovedSearch] without Redis. *)
Definition main_world : World Main.CacheStore :=
  mkWorld 0%Q [] 0 (Main.InMemory ∅) [].

(** A freshly started [ImprovedSearch] whose cache is the Redis
    client. *)
Definition redis_world : World Main.CacheStore :=
  mkWorld 0%Q [] 0 (Main.Redis ∅) [].

(** A freshly started [AppleSearch]. *)
Definition app_world : World (gmap string (list App.Result)) :=
  mkWorld 0%Q [] 0 ∅ [].

(** An [AppleSearch] that has answered the query "m3", page 1, from
    the fixture page. *)
Definition app_world_cached : World (gmap string (list App.Result)) :=
  snd (App.search env_page "m3" 1 app_world).

Definition apple_pie : Main.SearchResult :=
  Main.new_SearchResult "Pie" "https://a.b.c/x" "apple pie" "general" None.

(** The same library on the day on which every date that parses is
    [age] days old. *)
Definition lib_on_day (age : Z) : PyLib := {|
  urlparse := urlparse_host;
  md5_hexdigest := fun s => "md5:" +:+ s;
  html_parser := fun html =>
    if String.eqb html "<page>" then Ok page
    else Raise (OtherException "not a document");
  re_search_date := fun _ _ => None;
  reformat_iso_date := fun _ => None;
  days_old := fun _ => Some age;
  json_second := fun _ => Raise (OtherException "Expecting value")
|}.

Definition dated_pie : Main.SearchResult :=
  Main.new_SearchResult "Pie" "https://a.b.c/x" "apple pie" "general"
    (Some "Jan 12, 2024").

(** The same library, with a suggestion endpoint whose every body
    decodes to the same two suggestions. *)
Definition lib_suggesting : PyLib := {|
  urlparse := urlparse_host;
  md5_hexdigest := fun s => "md5:" +:+ s;
  html_parser := fun html =>
    if String.eqb html "<page>" then Ok page
    else Raise (OtherException "not a document");
  re_search_date := fun _ _ => None;
  reformat_iso_date := fun _ => None;
  days_old := fun _ => None;
  json_second := fun _ => Ok ["m3 chip"; "m3 max"]
|}.

End Fixtures.

(** * Properties *)

(** ** Python primitives *)

Example lower_ex : Py.lower "Hello World 42" = "hello world 42".
Proof. reflexivity. Qed.

Example contains_ex :
  Py.contains "lo w" "hello world" = true /\ Py.contains "" "" = true
  /\ Py.contains "x" "" = false.
Proof. repeat split; reflexivity. Qed.

Example split_ex : Py.split "  apple   m3 chip " = ["apple"; "m3"; "chip"].
Proof. reflexivity. Qed.

Example split_sep_ex :
  Py.split_sep "/url?q=" "/url?q=http://a.b/&sa=U" = [""; "http://a.b/&sa=U"].
Proof. reflexivity. Qed.

Example strip_ex : Py.strip "  a b  " = "a b".
Proof. reflexivity. Qed.

Example str_int_ex : str_int 12 = "12" /\ str_int (-3) = "-3" /\ str_int 0 = "0".
Proof. repeat split; vm_compute; reflexivity. Qed.

Example netloc_ex : Fixtures.netloc "https://www.apple.com/mac/" = "www.apple.com".
Proof. reflexivity. Qed.

Lemma sum_if_ext {A} (w : Z) (p q : A -> bool) (xs : list A) :
  (forall x, In x xs -> p x = q x) -> Py.sum_if w p xs = Py.sum_if w q xs.
Proof.
  induction xs as [|x xs IH]; intros Hpq; simpl; [reflexivity|].
  rewrite (Hpq x) by (left; reflexivity).
  rewrite IH; [reflexivity|].
  intros y Hy. apply Hpq. right. exact Hy.
Qed.

Lemma sum_if_nonneg {A} (w : Z) (p : A -> bool) (xs : list A) :
  0 <= w -> 0 <= Py.sum_if w p xs.
Proof.
  intros Hw. induction xs as [|x xs IH]; simpl; [lia|].
  destruct (p x); lia.
Qed.

(** ** [url.split('/url?q=')[1].split('&')[0]] never indexes out of range *)

Lemma split_sep_aux_nonempty (sep s : string) :
  forall skip word, Py.split_sep_aux sep skip word s <> [].
Proof.
  induction s as [|c t IH]; intros skip word; cbn [Py.split_sep_aux].
  - intros Heq. discriminate Heq.
  - destruct skip; [|apply IH].
    destruct (String.prefix sep (String c t)); [|apply IH].
    intros Heq. discriminate Heq.
Qed.

Lemma prefix_split (p : string) :
  forall s, String.prefix p s = true -> exists t, s = p +:+ t.
Proof.
  induction p as [|a p IH]; intros s Hp.
  - exists s. reflexivity.
  - destruct s as [|b s]; cbn [String.prefix] in Hp; [discriminate Hp|].
    destruct (Ascii.ascii_dec a b) as [->|]; [|discriminate Hp].
    destruct (IH s Hp) as [t ->]. exists t. reflexivity.
Qed.

(** A URL that starts with [/url?q=] splits into an empty first part and
    at least one more, so the element [1] the code takes exists; and a
    split always has an element [0]. *)
Lemma redirect_has_target (url : string) :
  String.prefix "/url?q=" url = true ->
  exists target more, Py.split_sep "/url?q=" url = "" :: target :: more.
Proof.
  intros Hp. destruct (prefix_split _ _ Hp) as [t ->].
  unfold Py.split_sep.
  change ("/url?q=" +:+ t) with (String "/" (String "u" (String "r" (String "l"
            (String "?" (String "q" (String "=" t))))))).
  cbn.
  assert (Hempty : String.prefix "" t = true) by (destruct t; reflexivity).
  rewrite Hempty.
  destruct (Py.split_sep_aux "/url?q=" 0 "" t) as [|target more] eqn:Hsplit.
  - exfalso. exact (split_sep_aux_nonempty _ _ _ _ Hsplit).
  - exists target, more. reflexivity.
Qed.

Example unwrap_redirect_ex :
  Main.unwrap_redirect "/url?q=https://www.apple.com/mac/&sa=U&ved=2ah"
  = "https://www.apple.com/mac/".
Proof. reflexivity. Qed.

(** ** [sorted(..., reverse=True)] is a stable descending sort *)

Section Sorting.
Context {A : Type} (key : A -> Z).

Lemma insert_desc_Permutation x l : Permutation (insert_desc key x l) (x :: l).
Proof.
  induction l as [|y l IH]; simpl; [reflexivity|].
  destruct (key x <? key y).
  - rewrite IH. apply perm_swap.
  - reflexivity.
Qed.

Lemma sorted_reverse_Permutation l : Permutation (sorted_reverse key l) l.
Proof.
  induction l as [|x l IH]; simpl; [reflexivity|].
  rewrite insert_desc_Permutation. apply perm_skip. exact IH.
Qed.

Lemma insert_desc_sorted x l :
  StronglySorted (desc key) l -> StronglySorted (desc key) (insert_desc key x l).
Proof.
  induction l as [|y l IH]; intros Hs; simpl.
  - constructor; [constructor | constructor].
  - apply StronglySorted_inv in Hs. destruct Hs as [Hl Hy].
    destruct (Z.ltb_spec (key x) (key y)) as [Hlt|Hge].
    + constructor; [apply IH; exact Hl|].
      rewrite insert_desc_Permutation.
      constructor; [unfold desc; lia | exact Hy].
    + constructor; [constructor; assumption|].
      constructor; [unfold desc; lia|].
      eapply Forall_impl; [exact Hy|].
      unfold desc. intros; simpl in *; lia.
Qed.

Lemma sorted_reverse_sorted l : StronglySorted (desc key) (sorted_reverse key l).
Proof.
  induction l as [|x l IH]; simpl; [constructor|].
  apply insert_desc_sorted. exact IH.
Qed.

Lemma insert_desc_filter s x l :
  List.filter (fun a => key a =? s) (insert_desc key x l)
  = List.filter (fun a => key a =? s) (x :: l).
Proof.
  induction l as [|y l IH]; simpl; [reflexivity|].
  destruct (Z.ltb_spec (key x) (key y)) as [Hlt|Hge]; [|reflexivity].
  simpl. rewrite IH. simpl.
  destruct (Z.eqb_spec (key x) s), (Z.eqb_spec (key y) s); try reflexivity.
  lia.
Qed.

(** Stability: the elements with a given key keep their input order. *)
Lemma sorted_reverse_stable s l :
  List.filter (fun a => key a =? s) (sorted_reverse key l)
  = List.filter (fun a => key a =? s) l.
Proof.
  induction l as [|x l IH]; simpl; [reflexivity|].
  rewrite insert_desc_filter. simpl. rewrite IH. reflexivity.
Qed.

End Sorting.

Lemma filter_all {A} (p : A -> bool) (l : list A) :
  Forall (fun a => p a = true) l -> List.filter p l = l.
Proof.
  induction 1 as [|a l Ha _ IH]; simpl; [reflexivity|].
  rewrite Ha, IH. reflexivity.
Qed.

Lemma filter_none {A} (p : A -> bool) (l : list A) :
  Forall (fun a => p a = false) l -> List.filter p l = [].
Proof.
  induction 1 as [|a l Ha _ IH]; simpl; [reflexivity|].
  rewrite Ha. exact IH.
Qed.

Lemma Forall_filter_true {A} (p : A -> bool) (l : list A) :
  Forall (fun a => p a = true) (List.filter p l).
Proof.
  apply List.Forall_forall. intros a Ha. apply filter_In in Ha. tauto.
Qed.

Lemma Forall_sorted_reverse {A} (key : A -> Z) (P : A -> Prop) (l : list A) :
  Forall P l -> Forall P (sorted_reverse key l).
Proof.
  intros Hl. eapply Permutation_Forall; [|exact Hl].
  symmetry. apply sorted_reverse_Permutation.
Qed.

(** ** The rankers *)

Lemma info_box_not_regular (r : App.Result) :
  App.is_info_box r = true -> App.is_regular r = false.
Proof. destruct r; simpl; [reflexivity | discriminate]. Qed.

Lemma regular_not_info_box (r : App.Result) :
  App.is_regular r = true -> App.is_info_box r = false.
Proof. destruct r; simpl; [discriminate | reflexivity]. Qed.

(** The regular part of what app.py's ranker returns is the sorted list
    of the rescored regular results. *)
Lemma app_rank_regular_part `{PyLib} (query : string) (results : list App.Result) :
  List.filter App.is_regular (App._rank_results query results)
  = sorted_reverse App.score_key
      (List.filter App.is_regular (map (App.rescore query) results)).
Proof.
  unfold App._rank_results. cbv zeta. rewrite List.filter_app.
  rewrite filter_none, filter_all; [reflexivity| |].
  - apply Forall_sorted_reverse, Forall_filter_true.
  - eapply List.Forall_impl; [|apply Forall_filter_true].
    intros r. apply info_box_not_regular.
Qed.

(** C3. For every non-empty query and every list of results, both
    rankers sort the regular results descending by score with a stable
    sort.  With [scored] the input results carrying the scores the
    ranker gave them, in input order, the ranked regular results are a
    permutation of [scored], each one's score is at least that of every
    later one, and for every score [s] the results of score [s] stand in
    the output exactly as they stand in the input: equal scores keep
    their relative input order.  (main.py has regular results only.) *)
Theorem rank_is_stable_sort `{PyLib} (query : string)
  (main_results : list Main.SearchResult) (app_results : list App.Result) :
  query <> "" ->
  (let scored :=
     map (fun r => Main.set_score (Main.score_of query r) r) main_results in
   let ranked := Main._rank_results query main_results in
   Permutation ranked scored
   /\ StronglySorted (desc Main.score) ranked
   /\ forall s, List.filter (fun r => Main.score r =? s) ranked
                = List.filter (fun r => Main.score r =? s) scored)
  /\
  (let scored :=
     List.filter App.is_regular (map (App.rescore query) app_results) in
   let ranked :=
     List.filter App.is_regular (App._rank_results query app_results) in
   Permutation ranked scored
   /\ StronglySorted (desc App.score_key) ranked
   /\ forall s, List.filter (fun r => App.score_key r =? s) ranked
                = List.filter (fun r => App.score_key r =? s) scored).
Proof.
  intros _. split; cbv zeta.
  - unfold Main._rank_results. cbv zeta. split; [|split].
    + apply sorted_reverse_Permutation.
    + apply sorted_reverse_sorted.
    + intros s. apply sorted_reverse_stable.
  - rewrite app_rank_regular_part. split; [|split].
    + apply sorted_reverse_Permutation.
    + apply sorted_reverse_sorted.
    + intros s. apply sorted_reverse_stable.
Qed.

Lemma rank_is_stable_sort_witness :
  "m3 chip" <> ""
  /\ Main.score <$> Main._rank_results (lib := Fixtures.lib) "m3 chip"
       [Fixtures.apple_pie;
        Main.new_SearchResult "M3 chip" "https://a.b.c/1" "first" "general" None;
        Main.new_SearchResult "m3 CHIP" "https://a.b.c/2" "second" "general" None]
     = [50; 50; 0]
  /\ Main.snippet <$> Main._rank_results (lib := Fixtures.lib) "m3 chip"
       [Fixtures.apple_pie;
        Main.new_SearchResult "M3 chip" "https://a.b.c/1" "first" "general" None;
        Main.new_SearchResult "m3 CHIP" "https://a.b.c/2" "second" "general" None]
     = ["first"; "second"; "apple pie"]
  /\ forall s,
       List.filter (fun r => Main.score r =? s)
         (Main._rank_results (lib := Fixtures.lib) "m3 chip"
            [Fixtures.apple_pie;
             Main.new_SearchResult "M3 chip" "https://a.b.c/1" "first" "general" None;
             Main.new_SearchResult "m3 CHIP" "https://a.b.c/2" "second" "general" None])
       = List.filter (fun r => Main.score r =? s)
           (map (fun r => Main.set_score (Main.score_of (lib := Fixtures.lib) "m3 chip" r) r)
              [Fixtures.apple_pie;
               Main.new_SearchResult "M3 chip" "https://a.b.c/1" "first" "general" None;
               Main.new_SearchResult "m3 CHIP" "https://a.b.c/2" "second" "general" None]).
Proof.
  split; [discriminate|].
  split; [vm_compute; reflexivity|].
  split; [vm_compute; reflexivity|].
  refine (proj2 (proj2 (proj1
    (rank_is_stable_sort (H := Fixtures.lib) "m3 chip" _ [] _)))).
  discriminate.
Defined.

(** C4. For every list of results holding at least one info box,
    app.py's ranker puts every info box before every regular result,
    whatever the scores: an info box at position [i] and a regular
    result at position [j] of the output have [i < j]. *)
Theorem info_boxes_first `{PyLib} (query : string) (results : list App.Result)
  (i j : nat) (a b : App.Result) :
  Exists (fun r => App.is_info_box r = true) results ->
  App._rank_results query results !! i = Some a ->
  App._rank_results query results !! j = Some b ->
  App.is_info_box a = true ->
  App.is_regular b = true ->
  (i < j)%nat.
Proof.
  intros _ Hi Hj Ha Hb. unfold App._rank_results in *. cbv zeta in *.
  set (scored := map (App.rescore query) results) in *.
  apply lookup_app_Some in Hi. apply lookup_app_Some in Hj.
  destruct Hj as [Hj|[Hlen Hj]].
  - apply list_elem_of_lookup_2, list_elem_of_In, filter_In in Hj.
    destruct Hj as [_ Hj]. rewrite (regular_not_info_box b Hb) in Hj.
    discriminate.
  - destruct Hi as [Hi|[_ Hi]].
    + apply lookup_lt_Some in Hi. lia.
    + apply list_elem_of_lookup_2, list_elem_of_In in Hi.
      eapply Permutation_in in Hi; [|apply sorted_reverse_Permutation].
      apply filter_In in Hi. destruct Hi as [_ Hi].
      rewrite (info_box_not_regular a Ha) in Hi. discriminate.
Qed.

Lemma info_boxes_first_witness :
  App._rank_results (lib := Fixtures.lib) "m3"
    [App.RegularResult
       (App.mkRegular "Apple M3" "https://www.apple.org/" "https://www.apple.org/"
          "the m3 chip" "" "news" 0 (Some "12 Jan 2024"));
     App.InfoBoxResult (App.mkInfoBox "Apple M3" "" None None)]
  = [App.InfoBoxResult (App.mkInfoBox "Apple M3" "" None (Some 50));
     App.RegularResult
       (App.mkRegular "Apple M3" "https://www.apple.org/" "https://www.apple.org/"
          "the m3 chip" "" "news" 58 (Some "12 Jan 2024"))]
  /\ (0 < 1)%nat.
Proof.
  split; [vm_compute; reflexivity|].
  apply (info_boxes_first (H := Fixtures.lib) "m3"
           [App.RegularResult
              (App.mkRegular "Apple M3" "https://www.apple.org/"
                 "https://www.apple.org/" "the m3 chip" "" "news" 0
                 (Some "12 Jan 2024"));
            App.InfoBoxResult (App.mkInfoBox "Apple M3" "" None None)]
           0%nat 1%nat
           (App.InfoBoxResult (App.mkInfoBox "Apple M3" "" None (Some 50)))
           (App.RegularResult
              (App.mkRegular "Apple M3" "https://www.apple.org/"
                 "https://www.apple.org/" "the m3 chip" "" "news" 58
                 (Some "12 Jan 2024")))).
  - apply Exists_cons_tl, Exists_cons_hd. reflexivity.
  - vm_compute. reflexivity.
  - vm_compute. reflexivity.
  - reflexivity.
  - reflexivity.
Defined.

(** ** The categorizers *)

Lemma first_category_in (table : list (string * list string))
  (domain text : string) :
  In (first_category table domain text) ("general" :: map fst table).
Proof.
  induction table as [|[category keywords] rest IH]; simpl.
  - left. reflexivity.
  - destruct (_ || _).
    + right. left. reflexivity.
    + destruct IH as [IH|IH]; [left; exact IH | right; right; exact IH].
Qed.

Lemma existsb_false {A} (p : A -> bool) (l : list A) :
  (forall a, In a l -> p a = false) -> existsb p l = false.
Proof.
  induction l as [|a l IH]; intros Hp; simpl; [reflexivity|].
  rewrite (Hp a) by (left; reflexivity). simpl.
  apply IH. intros b Hb. apply Hp. right. exact Hb.
Qed.

Lemma first_category_general (table : list (string * list string))
  (domain text : string) :
  no_keyword_matches table domain text ->
  first_category table domain text = "general".
Proof.
  induction table as [|[category keywords] rest IH]; intros Hno; simpl.
  - reflexivity.
  - rewrite !existsb_false.
    + simpl. apply IH. intros c ks k Hc Hk.
      apply (Hno c ks k); [right; exact Hc | exact Hk].
    + intros k Hk. apply (Hno category keywords k); [left; reflexivity | exact Hk].
    + intros k Hk. apply (Hno category keywords k); [left; reflexivity | exact Hk].
Qed.

(** C6. Both categorizers are functions of their arguments alone (they
    take no state, so two calls with the same arguments give the same
    category); the category returned is always one of the fixed
    enumeration; and when no keyword of the table occurs in the domain
    or in the text, the category is [general]. *)
Theorem categorize_in_enumeration `{PyLib} (url title snippet : string) :
  (forall first second,
      first = Main._categorize_result url title snippet ->
      second = Main._categorize_result url title snippet ->
      first = second)
  /\ (forall first second,
         first = App._categorize_result url title ->
         second = App._categorize_result url title ->
         first = second)
  /\ In (Main._categorize_result url title snippet) category_enum
  /\ In (App._categorize_result url title) category_enum
  /\ (no_keyword_matches Main.categories (Py.lower (urlparse_netloc url))
        (Py.lower title +:+ " " +:+ Py.lower snippet) ->
      Main._categorize_result url title snippet = "general")
  /\ (no_keyword_matches App.categories (Py.lower (urlparse_netloc url))
        (Py.lower title) ->
      App._categorize_result url title = "general").
Proof.
  repeat split.
  - congruence.
  - congruence.
  - unfold Main._categorize_result. cbv zeta.
    pose proof (first_category_in Main.categories
                  (Py.lower (urlparse_netloc url))
                  (Py.lower title +:+ " " +:+ Py.lower snippet)) as Hin.
    simpl in Hin |- *. intuition.
  - unfold App._categorize_result. cbv zeta.
    pose proof (first_category_in App.categories
                  (Py.lower (urlparse_netloc url)) (Py.lower title)) as Hin.
    simpl in Hin |- *. intuition.
  - apply first_category_general.
  - apply first_category_general.
Qed.

Lemma no_keyword_matches_dec (table : list (string * list string))
  (domain text : string) :
  forallb (fun entry =>
             forallb (fun keyword => negb (Py.contains keyword domain)
                                     && negb (Py.contains keyword text))
                     (snd entry)) table = true ->
  no_keyword_matches table domain text.
Proof.
  intros Hall category keywords keyword Hc Hk.
  rewrite forallb_forall in Hall. specialize (Hall _ Hc). simpl in Hall.
  rewrite forallb_forall in Hall. specialize (Hall _ Hk).
  apply andb_prop in Hall. destruct Hall as [Hd Ht].
  apply negb_true_iff in Hd, Ht. split; assumption.
Qed.

Lemma categorize_in_enumeration_witness :
  Main._categorize_result (lib := Fixtures.lib)
    "https://www.apple.com/mac/" "Apple M3 chip" "A new Mac" = "general"
  /\ App._categorize_result (lib := Fixtures.lib)
       "https://www.apple.com/mac/" "Apple M3 chip" = "general"
  /\ Main._categorize_result (lib := Fixtures.lib)
       "https://www.bbc.co.uk/" "Breaking: Apple M3" "" = "news".
Proof.
  pose proof (categorize_in_enumeration (H := Fixtures.lib)
                "https://www.apple.com/mac/" "Apple M3 chip" "A new Mac")
    as (_ & _ & _ & _ & Hmain & Happ).
  split; [|split].
  - apply Hmain. apply no_keyword_matches_dec. vm_compute. reflexivity.
  - apply Happ. apply no_keyword_matches_dec. vm_compute. reflexivity.
  - vm_compute. reflexivity.
Defined.

(** ** The score of a result *)

(** No signal of main.py's ranker takes points away. *)
Lemma main_score_nonneg `{PyLib} (query : string) (result : Main.SearchResult) :
  0 <= Main.score_of query result.
Proof.
  unfold Main.score_of. cbv zeta.
  pose proof (sum_if_nonneg 10
                (fun term => Py.contains term (Py.lower (Main.title result)))
                (Py.split (Py.lower query)) ltac:(lia)) as Htitle.
  pose proof (sum_if_nonneg 5
                (fun term => Py.contains term (Py.lower (Main.snippet result)))
                (Py.split (Py.lower query)) ltac:(lia)) as Hsnippet.
  repeat match goal with
         | |- context [if ?c then _ else _] => destruct c
         | |- context [match ?x with Some _ => _ | None => _ end] => destruct x
         end; lia.
Qed.

(** C8, as the code has it.  In app.py's ranker a regular result whose
    lowercased snippet contains the lowercased query gets exactly 10
    points for it: its score is 10 above the points of all its other
    signals, and without the phrase the score is just those.  main.py's
    ranker has no such signal: a result's score depends on its snippet
    only through the query terms that occur in it, so two snippets with
    the same terms score alike, whether or not they hold the phrase. *)
Theorem snippet_phrase_points `{PyLib} (query : string) :
  (forall result : App.Regular,
      Py.contains (Py.lower query) (Py.lower (App.snippet result)) = true ->
      App.score_of query result = App.other_signals query result + 10)
  /\ (forall result : App.Regular,
         Py.contains (Py.lower query) (Py.lower (App.snippet result)) = false ->
         App.score_of query result = App.other_signals query result)
  /\ (forall (result : Main.SearchResult) (text : string),
         (forall term, In term (Py.split (Py.lower query)) ->
                       Py.contains term (Py.lower text)
                       = Py.contains term (Py.lower (Main.snippet result))) ->
         Main.score_of query (Main.set_snippet text result)
         = Main.score_of query result).
Proof.
  split; [|split].
  - intros result Hin. unfold App.score_of, App.other_signals. cbv zeta.
    rewrite Hin.
    repeat match goal with |- context [if ?c then _ else _] => destruct c end;
      lia.
  - intros result Hout. unfold App.score_of, App.other_signals. cbv zeta.
    rewrite Hout.
    repeat match goal with |- context [if ?c then _ else _] => destruct c end;
      lia.
  - intros result text Hterms. unfold Main.score_of. cbv zeta. simpl.
    rewrite (sum_if_ext 5 _ _ _ Hterms). reflexivity.
Qed.

Lemma snippet_phrase_points_witness :
  App.score_of (lib := Fixtures.lib) "m3 chip"
    (App.mkRegular "Mac" "https://a.b.c/" "https://a.b.c/" "The M3 chip" ""
       "general" 0 None) = 14
  /\ App.score_of (lib := Fixtures.lib) "m3 chip"
       (App.mkRegular "Mac" "https://a.b.c/" "https://a.b.c/" "chip: the M3" ""
          "general" 0 None) = 4
  /\ Main.score_of (lib := Fixtures.lib) "m3 chip"
       (Main.set_snippet "chip: the M3"
          (Main.new_SearchResult "Mac" "https://a.b.c/" "The M3 chip" "general" None))
     = Main.score_of (lib := Fixtures.lib) "m3 chip"
         (Main.new_SearchResult "Mac" "https://a.b.c/" "The M3 chip" "general" None).
Proof.
  pose proof (snippet_phrase_points (H := Fixtures.lib) "m3 chip")
    as (Hwith & Hwithout & Hmain).
  split; [|split].
  - rewrite Hwith; [vm_compute; reflexivity | vm_compute; reflexivity].
  - rewrite Hwithout; [vm_compute; reflexivity | vm_compute; reflexivity].
  - apply Hmain. intros term Hterm. simpl in Hterm.
    destruct Hterm as [<-|[<-|[]]]; vm_compute; reflexivity.
Defined.

(** C8 as stated fails on main.py: a result whose snippet contains the
    query scores 5 there (one query term found in the snippet), while
    10 points for the phrase, on top of signals none of which is
    negative, would make it 10 at least. *)
Lemma main_snippet_phrase_counterexample :
  Py.contains (Py.lower "apple")
    (Py.lower (Main.snippet Fixtures.apple_pie)) = true
  /\ Main.score_of (lib := Fixtures.lib) "apple" Fixtures.apple_pie = 5
  /\ ~ (forall (lib : PyLib) (query : string) (result : Main.SearchResult),
          Py.contains (Py.lower query) (Py.lower (Main.snippet result)) = true ->
          10 <= Main.score_of query result).
Proof.
  split; [reflexivity|]. split; [vm_compute; reflexivity|].
  intros Hclaim.
  specialize (Hclaim Fixtures.lib "apple" Fixtures.apple_pie eq_refl).
  vm_compute in Hclaim. apply Hclaim. reflexivity.
Qed.

(** ** The parsers *)

Lemma truthy_nonempty (s : string) : s <> "" -> Py.truthy s = true.
Proof. destruct s; [congruence | reflexivity]. Qed.

Lemma truthy_true (s : string) : Py.truthy s = true -> s <> "".
Proof. destruct s; [discriminate | discriminate]. Qed.

(** The loops of the two parsers return what [parse_candidate] keeps
    of each container, in order, and touch nothing but the log. *)
Lemma app_parse_loop_run `{PyLib} (divs : list Node) :
  forall (results : list App.Result) (w : World (gmap string (list App.Result))),
  exists w',
    App.parse_loop divs results w
    = (Ok (results ++ omap App.parse_candidate divs)%list, w')
    /\ now w' = now w /\ sent w' = sent w /\ draws w' = draws w
    /\ cache w' = cache w
    /\ (Forall (fun div => forall e, App.try_candidate div <> Raise e) divs ->
        w' = w).
Proof.
  induction divs as [|div rest IH]; intros results w.
  - exists w. cbn [App.parse_loop omap list_omap]. rewrite app_nil_r.
    unfold ret. auto 10.
  - cbn [App.parse_loop].
    change (omap App.parse_candidate (div :: rest))
      with (match App.parse_candidate div with
            | Some r => r :: omap App.parse_candidate rest
            | None => omap App.parse_candidate rest
            end).
    unfold App.parse_candidate at 1.
    destruct (App.try_candidate div) as [[result|]|e] eqn:Htry.
    + destruct (IH (results ++ [result])%list w) as (w' & Hrun & Hrest).
      exists w'. rewrite Hrun, <- app_assoc. split; [reflexivity|].
      destruct Hrest as (? & ? & ? & ? & Hsame). repeat (split; [assumption|]).
      intros Hall. apply Hsame. inversion Hall; assumption.
    + destruct (IH results w) as (w' & Hrun & Hrest).
      exists w'. rewrite Hrun. split; [reflexivity|].
      destruct Hrest as (? & ? & ? & ? & Hsame). repeat (split; [assumption|]).
      intros Hall. apply Hsame. inversion Hall; assumption.
    + unfold bind at 1. unfold logging at 1. cbv beta iota.
      set (w1 := mkWorld _ _ _ _ _).
      destruct (IH results w1) as (w' & Hrun & Hn & Hs & Hd & Hc & _).
      exists w'. rewrite Hrun. split; [reflexivity|].
      repeat (split; [assumption|]).
      intros Hall. exfalso. inversion Hall as [|? ? Hdiv _]; subst.
      exact (Hdiv e Htry).
Qed.

Lemma main_parse_loop_run `{PyLib} (divs : list Node) :
  forall (results : list Main.SearchResult) (w : World Main.CacheStore),
  exists w',
    Main.parse_loop divs results w
    = (Ok (results ++ omap Main.parse_candidate divs)%list, w')
    /\ now w' = now w /\ sent w' = sent w /\ draws w' = draws w
    /\ cache w' = cache w
    /\ (Forall (fun div => forall e, Main.try_candidate div <> Raise e) divs ->
        w' = w).
Proof.
  induction divs as [|div rest IH]; intros results w.
  - exists w. cbn [Main.parse_loop omap list_omap]. rewrite app_nil_r.
    unfold ret. auto 10.
  - cbn [Main.parse_loop].
    change (omap Main.parse_candidate (div :: rest))
      with (match Main.parse_candidate div with
            | Some r => r :: omap Main.parse_candidate rest
            | None => omap Main.parse_candidate rest
            end).
    unfold Main.parse_candidate at 1.
    destruct (Main.try_candidate div) as [[result|]|e] eqn:Htry.
    + destruct (IH (results ++ [result])%list w) as (w' & Hrun & Hrest).
      exists w'. rewrite Hrun, <- app_assoc. split; [reflexivity|].
      destruct Hrest as (? & ? & ? & ? & Hsame). repeat (split; [assumption|]).
      intros Hall. apply Hsame. inversion Hall; assumption.
    + destruct (IH results w) as (w' & Hrun & Hrest).
      exists w'. rewrite Hrun. split; [reflexivity|].
      destruct Hrest as (? & ? & ? & ? & Hsame). repeat (split; [assumption|]).
      intros Hall. apply Hsame. inversion Hall; assumption.
    + unfold bind at 1. unfold logging at 1. cbv beta iota.
      set (w1 := mkWorld _ _ _ _ _).
      destruct (IH results w1) as (w' & Hrun & Hn & Hs & Hd & Hc & _).
      exists w'. rewrite Hrun. split; [reflexivity|].
      repeat (split; [assumption|]).
      intros Hall. exfalso. inversion Hall as [|? ? Hdiv _]; subst.
      exact (Hdiv e Htry).
Qed.

(** [_parse_results] of app.py on a document the HTML parser reads. *)
Lemma app_parse_results_run `{PyLib} (html : string) (soup : Node)
  (w : World (gmap string (list App.Result))) :
  html_parser html = Ok soup ->
  exists w',
    App._parse_results html w = (Ok (App.parse_soup soup), w')
    /\ now w' = now w /\ sent w' = sent w /\ draws w' = draws w
    /\ cache w' = cache w.
Proof.
  intros Hsoup. unfold App._parse_results, bind, lift. rewrite Hsoup.
  destruct (app_parse_loop_run (Soup.find_all ["div"] ["tF2Cxc"] soup)
              match App._extract_info_box soup with
              | Some info_box => [App.InfoBoxResult info_box]
              | None => []
              end w) as (w' & Hrun & Hn & Hs & Hd & Hc & _).
  exists w'. split; [exact Hrun | auto].
Qed.

(** [_parse_results] of main.py never raises. *)
Lemma main_parse_results_run `{PyLib} (html : string) (w : World Main.CacheStore) :
  exists results w',
    Main._parse_results html w = (Ok results, w')
    /\ now w' = now w /\ sent w' = sent w /\ draws w' = draws w
    /\ cache w' = cache w
    /\ match html_parser html with
       | Ok soup => results = Main.parse_soup soup
       | Raise _ => results = []
       end.
Proof.
  unfold Main._parse_results.
  destruct (html_parser html) as [soup|e].
  - destruct (main_parse_loop_run
                (Soup.find_all ["div"; "article"] ["g"; "result"] soup) [] w)
      as (w' & Hrun & Hn & Hs & Hd & Hc & _).
    eexists _, w'. split; [exact Hrun|]. auto 10.
  - unfold bind, logging, ret. cbv beta iota. eexists _, _.
    split; [reflexivity|]. cbn. auto 10.
Qed.




(** ** The fetchers *)

Lemma non_200_not_200 (o : NetOutcome) : non_200_response o -> not_200 o.
Proof. intros (r & -> & Hr) r' [= <-]. exact Hr. Qed.

(** One attempt of main.py's fetcher sends one request and ends as the
    answer to it tells. *)
Lemma main_fetch_attempt_run (env : Env) (url : string)
  (params : list (string * Param)) (backoff_factor : Q) (attempt : nat)
  (w : World Main.CacheStore) :
  exists rq w1,
    Main.fetch_attempt env url params backoff_factor attempt w
    = (match http env (length (sent w)) rq with
       | Responded r => if status_code r =? 200 then Ok (Some r) else Ok None
       | NetworkError msg => Raise (RequestException msg)
       end, w1)
    /\ sent w1 = (sent w ++ [rq])%list
    /\ cache w1 = cache w.
Proof.
  unfold Main.fetch_attempt, Main._get_headers, bind, random_uniform,
    time_sleep, user_agent, session_get, ret. simpl.
  match goal with
  | |- context [http env _ (mkRequest ?u ?p ?h ?t)] => exists (mkRequest u p h t)
  end.
  destruct (http env _ _) as [r|msg]; simpl.
  - destruct (status_code r =? 200); simpl.
    + eexists. split; [reflexivity|]. split; reflexivity.
    + destruct (_ || _); simpl; eexists; (split; [reflexivity|]);
        split; reflexivity.
  - eexists. split; [reflexivity|]. split; reflexivity.
Qed.

Lemma main_fetch_loop_exhausted (env : Env) (url : string)
  (params : list (string * Param)) (max_retries : Z) (backoff_factor : Q)
  (attempts : list nat) :
  forall (last_exception : option Exn) (w : World Main.CacheStore),
    (forall k rq, (length (sent w) <= k < length (sent w) + length attempts)%nat ->
                  not_200 (http env k rq)) ->
    exists e w',
      Main.fetch_loop env url params max_retries backoff_factor attempts
        last_exception w = (Raise e, w')
      /\ cache w' = cache w
      /\ length (sent w') = (length (sent w) + length attempts)%nat
      /\ ((forall k rq,
              (length (sent w) <= k < length (sent w) + length attempts)%nat ->
              non_200_response (http env k rq)) ->
          e = match last_exception with
              | Some e0 => e0
              | None => OtherException ("Failed to fetch " +:+ url +:+ " after "
                                        +:+ str_int max_retries +:+ " attempts")
              end).
Proof.
  induction attempts as [|attempt rest IH]; intros last w Hno; simpl.
  - destruct last as [e0|]; unfold raise; simpl; eauto 10.
  - destruct (main_fetch_attempt_run env url params backoff_factor attempt w)
      as (rq & w1 & Hrun & Hsent & Hcache).
    assert (Hlen : length (sent w1) = S (length (sent w))).
    { rewrite Hsent, length_app. simpl. lia. }
    unfold bind at 1. unfold try_except. unfold bind at 1. rewrite Hrun.
    assert (Hrest : forall k rq',
               (length (sent w1) <= k < length (sent w1) + length rest)%nat ->
               not_200 (http env k rq')).
    { intros k rq' Hk. apply Hno. simpl. lia. }
    pose proof (Hno (length (sent w)) rq ltac:(simpl; lia)) as Hhere.
    destruct (http env (length (sent w)) rq) as [r|msg] eqn:Hanswer.
    + destruct (Z.eqb_spec (status_code r) 200) as [H200|_].
      { exfalso. apply (Hhere r); [reflexivity | exact H200]. }
      unfold ret. simpl.
      destruct (IH last w1 Hrest) as (e & w' & He & Hc & Hl & Hchar).
      exists e, w'. split; [exact He|]. split; [congruence|].
      split; [simpl; lia|].
      intros Hall. apply Hchar. intros k rq' Hk. apply Hall. simpl. lia.
    + simpl. unfold bind, logging, ret. simpl.
      set (w2 := mkWorld _ _ _ _ _).
      assert (Hrest2 : forall k rq',
                 (length (sent w2) <= k < length (sent w2) + length rest)%nat ->
                 not_200 (http env k rq')) by exact Hrest.
      destruct (IH (Some (RequestException msg)) w2 Hrest2)
        as (e & w' & He & Hc & Hl & _).
      exists e, w'. split; [exact He|]. split; [simpl in Hc; congruence|].
      split; [simpl in Hl; simpl; lia|].
      intros Hall. exfalso.
      destruct (Hall (length (sent w)) rq ltac:(simpl; lia)) as (r & Hr & _).
      congruence.
Qed.

(** What main.py's fetcher returns is a response of status 200. *)
Lemma main_fetch_loop_ok (env : Env) (url : string)
  (params : list (string * Param)) (max_retries : Z) (backoff_factor : Q)
  (attempts : list nat) :
  forall (last_exception : option Exn) (w : World Main.CacheStore) (r : Response),
    fst (Main.fetch_loop env url params max_retries backoff_factor attempts
           last_exception w) = Ok r ->
    status_code r = 200.
Proof.
  induction attempts as [|attempt rest IH]; intros last w r; simpl.
  - destruct last; discriminate.
  - destruct (main_fetch_attempt_run env url params backoff_factor attempt w)
      as (rq & w1 & Hrun & _ & _).
    unfold bind at 1. unfold try_except. unfold bind at 1. rewrite Hrun.
    destruct (http env (length (sent w)) rq) as [r1|msg].
    + destruct (Z.eqb_spec (status_code r1) 200) as [H200|_];
        unfold ret; simpl.
      * intros [= <-]. exact H200.
      * apply IH.
    + simpl. unfold bind, logging, ret. simpl. apply IH.
Qed.

(** One attempt of app.py's fetcher. *)
Lemma app_fetch_attempt_run (env : Env) (url : string)
  (params : list (string * Param)) (w : World (gmap string (list App.Result))) :
  exists rq w1,
    App.fetch_attempt env url params w
    = (match http env (length (sent w)) rq with
       | Responded r => if status_code r =? 200 then Ok (Some r) else Ok None
       | NetworkError msg => Raise (RequestException msg)
       end, w1)
    /\ sent w1 = (sent w ++ [rq])%list
    /\ cache w1 = cache w.
Proof.
  unfold App.fetch_attempt, App._get_headers, bind, random_uniform,
    time_sleep, user_agent, session_get, ret. simpl.
  match goal with
  | |- context [http env _ (mkRequest ?u ?p ?h ?t)] => exists (mkRequest u p h t)
  end.
  destruct (http env _ _) as [r|msg]; simpl.
  - destruct (status_code r =? 200); simpl;
      eexists; (split; [reflexivity|]); split; reflexivity.
  - eexists. split; [reflexivity|]. split; reflexivity.
Qed.

(** However its attempts end, app.py's fetch loop leaves the cache
    alone and only adds to the requests sent; when it raises, the
    exception is the network failure of one of its requests. *)
Lemma app_fetch_loop_run (env : Env) (url : string)
  (params : list (string * Param)) (max_retries : Z) (attempts : list nat) :
  forall (w : World (gmap string (list App.Result))),
  exists res w',
    App.fetch_loop env url params max_retries attempts w = (res, w')
    /\ cache w' = cache w
    /\ (length (sent w) <= length (sent w'))%nat
    /\ (attempts <> [] -> (length (sent w) < length (sent w'))%nat)
    /\ (forall r, res = Ok (Some r) ->
          status_code r = 200 /\ exists k rq, http env k rq = Responded r)
    /\ (forall e, res = Raise e ->
          exists k rq msg,
            (length (sent w) <= k < length (sent w) + length attempts)%nat
            /\ http env k rq = NetworkError msg
            /\ e = RequestException msg)
    /\ ((forall k rq,
            (length (sent w) <= k < length (sent w) + length attempts)%nat ->
            non_200_response (http env k rq)) ->
        res = Ok None).
Proof.
  induction attempts as [|attempt rest IH]; intros w; simpl.
  - unfold ret. exists (Ok None), w. repeat split; try congruence; try lia.
  - destruct (app_fetch_attempt_run env url params w)
      as (rq & w1 & Hrun & Hsent & Hcache).
    assert (Hlen : length (sent w1) = S (length (sent w))).
    { rewrite Hsent, length_app. simpl. lia. }
    unfold bind at 1. unfold try_except. rewrite Hrun.
    destruct (http env (length (sent w)) rq) as [r|msg] eqn:Hanswer.
    + destruct (Z.eqb_spec (status_code r) 200) as [H200|Hnot].
      * unfold ret. exists (Ok (Some r)), w1.
        repeat split; try congruence; try lia.
        { match goal with
          | Heq : Ok (Some _) = Ok (Some _) |- _ => injection Heq as <-
          end. eauto. }
        intros Hall.
        destruct (Hall (length (sent w)) rq ltac:(simpl; lia)) as (r' & Hr & Hs).
        congruence.
      * destruct (IH w1) as (res & w' & Hloop & Hc & Hmono & _ & Hok & Hraise & Hall).
        exists res, w'. rewrite Hloop. split; [reflexivity|].
        split; [congruence|]. split; [lia|]. split; [intros _; lia|].
        split; [exact Hok|]. split.
        -- intros e He. destruct (Hraise e He) as (k & rq' & m & Hk & Hnet & Hexn).
           exists k, rq', m. split; [simpl; lia | auto].
        -- intros Hnon. apply Hall. intros k rq' Hk. apply Hnon. simpl. lia.
    + simpl. unfold bind at 1. unfold logging at 1. simpl.
      set (w2 := mkWorld _ _ _ _ _).
      destruct (Z.of_nat attempt =? max_retries - 1).
      * unfold raise. exists (Raise (RequestException msg)), w2.
        split; [reflexivity|]. split; [exact Hcache|].
        split; [simpl; lia|]. split; [intros _; simpl; lia|].
        split; [congruence|]. split.
        -- intros e [= <-]. exists (length (sent w)), rq, msg.
           split; [simpl; lia | auto].
        -- intros Hnon.
           destruct (Hnon (length (sent w)) rq ltac:(simpl; lia)) as (r' & Hr & _).
           congruence.
      * unfold ret.
        destruct (IH w2) as (res & w' & Hloop & Hc & Hmono & _ & Hok & Hraise & _).
        exists res, w'. rewrite Hloop. split; [reflexivity|].
        split; [simpl in Hc; congruence|].
        split; [simpl in Hmono; lia|]. split; [intros _; simpl in Hmono; lia|].
        split; [exact Hok|]. split.
        -- intros e He. destruct (Hraise e He) as (k & rq' & m & Hk & Hnet & Hexn).
           exists k, rq', m. split; [simpl in Hk; simpl; lia | auto].
        -- intros Hnon.
           destruct (Hnon (length (sent w)) rq ltac:(simpl; lia)) as (r' & Hr & _).
           congruence.
Qed.

Lemma length_range (n : Z) : length (Py.range n) = Z.to_nat n.
Proof. unfold Py.range. apply length_seq. Qed.

(** What the caller of main.py's fetcher makes of its exception: an
    engine task none of whose two attempts gets a 200 yields no
    results, and does not raise. *)
Lemma main_search_single_engine_exhausted `{PyLib} (env : Env)
  (search_url query : string) (page : Z) (w : World Main.CacheStore) :
  (forall k rq, (length (sent w) <= k < length (sent w) + 2)%nat ->
                not_200 (http env k rq)) ->
  exists w', Main._search_single_engine env search_url query page w = (Ok [], w').
Proof.
  intros Hno.
  unfold Main._search_single_engine, try_except, Main._fetch_with_retry.
  cbv zeta. unfold bind at 1.
  destruct (main_fetch_loop_exhausted env search_url
              [("q", PStr query); ("start", PInt ((page - 1) * 10));
               ("num", PInt 10); ("hl", PStr "en"); ("safe", PStr "active")]
              2 (3#10) (Py.range 2) None w Hno) as (e & w1 & Hfetch & _).
  rewrite Hfetch. cbn [is_Exception]. unfold bind, logging, ret.
  cbv beta iota. eexists. reflexivity.
Qed.

(** C2, as the code has it.  app.py's fetcher: when every attempt is
    answered with a non-200 status it returns [None], no response, and
    does not raise; when it raises, the exception is the network failure
    of one of its attempts.  main.py's fetcher never returns "no
    response": what it returns is a response of status 200, and when no
    attempt gets one it raises, a generic "Failed to fetch" exception
    if every attempt was answered with a non-200 status; its caller
    [_search_single_engine] turns the exception into zero results. *)
Theorem fetch_exhausted `{PyLib} (env : Env) (url : string)
  (params : list (string * Param)) (max_retries : Z) (backoff_factor : Q)
  (wa : World (gmap string (list App.Result))) (wm : World Main.CacheStore) :
  (all_non_200 env (length (sent wa)) (Z.to_nat max_retries) ->
   fst (App._fetch_with_retry env url params max_retries wa) = Ok None)
  /\ (forall e,
         fst (App._fetch_with_retry env url params max_retries wa) = Raise e ->
         exists k rq msg,
           (length (sent wa) <= k < length (sent wa) + Z.to_nat max_retries)%nat
           /\ http env k rq = NetworkError msg
           /\ e = RequestException msg)
  /\ (forall r,
         fst (Main._fetch_with_retry env url params max_retries backoff_factor wm)
         = Ok r ->
         status_code r = 200)
  /\ ((forall k rq,
          (length (sent wm) <= k < length (sent wm) + Z.to_nat max_retries)%nat ->
          not_200 (http env k rq)) ->
      exists e,
        fst (Main._fetch_with_retry env url params max_retries backoff_factor wm)
        = Raise e)
  /\ (all_non_200 env (length (sent wm)) (Z.to_nat max_retries) ->
      fst (Main._fetch_with_retry env url params max_retries backoff_factor wm)
      = Raise (OtherException ("Failed to fetch " +:+ url +:+ " after "
                               +:+ str_int max_retries +:+ " attempts")))
  /\ (forall query page,
         (forall k rq,
             (length (sent wm) <= k < length (sent wm) + 2)%nat ->
             not_200 (http env k rq)) ->
         (exists e,
             fst (Main._fetch_with_retry env url
                    [("q", PStr query); ("start", PInt ((page - 1) * 10));
                     ("num", PInt 10); ("hl", PStr "en");
                     ("safe", PStr "active")] 2 (3#10) wm) = Raise e)
         /\ fst (Main._search_single_engine env url query page wm) = Ok []).
Proof.
  assert (Hcaller : forall query page,
             (forall k rq,
                 (length (sent wm) <= k < length (sent wm) + 2)%nat ->
                 not_200 (http env k rq)) ->
             (exists e,
                 fst (Main._fetch_with_retry env url
                        [("q", PStr query); ("start", PInt ((page - 1) * 10));
                         ("num", PInt 10); ("hl", PStr "en");
                         ("safe", PStr "active")] 2 (3#10) wm) = Raise e)
             /\ fst (Main._search_single_engine env url query page wm) = Ok []).
  { intros query page Hno. split.
    - unfold Main._fetch_with_retry.
      destruct (main_fetch_loop_exhausted env url
                  [("q", PStr query); ("start", PInt ((page - 1) * 10));
                   ("num", PInt 10); ("hl", PStr "en"); ("safe", PStr "active")]
                  2 (3#10) (Py.range 2) None wm Hno) as (e & w' & Hm & _).
      exists e. rewrite Hm. reflexivity.
    - destruct (main_search_single_engine_exhausted env url query page wm Hno)
        as (w' & Hengine).
      rewrite Hengine. reflexivity. }
  unfold App._fetch_with_retry, Main._fetch_with_retry in *.
  destruct (app_fetch_loop_run env url params max_retries
              (Py.range max_retries) wa)
    as (res & wa' & Hrun & _ & _ & _ & _ & Hraise & Hnone).
  rewrite length_range in Hraise, Hnone. rewrite Hrun. simpl.
  split; [exact Hnone|]. split; [exact Hraise|].
  split; [apply main_fetch_loop_ok|].
  split; [|split; [|exact Hcaller]].
  - intros Hno.
    destruct (main_fetch_loop_exhausted env url params max_retries
                backoff_factor (Py.range max_retries) None wm)
      as (e & w' & Hm & _); [rewrite length_range; exact Hno|].
    exists e. rewrite Hm. reflexivity.
  - intros Hall.
    destruct (main_fetch_loop_exhausted env url params max_retries
                backoff_factor (Py.range max_retries) None wm)
      as (e & w' & Hm & _ & _ & Hchar).
    + rewrite length_range. intros k rq Hk. apply non_200_not_200, Hall, Hk.
    + rewrite Hm. simpl. f_equal. apply Hchar.
      rewrite length_range. exact Hall.
Qed.

Lemma all_non_200_env_500 (from count : nat) :
  all_non_200 Fixtures.env_500 from count.
Proof. intros k rq _. eexists. split; [reflexivity | discriminate]. Qed.

Lemma fetch_exhausted_witness :
  fst (App._fetch_with_retry Fixtures.env_500 App.base_url [] 5 Fixtures.app_world)
  = Ok None
  /\ fst (Main._fetch_with_retry Fixtures.env_500 "https://www.bing.com/search"
            [] 2 (3#10) Fixtures.main_world)
     = Raise (OtherException
                "Failed to fetch https://www.bing.com/search after 2 attempts")
  /\ (exists e,
         fst (Main._fetch_with_retry Fixtures.env_down "https://www.bing.com/search"
                [] 2 (3#10) Fixtures.main_world) = Raise e)
  /\ fst (Main._search_single_engine (lib := Fixtures.lib) Fixtures.env_500
            "https://www.bing.com/search" "m3" 1 Fixtures.main_world) = Ok [].
Proof.
  pose proof (fetch_exhausted (H := Fixtures.lib) Fixtures.env_500
                App.base_url [] 5 (3#10)
                Fixtures.app_world Fixtures.main_world) as (Happ & _).
  pose proof (fetch_exhausted (H := Fixtures.lib) Fixtures.env_500
                "https://www.bing.com/search" [] 2 (3#10)
                Fixtures.app_world Fixtures.main_world)
    as (_ & _ & _ & _ & Hmain & Hengine).
  pose proof (fetch_exhausted (H := Fixtures.lib) Fixtures.env_down
                "https://www.bing.com/search" [] 2 (3#10)
                Fixtures.app_world Fixtures.main_world) as (_ & _ & _ & Hdown & _).
  split; [|split; [|split]].
  - apply Happ. apply all_non_200_env_500.
  - apply Hmain. apply all_non_200_env_500.
  - apply Hdown. intros k rq _ r. discriminate.
  - apply (Hengine "m3" 1). intros k rq _ r [= <-]. discriminate.
Defined.

(** C2 as stated fails on main.py: with two attempts both answered by
    status 500 and no network failure at all, the fetcher raises
    instead of returning "no response". *)
Lemma main_fetch_counterexample :
  all_non_200 Fixtures.env_500 (length (sent Fixtures.main_world)) 2
  /\ fst (Main._fetch_with_retry Fixtures.env_500 "https://www.bing.com/search"
            [] 2 (3#10) Fixtures.main_world)
     = Raise (OtherException
                "Failed to fetch https://www.bing.com/search after 2 attempts")
  /\ req_url
       <$> sent (snd (Main._fetch_with_retry Fixtures.env_500
                        "https://www.bing.com/search" [] 2 (3#10)
                        Fixtures.main_world))
     = ["https://www.bing.com/search"; "https://www.bing.com/search"]
  /\ log (snd (Main._fetch_with_retry Fixtures.env_500
                 "https://www.bing.com/search" [] 2 (3#10) Fixtures.main_world))
     = [(ERROR, "HTTP 500 on attempt 1 for https://www.bing.com/search");
        (ERROR, "HTTP 500 on attempt 2 for https://www.bing.com/search")].
Proof.
  split; [apply all_non_200_env_500|].
  repeat split; vm_compute; reflexivity.
Qed.

(** ** The caches *)

Lemma main_save_to_cache_run (key : string) (data : list Main.PyItem)
  (expire_time : Q) (w : World Main.CacheStore) :
  Main._save_to_cache key data expire_time w
  = (Ok tt,
     mkWorld (now w) (sent w) (draws w)
       (match cache w with
        | Main.Redis db =>
            Main.Redis (<[key := (data, (now w + expire_time)%Q)]> db)
        | Main.InMemory m =>
            Main.InMemory (<[key := (data, (now w + expire_time)%Q)]> m)
        end)
       (log w)).
Proof.
  unfold Main._save_to_cache, bind, get_cache, time_time, put_cache. simpl.
  destruct (cache w); reflexivity.
Qed.

(** What [_get_from_cache] does, by the entry the store holds. *)
Lemma main_get_from_cache_run (key : string) (w : World Main.CacheStore) :
  Main._get_from_cache key w
  = match Main.store (cache w) !! key with
    | Some (data, expires) =>
        if Qlt_le_dec (now w) expires then (Ok (Some data), w)
        else (Ok None,
              match cache w with
              | Main.Redis _ => w
              | Main.InMemory m =>
                  mkWorld (now w) (sent w) (draws w)
                    (Main.InMemory (delete key m)) (log w)
              end)
    | None => (Ok None, w)
    end.
Proof.
  unfold Main._get_from_cache, bind, get_cache, time_time, put_cache, ret.
  simpl. destruct (cache w) as [db|m]; simpl.
  - unfold Main.redis_get. destruct (db !! key) as [[data expires]|];
      [destruct (Qlt_le_dec _ _)|]; reflexivity.
  - destruct (m !! key) as [[data expires]|];
      [destruct (Qlt_le_dec _ _)|]; reflexivity.
Qed.

(** app.py: a cached key is answered from the dict, without a look at
    the clock and without touching the world. *)
Lemma app_search_hit `{PyLib} (env : Env) (query : string) (page : Z)
  (w : World (gmap string (list App.Result))) (cached : list App.Result) :
  cache w !! (query +:+ "_" +:+ str_int page) = Some cached ->
  App.search env query page w = (Ok cached, w).
Proof.
  intros Hhit. unfold App.search, bind, get_cache. cbv zeta. simpl.
  rewrite Hhit. reflexivity.
Qed.

(** C5, as the code has it.  main.py: after
    [_save_to_cache(key, payload, ttl)] at time [now w0], in any later
    world [w] whose cache is still the one the save left,
    [_get_from_cache(key)] returns [payload] while fewer than [ttl]
    seconds have gone by, and returns [None] from then on, the in-memory
    store dropping the entry on that read.  app.py: the cache is a dict
    without expiry; a key it holds is answered with the stored results
    at any time. *)
Theorem cache_round_trip `{PyLib} (env : Env) (key : string)
  (payload : list Main.PyItem) (ttl : Q) (w0 w : World Main.CacheStore)
  (query : string) (page : Z) (cached : list App.Result)
  (wa : World (gmap string (list App.Result))) :
  (cache w = cache (snd (Main._save_to_cache key payload ttl w0)) ->
   ((now w < now w0 + ttl)%Q ->
    Main._get_from_cache key w = (Ok (Some payload), w))
   /\ ((now w0 + ttl <= now w)%Q ->
       fst (Main._get_from_cache key w) = Ok None
       /\ forall m,
            cache (snd (Main._get_from_cache key w)) = Main.InMemory m ->
            m !! key = None))
  /\ (cache wa !! (query +:+ "_" +:+ str_int page) = Some cached ->
      forall seconds : Q,
        App.search env query page (elapse seconds wa)
        = (Ok cached, elapse seconds wa)).
Proof.
  split.
  - intros Hcache. rewrite main_save_to_cache_run in Hcache. simpl in Hcache.
    rewrite main_get_from_cache_run, Hcache.
    destruct (cache w0) as [db|m0]; simpl; rewrite lookup_insert_eq.
    + split.
      * intros Hlt. destruct (Qlt_le_dec _ _) as [_|Hle]; [reflexivity|].
        exfalso. apply (Qlt_not_le _ _ Hlt Hle).
      * intros Hle. destruct (Qlt_le_dec _ _) as [Hlt|_].
        { exfalso. apply (Qlt_not_le _ _ Hlt Hle). }
        split; [reflexivity|]. simpl. intros m Hm. congruence.
    + split.
      * intros Hlt. destruct (Qlt_le_dec _ _) as [_|Hle]; [reflexivity|].
        exfalso. apply (Qlt_not_le _ _ Hlt Hle).
      * intros Hle. destruct (Qlt_le_dec _ _) as [Hlt|_].
        { exfalso. apply (Qlt_not_le _ _ Hlt Hle). }
        split; [reflexivity|]. simpl. intros m [= <-].
        apply lookup_delete_eq.
  - intros Hhit seconds. apply app_search_hit. exact Hhit.
Qed.

Lemma cache_round_trip_witness :
  Main._get_from_cache "suggest_m3"
    (elapse 1799
       (snd (Main._save_to_cache "suggest_m3" [Main.StrItem "m3 chip"] 1800
               Fixtures.main_world)))
  = (Ok (Some [Main.StrItem "m3 chip"]),
     elapse 1799
       (snd (Main._save_to_cache "suggest_m3" [Main.StrItem "m3 chip"] 1800
               Fixtures.main_world)))
  /\ fst (Main._get_from_cache "suggest_m3"
            (elapse 1800
               (snd (Main._save_to_cache "suggest_m3" [Main.StrItem "m3 chip"]
                       1800 Fixtures.main_world))))
     = Ok None
  /\ exists cached,
       cached <> []
       /\ App.search (lib := Fixtures.lib) Fixtures.env_down "m3" 1
            (elapse 1000000 Fixtures.app_world_cached)
          = (Ok cached, elapse 1000000 Fixtures.app_world_cached).
Proof.
  pose proof (cache_round_trip (H := Fixtures.lib) Fixtures.env_down
                "suggest_m3" [Main.StrItem "m3 chip"] 1800 Fixtures.main_world
                (elapse 1799
                   (snd (Main._save_to_cache "suggest_m3"
                           [Main.StrItem "m3 chip"] 1800 Fixtures.main_world)))
                "m3" 1
                (default [] (cache Fixtures.app_world_cached !! "m3_1"))
                Fixtures.app_world_cached) as (Hbefore & Happ).
  pose proof (cache_round_trip (H := Fixtures.lib) Fixtures.env_down
                "suggest_m3" [Main.StrItem "m3 chip"] 1800 Fixtures.main_world
                (elapse 1800
                   (snd (Main._save_to_cache "suggest_m3"
                           [Main.StrItem "m3 chip"] 1800 Fixtures.main_world)))
                "m3" 1 [] Fixtures.app_world_cached) as (Hafter & _).
  split; [|split].
  - apply Hbefore; [reflexivity | vm_compute; reflexivity].
  - apply Hafter; [reflexivity | vm_compute; discriminate].
  - eexists. split; [|apply Happ; vm_compute; reflexivity].
    vm_compute. discriminate.
Defined.

(** C5 as stated fails on app.py, whose cache has no ttl: the results
    stored for a key are still returned a million seconds later, with
    the network down and without a request being sent; the entry never
    becomes absent. *)
Lemma app_cache_counterexample :
  App.type_of
    <$> default [] (cache Fixtures.app_world_cached !! "m3_1")
  = ["info_box"; "regular"; "regular"]
  /\ fst (App.search (lib := Fixtures.lib) Fixtures.env_down "m3" 1
            (elapse 1000000 Fixtures.app_world_cached))
     = Ok (default [] (cache Fixtures.app_world_cached !! "m3_1"))
  /\ sent (snd (App.search (lib := Fixtures.lib) Fixtures.env_down "m3" 1
                  (elapse 1000000 Fixtures.app_world_cached)))
     = sent Fixtures.app_world_cached
  /\ fst (App.search (lib := Fixtures.lib) Fixtures.env_down "m3" 1
            (elapse 1000000 Fixtures.app_world))
     = Ok [].
Proof. repeat split; vm_compute; reflexivity. Qed.

(** ** Suggestions *)

(** app.py's [get_suggestions] goes to the network whatever the query. *)
Lemma app_get_suggestions_sends `{PyLib} (env : Env) (query : string)
  (w : World (gmap string (list App.Result))) :
  (length (sent w) < length (sent (snd (App.get_suggestions env query w))))%nat.
Proof.
  unfold App.get_suggestions, App._fetch_with_retry, try_except. cbv zeta.
  unfold bind at 1.
  destruct (app_fetch_loop_run env App.suggest_base_url
              [("client", PStr "firefox"); ("q", PStr query)] 5 (Py.range 5) w)
    as (res & w' & Hrun & _ & _ & Hsends & _).
  rewrite Hrun. specialize (Hsends ltac:(discriminate)).
  destruct res as [[r|]|e]; simpl.
  - destruct (_ && _); unfold lift, ret; simpl.
    + destruct (json_second (text r)); simpl; [exact Hsends|].
      unfold bind, logging, ret. simpl. exact Hsends.
    + exact Hsends.
  - unfold ret. simpl. exact Hsends.
  - unfold bind, logging, ret. simpl. exact Hsends.
Qed.

(** C9, as the code has it.  main.py: for a query shorter than two
    characters [get_suggestions] returns the empty list at once; the
    world is left as it was, so no request is sent.  app.py has no such
    guard: its [get_suggestions] sends a request for every query. *)
Theorem short_query_suggestions `{PyLib} (env : Env) (query : string)
  (wm : World Main.CacheStore) (wa : World (gmap string (list App.Result))) :
  ((String.length query < 2)%nat ->
   Main.get_suggestions env query wm = (Ok [], wm))
  /\ (length (sent wa)
      < length (sent (snd (App.get_suggestions env query wa))))%nat.
Proof.
  split.
  - intros Hshort. unfold Main.get_suggestions.
    destruct (Nat.ltb_spec (String.length query) 2) as [_|Hlong]; [|lia].
    rewrite orb_true_r. reflexivity.
  - apply app_get_suggestions_sends.
Qed.

Lemma short_query_suggestions_witness :
  Main.get_suggestions (lib := Fixtures.lib) Fixtures.env_page "a"
    Fixtures.main_world = (Ok [], Fixtures.main_world)
  /\ Main.get_suggestions (lib := Fixtures.lib) Fixtures.env_page ""
       Fixtures.main_world = (Ok [], Fixtures.main_world).
Proof.
  split.
  - apply (short_query_suggestions (H := Fixtures.lib) Fixtures.env_page "a"
             Fixtures.main_world Fixtures.app_world).
    simpl. lia.
  - apply (short_query_suggestions (H := Fixtures.lib) Fixtures.env_page ""
             Fixtures.main_world Fixtures.app_world).
    simpl. lia.
Defined.

(** C9 as stated fails on app.py: for the one-character query "a" its
    [get_suggestions] sends five requests to the suggestion endpoint
    (here all refused) before it returns the empty list. *)
Lemma app_short_query_counterexample :
  String.length "a" = 1%nat
  /\ fst (App.get_suggestions (lib := Fixtures.lib) Fixtures.env_down "a"
            Fixtures.app_world) = Ok []
  /\ req_url
       <$> sent (snd (App.get_suggestions (lib := Fixtures.lib)
                        Fixtures.env_down "a" Fixtures.app_world))
     = [App.suggest_base_url; App.suggest_base_url; App.suggest_base_url;
        App.suggest_base_url; App.suggest_base_url]
  /\ req_params
       <$> head (sent (snd (App.get_suggestions (lib := Fixtures.lib)
                              Fixtures.env_down "a" Fixtures.app_world)))
     = Some [("client", PStr "firefox"); ("q", PStr "a")].
Proof. repeat split; vm_compute; reflexivity. Qed.

(** ** What leaves the cache alone *)

Section Frame.
Context {C : Type}.

Lemma keeps_ret {A} (a : A) : keeps_cache (ret (C := C) a).
Proof. intros w. reflexivity. Qed.

Lemma keeps_raise {A} (e : Exn) : keeps_cache (raise (C := C) (A := A) e).
Proof. intros w. reflexivity. Qed.

Lemma keeps_lift {A} (r : Exc A) : keeps_cache (lift (C := C) r).
Proof. intros w. reflexivity. Qed.

Lemma keeps_bind {A B} (m : M C A) (k : A -> M C B) :
  keeps_cache m -> (forall a, keeps_cache (k a)) -> keeps_cache (bind m k).
Proof.
  intros Hm Hk w. unfold bind. specialize (Hm w).
  destruct (m w) as [[a|e] w1]; simpl in *; [|exact Hm].
  rewrite Hk. exact Hm.
Qed.

Lemma keeps_try_except {A} (m : M C A) (handles : Exn -> bool)
  (handler : Exn -> M C A) :
  keeps_cache m -> (forall e, keeps_cache (handler e)) ->
  keeps_cache (try_except m handles handler).
Proof.
  intros Hm Hh w. unfold try_except. specialize (Hm w).
  destruct (m w) as [[a|e] w1]; simpl in *; [exact Hm|].
  destruct (handles e); simpl; [|exact Hm].
  rewrite Hh. exact Hm.
Qed.

Lemma keeps_time_time : keeps_cache (time_time (C := C)).
Proof. intros w. reflexivity. Qed.

Lemma keeps_time_sleep (d : Q) : keeps_cache (time_sleep (C := C) d).
Proof. intros w. reflexivity. Qed.

Lemma keeps_random_uniform (env : Env) (a b : Q) :
  keeps_cache (random_uniform (C := C) env a b).
Proof. intros w. reflexivity. Qed.

Lemma keeps_user_agent (env : Env) : keeps_cache (user_agent (C := C) env).
Proof. intros w. reflexivity. Qed.

Lemma keeps_session_get (env : Env) (rq : Request) :
  keeps_cache (session_get (C := C) env rq).
Proof.
  intros w. unfold session_get. destruct (http env _ _); reflexivity.
Qed.

Lemma keeps_logging (lvl : Level) (msg : string) :
  keeps_cache (logging (C := C) lvl msg).
Proof. intros w. reflexivity. Qed.

Lemma keeps_get_cache : keeps_cache (get_cache (C := C)).
Proof. intros w. reflexivity. Qed.

Lemma keeps_run_future {A} (task : M C A) :
  keeps_cache task -> keeps_cache (run_future task).
Proof.
  intros Ht w. unfold run_future. specialize (Ht w).
  destruct (task w) as [r w1]. exact Ht.
Qed.

Lemma keeps_run_futures {A} (tasks : list (M C A)) :
  Forall keeps_cache tasks -> keeps_cache (run_futures tasks).
Proof.
  induction 1 as [|task tasks Ht _ IH]; simpl.
  - apply keeps_ret.
  - apply keeps_bind; [apply keeps_run_future, Ht|]. intros r.
    apply keeps_bind; [exact IH|]. intros rs. apply keeps_ret.
Qed.

Lemma keeps_as_completed {A} (env : Env) (tasks : list (M C A)) :
  Forall keeps_cache tasks -> keeps_cache (as_completed env tasks).
Proof.
  intros Ht w. unfold as_completed.
  destruct (completes_reversed env (draws w)).
  - apply keeps_run_futures, Forall_rev, Ht.
  - apply keeps_run_futures, Ht.
Qed.

(** [future.result()] of a task that never raises is a value. *)
Lemma run_futures_values {A} (tasks : list (M C A)) (P : A -> Prop) :
  Forall (fun task => forall w, exists a, fst (task w) = Ok a /\ P a) tasks ->
  forall w, exists futures,
    fst (run_futures tasks w) = Ok futures
    /\ Forall (fun future => exists a, future = Ok a /\ P a) futures.
Proof.
  induction 1 as [|task tasks Ht _ IH]; intros w; simpl.
  - exists []. split; [reflexivity | constructor].
  - unfold bind at 1. unfold run_future.
    destruct (Ht w) as (a & Ha & HP).
    destruct (task w) as [r w1]. simpl in Ha. subst r.
    unfold bind at 1. destruct (IH w1) as (futures & Hf & Hall).
    destruct (run_futures tasks w1) as [rs w2]. simpl in Hf. subst rs.
    unfold ret. simpl. eexists. split; [reflexivity|].
    constructor; [eauto | exact Hall].
Qed.

Lemma as_completed_values {A} (env : Env) (tasks : list (M C A))
  (P : A -> Prop) :
  Forall (fun task => forall w, exists a, fst (task w) = Ok a /\ P a) tasks ->
  forall w, exists futures,
    fst (as_completed env tasks w) = Ok futures
    /\ Forall (fun future => exists a, future = Ok a /\ P a) futures.
Proof.
  intros Ht w. unfold as_completed.
  destruct (completes_reversed env (draws w)).
  - apply run_futures_values. apply Forall_rev. exact Ht.
  - apply run_futures_values. exact Ht.
Qed.

End Frame.

Ltac keeps :=
  repeat first
    [ apply keeps_ret | apply keeps_raise | apply keeps_lift
    | apply keeps_time_time | apply keeps_time_sleep
    | apply keeps_random_uniform | apply keeps_user_agent
    | apply keeps_session_get | apply keeps_logging | apply keeps_get_cache
    | apply keeps_bind; [|intros ?]
    | apply keeps_try_except; [|intros ?]
    | match goal with
      | |- keeps_cache (if ?b then _ else _) => destruct b
      | |- keeps_cache (match ?x with _ => _ end) => destruct x
      | |- keeps_cache (let '(_, _) := ?x in _) => destruct x
      end ].

(** ** [ImprovedSearch.search] *)

Lemma keeps_main_fetch_attempt (env : Env) (url : string)
  (params : list (string * Param)) (backoff_factor : Q) (attempt : nat) :
  keeps_cache (Main.fetch_attempt env url params backoff_factor attempt).
Proof.
  intros w.
  destruct (main_fetch_attempt_run env url params backoff_factor attempt w)
    as (rq & w1 & Hrun & _ & Hcache).
  rewrite Hrun. exact Hcache.
Qed.

Lemma keeps_main_fetch_loop (env : Env) (url : string)
  (params : list (string * Param)) (max_retries : Z) (backoff_factor : Q)
  (attempts : list nat) :
  forall last_exception,
    keeps_cache (Main.fetch_loop env url params max_retries backoff_factor
                   attempts last_exception).
Proof.
  induction attempts as [|attempt rest IH]; intros last; simpl.
  - keeps.
  - apply keeps_bind.
    + apply keeps_try_except; [|intros e; keeps].
      apply keeps_bind; [apply keeps_main_fetch_attempt | intros r; keeps].
    + intros [[response|] last']; [keeps | apply IH].
Qed.

Lemma keeps_main_parse_results `{PyLib} (html : string) :
  keeps_cache (Main._parse_results html).
Proof.
  intros w. destruct (main_parse_results_run html w)
    as (results & w' & Hrun & _ & _ & _ & Hcache & _).
  rewrite Hrun. exact Hcache.
Qed.

(** One engine's task never raises and leaves the cache alone; when no
    request is answered with a 200 it yields no results. *)
Lemma main_search_single_engine_run `{PyLib} (env : Env)
  (search_url query : string) (page : Z) (w : World Main.CacheStore) :
  exists results,
    fst (Main._search_single_engine env search_url query page w) = Ok results
    /\ (never_200 env -> results = []).
Proof.
  unfold Main._search_single_engine, try_except, Main._fetch_with_retry.
  cbv zeta. unfold bind at 1.
  set (params := [("q", PStr query); ("start", PInt ((page - 1) * 10));
                  ("num", PInt 10); ("hl", PStr "en"); ("safe", PStr "active")]).
  destruct (Main.fetch_loop env search_url params 2 (3#10) (Py.range 2) None w)
    as [[response|e] w1] eqn:Hfetch.
  - destruct (response_truthy response && Py.truthy (text response)).
    + destruct (main_parse_results_run (text response) w1)
        as (results & w2 & Hparse & _).
      rewrite Hparse. exists results. split; [reflexivity|].
      intros Hnever. exfalso.
      destruct (main_fetch_loop_exhausted env search_url params 2 (3#10)
                  (Py.range 2) None w) as (e & w' & Hraise & _).
      { intros k rq _. apply Hnever. }
      congruence.
    + unfold ret. simpl. exists []. split; reflexivity.
  - simpl. unfold bind, logging, ret. simpl. exists []. split; reflexivity.
Qed.

Lemma keeps_main_search_single_engine `{PyLib} (env : Env)
  (search_url query : string) (page : Z) :
  keeps_cache (Main._search_single_engine env search_url query page).
Proof.
  unfold Main._search_single_engine, Main._fetch_with_retry.
  apply keeps_try_except; [|intros e; keeps].
  cbv zeta. apply keeps_bind; [apply keeps_main_fetch_loop|].
  intros response. destruct (_ && _); [apply keeps_main_parse_results | keeps].
Qed.

(** With futures that all hold a value the collecting loop records no
    error; with futures that all hold the empty list it collects
    nothing. *)
Lemma main_collect_values (P : list Main.SearchResult -> Prop)
  (futures : list (Exc (list Main.SearchResult))) :
  Forall (fun future => exists a, future = Ok a /\ P a) futures ->
  forall results errors,
    snd (Main.collect futures results errors) = errors
    /\ ((forall a, P a -> a = []) ->
        fst (Main.collect futures results errors) = results).
Proof.
  induction 1 as [|future futures (a & -> & Ha) _ IH]; intros results errors;
    cbn [Main.collect].
  - split; [reflexivity | intros _; reflexivity].
  - destruct (5 <=? length (results ++ a))%nat eqn:Hquota; cbn [fst snd].
    + split; [reflexivity|]. intros Hnil. rewrite (Hnil a Ha).
      apply app_nil_r.
    + destruct (IH (results ++ a)%list errors) as [Herr Hres].
      split; [exact Herr|]. intros Hnil. rewrite (Hres Hnil), (Hnil a Ha).
      apply app_nil_r.
Qed.

Lemma main_rank_nil `{PyLib} (query : string) : Main._rank_results query [] = [].
Proof. reflexivity. Qed.

(** After a cache miss, with a store that answers, [search] returns
    the serialized ranked results of the engines, having stored them
    under the key; when no request is answered with a 200 these are
    none. *)
Lemma main_search_miss_run `{PyLib} (env : Env) (query : string) (page : Z)
  (cache_key : string) (w : World Main.CacheStore) :
  exists results w2,
    Main.search_miss env query page cache_key w
    = (Ok (map (fun r => Main.DictItem (Main.to_dict r)) results),
       snd (Main._save_to_cache cache_key
              (map (fun r => Main.DictItem (Main.to_dict r)) results) 3600 w2))
    /\ cache w2 = cache w
    /\ (never_200 env -> results = []).
Proof.
  unfold Main.search_miss. unfold bind at 1.
  set (tasks := map _ Main.search_urls).
  assert (Hkeeps : Forall keeps_cache tasks).
  { subst tasks. apply List.Forall_map, List.Forall_forall. intros url _.
    apply keeps_main_search_single_engine. }
  assert (Hvalues : Forall (fun task => forall w, exists a,
                                fst (task w) = Ok a
                                /\ (never_200 env -> a = [])) tasks).
  { subst tasks. apply List.Forall_map, List.Forall_forall. intros url _ w0.
    apply main_search_single_engine_run. }
  pose proof (keeps_as_completed env tasks Hkeeps w) as Hcache.
  destruct (as_completed_values env tasks _ Hvalues w) as (futures & Hf & Hall).
  destruct (as_completed env tasks w) as [fs w2]. simpl in Hf, Hcache. subst fs.
  destruct (main_collect_values _ futures Hall [] []) as [Herr Hres].
  destruct (Main.collect futures [] []) as [results errors].
  simpl in Herr, Hres. subst errors.
  exists (Main._rank_results query results), w2.
  split; [|split; [exact Hcache|]].
  - rewrite main_save_to_cache_run.
    destruct results; unfold bind; rewrite main_save_to_cache_run; reflexivity.
  - intros Hnever. rewrite Hres; [reflexivity|]. auto.
Qed.

Lemma main_search_unfold `{PyLib} (env : Env) (query : string) (page : Z)
  (w : World Main.CacheStore) :
  Main.search env query page w
  = match Main._get_from_cache (Main._get_cache_key query page) w with
    | (Ok (Some (item :: items)), w') => (Ok (item :: items), w')
    | (Ok _, w') =>
        Main.search_miss env query page (Main._get_cache_key query page) w'
    | (Raise e, w') => (Raise e, w')
    end.
Proof.
  unfold Main.search. cbv zeta. unfold bind at 1.
  destruct (Main._get_from_cache _ w) as [[[[|item items]|]|e] w'];
    reflexivity.
Qed.

(** [search] as a whole: a fresh non-empty entry is returned as it is
    and the world is not touched; otherwise the miss path runs, from the
    world the lookup left. *)
Lemma main_search_run `{PyLib} (env : Env) (query : string) (page : Z)
  (w : World Main.CacheStore) :
  (exists item items,
      Main._get_from_cache (Main._get_cache_key query page) w
      = (Ok (Some (item :: items)), w)
      /\ Main.search env query page w = (Ok (item :: items), w))
  \/ ((forall item items,
          fst (Main._get_from_cache (Main._get_cache_key query page) w)
          <> Ok (Some (item :: items)))
      /\ Main.search env query page w
         = Main.search_miss env query page (Main._get_cache_key query page)
             (snd (Main._get_from_cache (Main._get_cache_key query page) w))).
Proof.
  rewrite main_search_unfold.
  set (key := Main._get_cache_key query page).
  rewrite main_get_from_cache_run.
  destruct (Main.store (cache w) !! key) as [[data expires]|].
  - destruct (Qlt_le_dec (now w) expires).
    + destruct data as [|item items].
      * right. split; [discriminate | reflexivity].
      * left. exists item, items. split; reflexivity.
    + right. split; [discriminate | reflexivity].
  - right. split; [discriminate | reflexivity].
Qed.

(** main.py's [search] returns, in the deployment [server_up]. *)
Lemma main_search_returns `{PyLib} (env : Env) (query : string) (page : Z) :
  returns (Main.search env query page).
Proof.
  intros w. destruct (main_search_run env query page w)
    as [(item & items & _ & Hhit)|[_ Hmiss]].
  - rewrite Hhit. eauto.
  - rewrite Hmiss.
    destruct (main_search_miss_run env query page
                (Main._get_cache_key query page)
                (snd (Main._get_from_cache (Main._get_cache_key query page) w)))
      as (results & w2 & Hrun & _).
    rewrite Hrun. eauto.
Qed.

(** ** [AppleSearch.search] *)

(** app.py's [search] never raises, and returns nothing when the key is
    not cached and no request is answered with a 200. *)
Lemma app_search_run `{PyLib} (env : Env) (query : string) (page : Z)
  (w : World (gmap string (list App.Result))) :
  exists results,
    fst (App.search env query page w) = Ok results
    /\ (cache w !! (query +:+ "_" +:+ str_int page) = None ->
        never_200 env -> results = []).
Proof.
  unfold App.search. cbv zeta. unfold bind at 1. unfold get_cache at 1.
  destruct (cache w !! (query +:+ "_" +:+ str_int page)) as [cached|] eqn:Hkey.
  { unfold ret. simpl. exists cached. split; [reflexivity | discriminate]. }
  unfold try_except, App._fetch_with_retry. unfold bind at 1.
  set (params := [("q", PStr query); ("start", PInt ((page - 1) * 10));
                  ("num", PInt 10); ("hl", PStr "en")]).
  destruct (app_fetch_loop_run env App.base_url params 5 (Py.range 5) w)
    as (res & w1 & Hrun & _ & _ & _ & Hok & _).
  rewrite Hrun. destruct res as [[response|]|e].
  - destruct (negb (response_truthy response)).
    + unfold ret. simpl. exists []. split; reflexivity.
    + unfold bind at 1. unfold App._parse_results. unfold bind at 1.
      unfold lift.
      destruct (html_parser (text response)) as [soup|e].
      * destruct (app_parse_loop_run (Soup.find_all ["div"] ["tF2Cxc"] soup)
                    match App._extract_info_box soup with
                    | Some info_box => [App.InfoBoxResult info_box]
                    | None => []
                    end w1) as (w2 & Hloop & _).
        rewrite Hloop. unfold bind, get_cache, put_cache, ret. simpl.
        eexists. split; [reflexivity|]. intros _ Hnever. exfalso.
        destruct (Hok response eq_refl) as (H200 & k & rq & Hanswer).
        exact (Hnever k rq response Hanswer H200).
      * simpl. unfold bind, logging, ret. simpl. exists [].
        split; reflexivity.
  - unfold ret. simpl. exists []. split; reflexivity.
  - simpl. unfold bind, logging, ret. simpl. exists []. split; reflexivity.
Qed.

(** ** With and without a Redis server *)

Lemma bind_cong {C A B} (m1 m2 : M C A) (k1 k2 : A -> M C B) (w : World C) :
  m1 w = m2 w ->
  (forall a w', m2 w = (Ok a, w') -> k1 a w' = k2 a w') ->
  bind m1 k1 w = bind m2 k2 w.
Proof.
  intros Hm Hk. unfold bind. rewrite Hm.
  destruct (m2 w) as [[a|e] w']; [apply Hk|]; reflexivity.
Qed.

Lemma try_except_cong {C A} (m1 m2 : M C A) (handles : Exn -> bool)
  (handler : Exn -> M C A) (w : World C) :
  m1 w = m2 w ->
  try_except m1 handles handler w = try_except m2 handles handler w.
Proof. intros Hm. unfold try_except. rewrite Hm. reflexivity. Qed.

(** Without a server the two cache methods raise and touch nothing. *)
Lemma main_get_from_cache_down (srv : Main.RedisServer) (key : string)
  (w : World Main.CacheStore) :
  Main.answers (srv := srv) (cache w) = false ->
  Main._get_from_cache (srv := srv) key w = (Raise Main.ConnectionError, w).
Proof.
  unfold Main.answers, Main._get_from_cache, bind, get_cache. cbn [fst snd].
  destruct (cache w); [|discriminate]. intros ->. reflexivity.
Qed.

Lemma main_save_to_cache_down (srv : Main.RedisServer) (key : string)
  (data : list Main.PyItem) (expire_time : Q) (w : World Main.CacheStore) :
  Main.answers (srv := srv) (cache w) = false ->
  Main._save_to_cache (srv := srv) key data expire_time w
  = (Raise Main.ConnectionError, w).
Proof.
  unfold Main.answers, Main._save_to_cache, bind, get_cache, time_time.
  cbn [fst snd]. destruct (cache w); [|discriminate]. intros ->. reflexivity.
Qed.

(** With a store that answers they do what they do in the deployment
    [server_up]. *)
Lemma main_get_from_cache_answers (srv : Main.RedisServer) (key : string)
  (w : World Main.CacheStore) :
  Main.answers (srv := srv) (cache w) = true ->
  Main._get_from_cache (srv := srv) key w
  = Main._get_from_cache (srv := server_up) key w.
Proof.
  unfold Main.answers, Main._get_from_cache, bind, get_cache. cbn [fst snd].
  destruct (cache w); [intros ->|intros _]; reflexivity.
Qed.

Lemma main_save_to_cache_answers (srv : Main.RedisServer) (key : string)
  (data : list Main.PyItem) (expire_time : Q) (w : World Main.CacheStore) :
  Main.answers (srv := srv) (cache w) = true ->
  Main._save_to_cache (srv := srv) key data expire_time w
  = Main._save_to_cache (srv := server_up) key data expire_time w.
Proof.
  unfold Main.answers, Main._save_to_cache, bind, get_cache, time_time.
  cbn [fst snd]. destruct (cache w); [intros ->|intros _]; reflexivity.
Qed.

(** A lookup leaves the kind of the store as it is. *)
Lemma main_answers_after_lookup (srv : Main.RedisServer) (key : string)
  (w : World Main.CacheStore) :
  Main.answers (srv := srv)
    (cache (snd (Main._get_from_cache (srv := server_up) key w)))
  = Main.answers (srv := srv) (cache w).
Proof.
  rewrite main_get_from_cache_run.
  destruct (Main.store (cache w) !! key) as [[data expires]|]; [|reflexivity].
  destruct (Qlt_le_dec (now w) expires); [reflexivity|].
  destruct (cache w) as [db|m] eqn:Hc; cbn [snd]; [rewrite Hc|]; reflexivity.
Qed.

Lemma main_search_miss_answers `{PyLib} (srv : Main.RedisServer) (env : Env)
  (query : string) (page : Z) (cache_key : string) (w : World Main.CacheStore) :
  Main.answers (srv := srv) (cache w) = true ->
  Main.search_miss (srv := srv) env query page cache_key w
  = Main.search_miss (srv := server_up) env query page cache_key w.
Proof.
  intros Ha. unfold Main.search_miss.
  apply bind_cong; [reflexivity|]. intros futures w2 Hrun.
  assert (Hcache : cache w2 = cache w).
  { pose proof (keeps_as_completed env
                  (map (fun search_url =>
                          Main._search_single_engine env search_url query page)
                     Main.search_urls)) as Hkeeps.
    specialize (Hkeeps ltac:(apply List.Forall_map, List.Forall_forall;
                             intros url _;
                             apply keeps_main_search_single_engine) w).
    rewrite Hrun in Hkeeps. exact Hkeeps. }
  destruct (Main.collect futures [] []) as [results errors].
  destruct results as [|r results]; [destruct errors as [|e errors]|];
    try reflexivity;
    (apply bind_cong; [|reflexivity];
     apply main_save_to_cache_answers; rewrite Hcache; exact Ha).
Qed.

Lemma main_search_answers `{PyLib} (srv : Main.RedisServer) (env : Env)
  (query : string) (page : Z) (w : World Main.CacheStore) :
  Main.answers (srv := srv) (cache w) = true ->
  Main.search (srv := srv) env query page w
  = Main.search (srv := server_up) env query page w.
Proof.
  intros Ha. unfold Main.search. cbv zeta.
  apply bind_cong; [apply main_get_from_cache_answers, Ha|].
  intros cached w1 Hget.
  assert (Ha1 : Main.answers (srv := srv) (cache w1) = true).
  { rewrite <- Ha, <- (main_answers_after_lookup srv
                         (Main._get_cache_key query page) w), Hget.
    reflexivity. }
  destruct cached as [[|item items]|]; try reflexivity;
    apply main_search_miss_answers, Ha1.
Qed.

Lemma main_search_down `{PyLib} (srv : Main.RedisServer) (env : Env)
  (query : string) (page : Z) (w : World Main.CacheStore) :
  Main.answers (srv := srv) (cache w) = false ->
  Main.search (srv := srv) env query page w = (Raise Main.ConnectionError, w).
Proof.
  intros Ha. unfold Main.search. cbv zeta. unfold bind at 1.
  rewrite (main_get_from_cache_down srv _ w Ha). reflexivity.
Qed.

Lemma main_get_suggestions_answers `{PyLib} (srv : Main.RedisServer)
  (env : Env) (query : string) (w : World Main.CacheStore) :
  Main.answers (srv := srv) (cache w) = true ->
  Main.get_suggestions (srv := srv) env query w
  = Main.get_suggestions (srv := server_up) env query w.
Proof.
  intros Ha. unfold Main.get_suggestions.
  destruct (_ || _); [reflexivity|]. cbv zeta.
  apply bind_cong; [apply main_get_from_cache_answers, Ha|].
  intros cached w1 Hget.
  assert (Ha1 : Main.answers (srv := srv) (cache w1) = true).
  { rewrite <- Ha, <- (main_answers_after_lookup srv ("suggest_" +:+ query) w),
      Hget. reflexivity. }
  assert (Hmiss :
    try_except
      (response <- Main._fetch_with_retry env
                     "https://suggestqueries.google.com/complete/search"
                     [("client", PStr "chrome"); ("q", PStr query)] 2 (3#10);;
       if response_truthy response && (status_code response =? 200) then
         suggestions <- lift (json_second (text response));;
         Main._save_to_cache (srv := srv) ("suggest_" +:+ query)
           (map Main.StrItem suggestions) 1800;;;
         ret (map Main.StrItem suggestions)
       else ret [])
      is_Exception
      (fun e => logging ERROR ("Suggestion error: " +:+ str_exn e);;; ret [])
      w1
    = try_except
        (response <- Main._fetch_with_retry env
                       "https://suggestqueries.google.com/complete/search"
                       [("client", PStr "chrome"); ("q", PStr query)] 2 (3#10);;
         if response_truthy response && (status_code response =? 200) then
           suggestions <- lift (json_second (text response));;
           Main._save_to_cache (srv := server_up) ("suggest_" +:+ query)
             (map Main.StrItem suggestions) 1800;;;
           ret (map Main.StrItem suggestions)
         else ret [])
        is_Exception
        (fun e => logging ERROR ("Suggestion error: " +:+ str_exn e);;; ret [])
        w1).
  { apply try_except_cong. apply bind_cong; [reflexivity|].
    intros response w2 Hfetch.
    assert (Hcache : cache w2 = cache w1).
    { pose proof (keeps_main_fetch_loop env
                    "https://suggestqueries.google.com/complete/search"
                    [("client", PStr "chrome"); ("q", PStr query)] 2 (3#10)
                    (Py.range 2) None w1) as Hkeeps.
      unfold Main._fetch_with_retry in Hfetch. rewrite Hfetch in Hkeeps.
      exact Hkeeps. }
    destruct (_ && _); [|reflexivity].
    apply bind_cong; [reflexivity|]. intros suggestions w3 Hlift.
    unfold lift in Hlift. injection Hlift as _ <-.
    apply bind_cong; [|reflexivity].
    apply main_save_to_cache_answers. rewrite Hcache. exact Ha1. }
  destruct cached as [[|item items]|]; try reflexivity; exact Hmiss.
Qed.

Lemma main_get_suggestions_down `{PyLib} (srv : Main.RedisServer)
  (env : Env) (query : string) (w : World Main.CacheStore) :
  (2 <= String.length query)%nat ->
  Main.answers (srv := srv) (cache w) = false ->
  Main.get_suggestions (srv := srv) env query w
  = (Raise Main.ConnectionError, w).
Proof.
  intros Hlong Ha. unfold Main.get_suggestions.
  assert (Hguard : negb (Py.truthy query) || (String.length query <? 2)%nat
                   = false).
  { apply orb_false_iff. split.
    - destruct query; [simpl in Hlong; lia | reflexivity].
    - apply Nat.ltb_ge. exact Hlong. }
  rewrite Hguard. cbv zeta. unfold bind at 1.
  rewrite (main_get_from_cache_down srv _ w Ha). reflexivity.
Qed.

(** C1, where the code departs from it.  With a cache store that
    answers (the in-memory dict, or Redis with a server), [search] of
    main.py never raises, and returns the empty list when the cache
    does not answer the query and no request is answered with a 200;
    [search] of app.py does so always.  But the cache lookup of main.py
    stands outside every [try]: with [redis_client] set and no server
    answering, [search] raises [ConnectionError] before it sends
    anything, whatever the query and the page. *)
Theorem search_without_results `{PyLib} `{Main.RedisServer} (env : Env)
  (query : string) (page : Z)
  (wm : World Main.CacheStore) (wa : World (gmap string (list App.Result))) :
  (Main.answers (cache wm) = false ->
   Main.search env query page wm = (Raise Main.ConnectionError, wm))
  /\ (Main.answers (cache wm) = true ->
      (exists results, fst (Main.search env query page wm) = Ok results)
      /\ (never_200 env ->
          (forall item items,
              fst (Main._get_from_cache (Main._get_cache_key query page) wm)
              <> Ok (Some (item :: items))) ->
          fst (Main.search env query page wm) = Ok []))
  /\ (exists results, fst (App.search env query page wa) = Ok results)
  /\ (never_200 env ->
      cache wa !! (query +:+ "_" +:+ str_int page) = None ->
      fst (App.search env query page wa) = Ok []).
Proof.
  split; [apply main_search_down|]. split.
  - intros Ha. rewrite (main_search_answers _ env query page wm Ha).
    rewrite (main_get_from_cache_answers _ _ wm Ha).
    split; [apply main_search_returns|].
    intros Hnever Hmiss.
    destruct (main_search_run env query page wm)
      as [(item & items & Hget & _)|[_ Hrun]].
    + exfalso. apply (Hmiss item items). rewrite Hget. reflexivity.
    + rewrite Hrun.
      destruct (main_search_miss_run env query page
                  (Main._get_cache_key query page)
                  (snd (Main._get_from_cache (srv := server_up)
                          (Main._get_cache_key query page) wm)))
        as (found & w2 & Hmiss_run & _ & Hnone).
      rewrite Hmiss_run, (Hnone Hnever). reflexivity.
  - destruct (app_search_run env query page wa) as (results & Happ & Hnil).
    split; [eauto|].
    intros Hnever Hkey. rewrite Happ, (Hnil Hkey Hnever). reflexivity.
Qed.

Lemma never_200_env_down : never_200 Fixtures.env_down.
Proof. intros k rq r. discriminate. Qed.

Lemma never_200_env_500 : never_200 Fixtures.env_500.
Proof. intros k rq r [= <-]. discriminate. Qed.

Lemma search_without_results_witness :
  Main.search (lib := Fixtures.lib) (srv := no_server) Fixtures.env_page
    "m3 chip" 1 Fixtures.redis_world
  = (Raise Main.ConnectionError, Fixtures.redis_world)
  /\ fst (Main.search (lib := Fixtures.lib) (srv := no_server)
            Fixtures.env_down "m3 chip" 1 Fixtures.main_world) = Ok []
  /\ fst (Main.search (lib := Fixtures.lib) (srv := server_up)
            Fixtures.env_down "m3 chip" 1 Fixtures.redis_world) = Ok []
  /\ fst (App.search (lib := Fixtures.lib) Fixtures.env_500 "m3 chip" 1
            Fixtures.app_world) = Ok [].
Proof.
  pose proof (search_without_results (H := Fixtures.lib) (H0 := no_server)
                Fixtures.env_page "m3 chip" 1 Fixtures.redis_world
                Fixtures.app_world) as (Hdown & _).
  pose proof (search_without_results (H := Fixtures.lib) (H0 := no_server)
                Fixtures.env_down "m3 chip" 1 Fixtures.main_world
                Fixtures.app_world) as (_ & Hmemory & _).
  pose proof (search_without_results (H := Fixtures.lib) (H0 := server_up)
                Fixtures.env_down "m3 chip" 1 Fixtures.redis_world
                Fixtures.app_world) as (_ & Hredis & _).
  pose proof (search_without_results (H := Fixtures.lib) (H0 := server_up)
                Fixtures.env_500 "m3 chip" 1 Fixtures.main_world
                Fixtures.app_world) as (_ & _ & _ & Happ).
  split; [apply Hdown; reflexivity|]. split; [|split].
  - apply (proj2 (Hmemory eq_refl)); [apply never_200_env_down|].
    intros item items. vm_compute. discriminate.
  - apply (proj2 (Hredis eq_refl)); [apply never_200_env_down|].
    intros item items. vm_compute. discriminate.
  - apply Happ; [apply never_200_env_500 | vm_compute; reflexivity].
Defined.

(** ** The results main.py returns are all of type [regular] *)

Section Maintains.
Context {C : Type} (J : C -> Prop).

Lemma maintains_keeps {A} (m : M C A) : keeps_cache m -> maintains J m.
Proof. intros Hm w HJ. rewrite Hm. exact HJ. Qed.

Lemma maintains_bind {A B} (m : M C A) (k : A -> M C B) :
  maintains J m -> (forall a, maintains J (k a)) -> maintains J (bind m k).
Proof.
  intros Hm Hk w HJ. unfold bind. specialize (Hm w HJ).
  destruct (m w) as [[a|e] w1]; simpl in *; [|exact Hm].
  apply Hk. exact Hm.
Qed.

Lemma maintains_try_except {A} (m : M C A) (handles : Exn -> bool)
  (handler : Exn -> M C A) :
  maintains J m -> (forall e, maintains J (handler e)) ->
  maintains J (try_except m handles handler).
Proof.
  intros Hm Hh w HJ. unfold try_except. specialize (Hm w HJ).
  destruct (m w) as [[a|e] w1]; simpl in *; [exact Hm|].
  destruct (handles e); simpl; [|exact Hm].
  apply Hh. exact Hm.
Qed.

End Maintains.

Lemma regular_serialized (results : list Main.SearchResult) :
  Main.regular_items (map (fun r => Main.DictItem (Main.to_dict r)) results).
Proof.
  intros d Hd. apply in_map_iff in Hd. destruct Hd as (r & [= <-] & _).
  reflexivity.
Qed.

Lemma regular_strings (suggestions : list string) :
  Main.regular_items (map Main.StrItem suggestions).
Proof.
  intros d Hd. apply in_map_iff in Hd. destruct Hd as (s & Hs & _).
  discriminate.
Qed.

Lemma maintains_main_save_to_cache (key : string) (data : list Main.PyItem)
  (expire_time : Q) :
  Main.regular_items data ->
  maintains Main.cache_regular (Main._save_to_cache key data expire_time).
Proof.
  intros Hdata w HJ. rewrite main_save_to_cache_run. simpl.
  intros k d t Hk. unfold Main.cache_regular in HJ.
  destruct (cache w) as [db|m]; simpl in *;
    (destruct (decide (key = k)) as [->|Hne];
     [rewrite lookup_insert_eq in Hk; injection Hk as <- <-; exact Hdata
     |rewrite lookup_insert_ne in Hk by exact Hne; exact (HJ k d t Hk)]).
Qed.

Lemma maintains_main_get_from_cache (key : string) :
  maintains Main.cache_regular (Main._get_from_cache key).
Proof.
  intros w HJ. rewrite main_get_from_cache_run.
  destruct (Main.store (cache w) !! key) as [[data expires]|]; [|exact HJ].
  destruct (Qlt_le_dec (now w) expires); [exact HJ|].
  destruct (cache w) as [db|m] eqn:Hc; simpl; [rewrite Hc; exact HJ|].
  intros k d t Hk. simpl in Hk.
  apply lookup_delete_Some in Hk. destruct Hk as [_ Hk].
  exact (HJ k d t Hk).
Qed.

(** What a fresh entry of a regular cache holds is regular. *)
Lemma main_get_from_cache_regular (key : string) (w : World Main.CacheStore)
  (data : list Main.PyItem) :
  Main.cache_regular (cache w) ->
  fst (Main._get_from_cache key w) = Ok (Some data) ->
  Main.regular_items data.
Proof.
  intros HJ. rewrite main_get_from_cache_run.
  destruct (Main.store (cache w) !! key) as [[stored expires]|] eqn:Hk;
    [|discriminate].
  destruct (Qlt_le_dec (now w) expires); [|discriminate].
  intros [= <-]. exact (HJ key stored expires Hk).
Qed.

Lemma maintains_main_search `{PyLib} (env : Env) (query : string) (page : Z) :
  maintains Main.cache_regular (Main.search env query page).
Proof.
  intros w HJ.
  destruct (main_search_run env query page w)
    as [(item & items & _ & Hhit)|[_ Hmiss]].
  - rewrite Hhit. exact HJ.
  - rewrite Hmiss.
    pose proof (maintains_main_get_from_cache
                  (Main._get_cache_key query page) w HJ) as HJ1.
    destruct (main_search_miss_run env query page
                (Main._get_cache_key query page)
                (snd (Main._get_from_cache (Main._get_cache_key query page) w)))
      as (results & w2 & Hrun & Hcache & _).
    rewrite Hrun. simpl.
    apply maintains_main_save_to_cache; [apply regular_serialized|].
    rewrite Hcache. exact HJ1.
Qed.

Lemma maintains_main_get_suggestions `{PyLib} (env : Env) (query : string) :
  maintains Main.cache_regular (Main.get_suggestions env query).
Proof.
  unfold Main.get_suggestions, Main._fetch_with_retry.
  destruct (_ || _); [apply maintains_keeps; keeps|].
  cbv zeta. apply maintains_bind; [apply maintains_main_get_from_cache|].
  intros [[|item items]|].
  - apply maintains_try_except.
    + apply maintains_bind;
        [apply maintains_keeps, keeps_main_fetch_loop|].
      intros response. destruct (_ && _); [|apply maintains_keeps; keeps].
      apply maintains_bind; [apply maintains_keeps; keeps|].
      intros suggestions.
      apply maintains_bind; [|intros _; apply maintains_keeps; keeps].
      apply maintains_main_save_to_cache, regular_strings.
    + intros e. apply maintains_keeps. keeps.
  - apply maintains_keeps. keeps.
  - apply maintains_try_except.
    + apply maintains_bind;
        [apply maintains_keeps, keeps_main_fetch_loop|].
      intros response. destruct (_ && _); [|apply maintains_keeps; keeps].
      apply maintains_bind; [apply maintains_keeps; keeps|].
      intros suggestions.
      apply maintains_bind; [|intros _; apply maintains_keeps; keeps].
      apply maintains_main_save_to_cache, regular_strings.
    + intros e. apply maintains_keeps. keeps.
Qed.

(** Every world an [ImprovedSearch] can be in has a regular cache. *)
Lemma reachable_cache_regular `{PyLib} (env : Env) (w : World Main.CacheStore) :
  Main.reachable env w -> Main.cache_regular (cache w).
Proof.
  induction 1 as [t|t|w query page _ IH|w query _ IH|w seconds _ IH].
  - intros k d t' Hk. simpl in Hk. rewrite lookup_empty in Hk. discriminate.
  - intros k d t' Hk. simpl in Hk. rewrite lookup_empty in Hk. discriminate.
  - apply maintains_main_search. exact IH.
  - apply maintains_main_get_suggestions. exact IH.
  - exact IH.
Qed.

(** C10. In every world an [ImprovedSearch] can be in, [search] returns
    a list in which every result dict has ['type'] equal to
    ['regular']: no info box is ever among the results of main.py. *)
Theorem main_results_regular `{PyLib} (env : Env) (w : World Main.CacheStore)
  (query : string) (page : Z) :
  Main.reachable env w ->
  exists items,
    fst (Main.search env query page w) = Ok items
    /\ forall d, In (Main.DictItem d) items -> Main.k_type d = "regular".
Proof.
  intros Hreach. pose proof (reachable_cache_regular env w Hreach) as HJ.
  destruct (main_search_run env query page w)
    as [(item & items & Hget & Hhit)|[_ Hmiss]].
  - exists (item :: items). rewrite Hhit. split; [reflexivity|].
    apply (main_get_from_cache_regular (Main._get_cache_key query page) w).
    + exact HJ.
    + rewrite Hget. reflexivity.
  - rewrite Hmiss.
    destruct (main_search_miss_run env query page
                (Main._get_cache_key query page)
                (snd (Main._get_from_cache (Main._get_cache_key query page) w)))
      as (results & w2 & Hrun & _).
    rewrite Hrun. eexists. split; [reflexivity|]. apply regular_serialized.
Qed.

Lemma main_results_regular_witness :
  exists items,
    fst (Main.search (lib := Fixtures.lib) Fixtures.env_page "m3" 1
           (elapse 60
              (snd (Main.search (lib := Fixtures.lib) Fixtures.env_page "m3" 2
                      Fixtures.main_world))))
    = Ok items
    /\ forall d, In (Main.DictItem d) items -> Main.k_type d = "regular".
Proof.
  apply (main_results_regular (H := Fixtures.lib) Fixtures.env_page
           (elapse 60
              (snd (Main.search (lib := Fixtures.lib) Fixtures.env_page "m3" 2
                      Fixtures.main_world)))
           "m3" 1).
  apply Main.reachable_elapse, Main.reachable_search.
  apply (Main.reachable_in_memory (lib := Fixtures.lib) Fixtures.env_page 0%Q).
Defined.

(** Both engines answer with the fixture page: two results, served
    again from the cache a minute later with the network down. *)
Example main_search_page :
  (fun item => match item with
               | Main.DictItem d => (Main.k_title d, Main.k_url d, Main.k_type d)
               | Main.StrItem s => (s, "", "")
               end)
    <$> default []
          (match fst (Main.search (lib := Fixtures.lib) Fixtures.env_down "m3" 1
                        (elapse 60
                           (snd (Main.search (lib := Fixtures.lib)
                                   Fixtures.env_page "m3" 1
                                   Fixtures.main_world)))) with
           | Ok items => Some items
           | Raise _ => None
           end)
  = [("Apple M3 chip", "https://www.apple.com/mac/", "regular");
     ("Apple M3 chip", "https://www.apple.com/mac/", "regular")].
Proof. vm_compute. reflexivity. Qed.

(** * Further properties of the code *)

(** ** Display URLs *)

Lemma string_length_append (a b : string) :
  String.length (a +:+ b) = (String.length a + String.length b)%nat.
Proof.
  induction a as [|c a IH]; [reflexivity|].
  change (String c a +:+ b) with (String c (a +:+ b)).
  cbn [String.length]. rewrite IH. reflexivity.
Qed.

Lemma string_length_substring (n : nat) :
  forall s, String.length (String.substring 0 n s) = Nat.min n (String.length s).
Proof.
  induction n as [|n IH]; intros [|c s]; cbn [String.substring String.length];
    try reflexivity.
  rewrite IH. reflexivity.
Qed.

(** X1. The display form of a URL ([to_dict] in main.py, the result
    dict in app.py) is never longer than 63 characters: a URL of up to
    60 characters is shown as it is, a longer one as its first 60
    characters and three dots. *)
Theorem display_url_bounded (url : string) :
  (String.length (Py.display_url url) <= 63)%nat
  /\ ((String.length url <= 60)%nat -> Py.display_url url = url)
  /\ ((60 < String.length url)%nat ->
      Py.display_url url = String.substring 0 60 url +:+ "..."
      /\ String.length (Py.display_url url) = 63%nat
      /\ String.prefix (String.substring 0 60 url) url = true).
Proof.
  unfold Py.display_url.
  destruct (Nat.ltb_spec 60 (String.length url)) as [Hlong|Hshort].
  - assert (Hlen : String.length (String.substring 0 60 url +:+ "...") = 63%nat).
    { rewrite string_length_append, string_length_substring.
      rewrite Nat.min_l by lia. reflexivity. }
    split; [lia|]. split; [lia|]. intros _.
    split; [reflexivity|]. split; [exact Hlen|].
    apply String.prefix_correct.
    rewrite string_length_substring, Nat.min_l by lia.
    reflexivity.
  - split; [lia|]. split; [reflexivity | lia].
Qed.

Lemma display_url_bounded_witness :
  Py.display_url
    "https://www.apple.com/newsroom/2023/10/apple-unveils-m3-m3-pro-and-m3-max/"
  = "https://www.apple.com/newsroom/2023/10/apple-unveils-m3-m3-p..."
  /\ Py.display_url "https://www.apple.com/mac/" = "https://www.apple.com/mac/".
Proof.
  pose proof (display_url_bounded
                "https://www.apple.com/newsroom/2023/10/apple-unveils-m3-m3-pro-and-m3-max/")
    as (_ & _ & Hlong).
  pose proof (display_url_bounded "https://www.apple.com/mac/") as (_ & Hshort & _).
  split.
  - destruct Hlong as (-> & _); [vm_compute; lia | reflexivity].
  - apply Hshort. vm_compute. lia.
Defined.

(** ** The first matching category wins *)

Lemma existsb_true_In {A} (p : A -> bool) (l : list A) :
  existsb p l = true -> exists a, In a l /\ p a = true.
Proof. intros Hex. apply existsb_exists in Hex. exact Hex. Qed.

Lemma first_category_first_match (table : list (string * list string))
  (domain text : string) :
  (no_keyword_matches table domain text
   /\ first_category table domain text = "general")
  \/ exists before category keywords after keyword,
       table = (before ++ (category, keywords) :: after)%list
       /\ no_keyword_matches before domain text
       /\ In keyword keywords
       /\ (Py.contains keyword domain = true \/ Py.contains keyword text = true)
       /\ first_category table domain text = category.
Proof.
  induction table as [|[category keywords] rest IH]; simpl.
  - left. split; [|reflexivity]. intros c ks k [].
  - destruct (existsb _ keywords || existsb _ keywords) eqn:Hmatch.
    + right. exists [], category, keywords, rest.
      apply orb_prop in Hmatch.
      destruct Hmatch as [Hd|Ht]; apply existsb_true_In in Hd || apply existsb_true_In in Ht.
      * destruct Hd as (k & Hk & Hc). exists k.
        split; [reflexivity|]. split; [intros c ks k' []|]. auto.
      * destruct Ht as (k & Hk & Hc). exists k.
        split; [reflexivity|]. split; [intros c ks k' []|]. auto.
    + apply orb_false_elim in Hmatch. destruct Hmatch as [Hd Ht].
      assert (Hhead : no_keyword_matches [(category, keywords)] domain text).
      { intros c ks k [[= <- <-]|[]] Hk. split.
        - destruct (Py.contains k domain) eqn:Hc; [|reflexivity].
          rewrite <- Hd. symmetry. apply existsb_exists. eauto.
        - destruct (Py.contains k text) eqn:Hc; [|reflexivity].
          rewrite <- Ht. symmetry. apply existsb_exists. eauto. }
      destruct IH as [[Hno Hgen]|(before & c & ks & after & k & -> & Hno & Hk & Hc & Hres)].
      * left. split; [|exact Hgen].
        intros c ks k [Hin|Hin] Hk; [apply (Hhead c ks k); [left; exact Hin | exact Hk]|].
        exact (Hno c ks k Hin Hk).
      * right. exists ((category, keywords) :: before), c, ks, after, k.
        split; [reflexivity|]. split; [|auto].
        intros c' ks' k' [Hin|Hin] Hk'.
        -- apply (Hhead c' ks' k'); [left; exact Hin | exact Hk'].
        -- exact (Hno c' ks' k' Hin Hk').
Qed.

(** X2. Both categorizers return the first category, in the order of
    their table, one of whose keywords occurs in the lowercased domain
    or text: no category before it has a matching keyword.  They return
    [general] exactly when no keyword of any category matches. *)
Theorem categorize_first_match `{PyLib} (url title snippet : string) :
  let domain := Py.lower (urlparse_netloc url) in
  let main_text := Py.lower title +:+ " " +:+ Py.lower snippet in
  (Main._categorize_result url title snippet = "general"
   <-> no_keyword_matches Main.categories domain main_text)
  /\ (App._categorize_result url title = "general"
      <-> no_keyword_matches App.categories domain (Py.lower title))
  /\ (Main._categorize_result url title snippet <> "general" ->
      exists before keywords after keyword,
        Main.categories
        = (before ++ (Main._categorize_result url title snippet, keywords)
             :: after)%list
        /\ no_keyword_matches before domain main_text
        /\ In keyword keywords
        /\ (Py.contains keyword domain = true
            \/ Py.contains keyword main_text = true))
  /\ (App._categorize_result url title <> "general" ->
      exists before keywords after keyword,
        App.categories
        = (before ++ (App._categorize_result url title, keywords) :: after)%list
        /\ no_keyword_matches before domain (Py.lower title)
        /\ In keyword keywords
        /\ (Py.contains keyword domain = true
            \/ Py.contains keyword (Py.lower title) = true)).
Proof.
  cbv zeta. unfold Main._categorize_result, App._categorize_result. cbv zeta.
  set (domain := Py.lower (urlparse_netloc url)).
  set (text := Py.lower title +:+ " " +:+ Py.lower snippet).
  assert (Hkeys : forall table,
             ~ In "general" (map fst table) ->
             forall d t,
               (first_category table d t = "general"
                <-> no_keyword_matches table d t)
               /\ (first_category table d t <> "general" ->
                   exists before keywords after keyword,
                     table = (before ++ (first_category table d t, keywords)
                                :: after)%list
                     /\ no_keyword_matches before d t
                     /\ In keyword keywords
                     /\ (Py.contains keyword d = true
                         \/ Py.contains keyword t = true))).
  { intros table Hnot d t.
    destruct (first_category_first_match table d t)
      as [[Hno Hgen]|(before & c & ks & after & k & Htable & Hno & Hk & Hc & Hres)].
    - split; [split; auto|]. intros Hne. congruence.
    - assert (Hc_ne : c <> "general").
      { intros ->. apply Hnot. rewrite Htable, map_app. apply in_or_app.
        right. left. reflexivity. }
      split.
      + split; [intros Heq; congruence|].
        intros Hnone. exfalso.
        destruct (Hnone c ks k) as [Hd Ht]; [rewrite Htable; apply in_or_app; right; left; reflexivity | exact Hk |].
        destruct Hc; congruence.
      + intros _. exists before, ks, after, k. rewrite Hres. auto. }
  destruct (Hkeys Main.categories ltac:(simpl; intuition discriminate) domain text)
    as [Hmain_gen Hmain].
  destruct (Hkeys App.categories ltac:(simpl; intuition discriminate) domain
              (Py.lower title)) as [Happ_gen Happ].
  auto.
Qed.

Lemma categorize_first_match_witness :
  Main._categorize_result (lib := Fixtures.lib)
    "https://store.example.com/" "Latest news on the Apple store" "" = "news"
  /\ App._categorize_result (lib := Fixtures.lib)
       "https://www.reddit.com/r/apple" "Review of the M3 chip" = "forums".
Proof.
  pose proof (categorize_first_match (H := Fixtures.lib)
                "https://store.example.com/" "Latest news on the Apple store" "")
    as (_ & _ & Hmain & _).
  pose proof (categorize_first_match (H := Fixtures.lib)
                "https://www.reddit.com/r/apple" "Review of the M3 chip" "")
    as (_ & _ & _ & Happ).
  cbv zeta in Hmain, Happ. split.
  - destruct Hmain as (before & ks & after & k & _); [vm_compute; discriminate|].
    vm_compute. reflexivity.
  - destruct Happ as (before & ks & after & k & _); [vm_compute; discriminate|].
    vm_compute. reflexivity.
Defined.

(** ** Scores and ranking *)

Lemma sum_if_le {A} (w : Z) (p : A -> bool) (xs : list A) :
  0 <= w -> Py.sum_if w p xs <= w * Z.of_nat (length xs).
Proof.
  intros Hw. induction xs as [|x xs IH]; simpl length; simpl Py.sum_if; [lia|].
  destruct (p x); lia.
Qed.

(** X3. Scores are bounded by the number of terms of the query: with
    [n] terms, main.py's score lies between 0 and 80 + 15 n and app.py's
    between 0 and 53 + 5 n. *)
Theorem score_bounds `{PyLib} (query : string) (found : Main.SearchResult)
  (result : App.Regular) :
  let n := Z.of_nat (length (Py.split (Py.lower query))) in
  0 <= Main.score_of query found <= 80 + 15 * n
  /\ 0 <= App.score_of query result <= 53 + 5 * n.
Proof.
  cbv zeta. split.
  - split; [apply main_score_nonneg|].
    unfold Main.score_of. cbv zeta.
    pose proof (sum_if_le 10
                  (fun term => Py.contains term (Py.lower (Main.title found)))
                  (Py.split (Py.lower query)) ltac:(lia)) as Htitle.
    pose proof (sum_if_le 5
                  (fun term => Py.contains term (Py.lower (Main.snippet found)))
                  (Py.split (Py.lower query)) ltac:(lia)) as Hsnippet.
    repeat match goal with
           | |- context [if ?c then _ else _] => destruct c
           | |- context [match ?x with Some _ => _ | None => _ end] => destruct x
           end; lia.
  - unfold App.score_of. cbv zeta.
    pose proof (sum_if_le 1
                  (fun word => Py.contains word (Py.lower (App.title result)))
                  (Py.split (Py.lower query)) ltac:(lia)) as Htitle.
    pose proof (sum_if_le 1
                  (fun word => Py.contains word (Py.lower (App.snippet result)))
                  (Py.split (Py.lower query)) ltac:(lia)) as Hsnippet.
    pose proof (sum_if_nonneg 1
                  (fun word => Py.contains word (Py.lower (App.title result)))
                  (Py.split (Py.lower query)) ltac:(lia)) as Htitle0.
    pose proof (sum_if_nonneg 1
                  (fun word => Py.contains word (Py.lower (App.snippet result)))
                  (Py.split (Py.lower query)) ltac:(lia)) as Hsnippet0.
    repeat match goal with
           | |- context [if ?c then _ else _] => destruct c
           end; lia.
Qed.

Lemma sorted_reverse_of_sorted {A} (key : A -> Z) (l : list A) :
  StronglySorted (desc key) l -> sorted_reverse key l = l.
Proof.
  induction 1 as [|x l Hl IH Hx]; simpl; [reflexivity|].
  rewrite IH. destruct l as [|y l']; [reflexivity|]. simpl.
  apply Forall_inv in Hx. unfold desc in Hx.
  destruct (Z.ltb_spec (key x) (key y)); [lia | reflexivity].
Qed.

Lemma map_fixed {A} (f : A -> A) (l : list A) :
  Forall (fun a => f a = a) l -> map f l = l.
Proof.
  induction 1 as [|a l Ha _ IH]; simpl; [reflexivity|].
  rewrite Ha, IH. reflexivity.
Qed.

Lemma app_rescore_idempotent `{PyLib} (query : string) (result : App.Result) :
  App.rescore query (App.rescore query result) = App.rescore query result.
Proof. destruct result as [d|d]; reflexivity. Qed.

Lemma app_rescore_type `{PyLib} (query : string) (result : App.Result) :
  App.type_of (App.rescore query result) = App.type_of result.
Proof. destruct result; reflexivity. Qed.

Lemma filter_partition_Permutation {A} (p q : A -> bool) (l : list A) :
  (forall a, q a = negb (p a)) ->
  Permutation (List.filter p l ++ List.filter q l) l.
Proof.
  intros Hq. induction l as [|a l IH]; simpl; [reflexivity|].
  rewrite (Hq a). destruct (p a); simpl.
  - apply perm_skip. exact IH.
  - rewrite <- Permutation_middle. apply perm_skip. exact IH.
Qed.

Lemma app_regular_negb_info_box (result : App.Result) :
  App.is_regular result = negb (App.is_info_box result).
Proof. destruct result; reflexivity. Qed.

Lemma app_rank_Permutation `{PyLib} (query : string)
  (results : list App.Result) :
  Permutation (App._rank_results query results)
    (map (App.rescore query) results).
Proof.
  unfold App._rank_results. cbv zeta.
  rewrite sorted_reverse_Permutation.
  apply filter_partition_Permutation, app_regular_negb_info_box.
Qed.

(** X4. app.py's ranker neither loses nor duplicates a result: its
    output is a permutation of the input, each result carrying its new
    score; every info box leaves with score 50, and the info boxes keep
    their input order. *)
Theorem app_rank_keeps_results `{PyLib} (query : string)
  (results : list App.Result) :
  Permutation (App._rank_results query results)
    (map (App.rescore query) results)
  /\ length (App._rank_results query results) = length results
  /\ List.filter App.is_info_box (App._rank_results query results)
     = List.filter App.is_info_box (map (App.rescore query) results)
  /\ forall d, In (App.InfoBoxResult d) (App._rank_results query results) ->
               App.ib_score d = Some 50.
Proof.
  pose proof (app_rank_Permutation query results) as Hperm.
  split; [exact Hperm|]. split; [|split].
  - rewrite (Permutation_length Hperm). apply length_map.
  - unfold App._rank_results. cbv zeta.
    set (scored := map (App.rescore query) results).
    rewrite List.filter_app.
    rewrite (filter_all App.is_info_box (List.filter App.is_info_box scored))
      by apply Forall_filter_true.
    rewrite (filter_none App.is_info_box (sorted_reverse _ _));
      [apply app_nil_r|].
    apply Forall_sorted_reverse.
    eapply List.Forall_impl; [|apply Forall_filter_true].
    intros r. apply regular_not_info_box.
  - intros d Hd. eapply Permutation_in in Hd; [|exact Hperm].
    apply in_map_iff in Hd. destruct Hd as ([d0|d0] & Heq & _); [|discriminate].
    injection Heq as <-. reflexivity.
Qed.

(** The score main.py gives a result at a later instant: the same, when
    the freshness signal gives its date the same points. *)
Lemma main_score_later (lib lib' : PyLib) (query : string)
  (r : Main.SearchResult) (s : Z) :
  (forall url, @urlparse lib' url = @urlparse lib url) ->
  (forall d, Main.date r = Some d ->
             freshness_points (lib := lib') d = freshness_points (lib := lib) d) ->
  Main.score_of (lib := lib') query (Main.set_score s r)
  = Main.score_of (lib := lib) query r.
Proof.
  intros Hurl Hfresh. unfold Main.score_of. cbv zeta.
  cbn [Main.title Main.url Main.snippet Main.date Main.category Main.set_score].
  assert (Hnetloc : urlparse_netloc (lib := lib') (Main.url r)
                    = urlparse_netloc (lib := lib) (Main.url r))
    by (unfold urlparse_netloc; rewrite Hurl; reflexivity).
  rewrite Hnetloc.
  destruct (Main.date r) as [d|]; [|reflexivity].
  destruct (Py.truthy d); [|reflexivity].
  specialize (Hfresh d eq_refl). unfold freshness_points in Hfresh.
  destruct (@days_old lib' d) as [days'|], (@days_old lib d) as [days|];
    repeat match goal with
           | H : context [if ?b then _ else _] |- _ => destruct b
           end;
    try discriminate Hfresh; reflexivity.
Qed.

(** X5. Ranking again changes nothing.  In app.py, whose scores do not
    depend on the clock, ranking a ranked list again for the same query
    returns it as it is.  In main.py, whose freshness signal reads the
    clock at every ranking, the same holds for a second ranking at a
    later instant as long as the signal still gives the date of every
    result the same points: no result has crossed the threshold of 30
    or of 90 days in between. *)
Theorem rank_idempotent (lib lib' : PyLib) (query : string)
  (found : list Main.SearchResult) (results : list App.Result) :
  (forall url, @urlparse lib' url = @urlparse lib url) ->
  (forall r d, In r found -> Main.date r = Some d ->
               freshness_points (lib := lib') d
               = freshness_points (lib := lib) d) ->
  Main._rank_results (lib := lib') query
    (Main._rank_results (lib := lib) query found)
  = Main._rank_results (lib := lib) query found
  /\ App._rank_results (lib := lib') query
       (App._rank_results (lib := lib) query results)
     = App._rank_results (lib := lib) query results.
Proof.
  intros Hurl Hfresh.
  assert (Happ : forall result,
             App.rescore (lib := lib') query (App.rescore (lib := lib) query result)
             = App.rescore (lib := lib) query result).
  { intros [d|d]; [reflexivity|]. unfold App.rescore. f_equal.
    unfold App.set_score.
    cbn [App.title App.url App.display_url App.snippet App.favicon
           App.category App.date].
    f_equal. unfold App.score_of. cbv zeta.
    cbn [App.title App.url App.snippet App.date App.category].
    unfold urlparse_netloc. rewrite Hurl. reflexivity. }
  split.
  - unfold Main._rank_results at 1. cbv zeta.
    rewrite map_fixed.
    + apply sorted_reverse_of_sorted. unfold Main._rank_results.
      apply sorted_reverse_sorted.
    + unfold Main._rank_results. cbv zeta. apply Forall_sorted_reverse.
      apply List.Forall_map, List.Forall_forall. intros r Hr.
      rewrite (main_score_later lib lib' query r _ Hurl (fun d => Hfresh r d Hr)).
      reflexivity.
  - unfold App._rank_results at 1. cbv zeta.
    rewrite map_fixed.
    + unfold App._rank_results. cbv zeta.
      set (scored := map (App.rescore (lib := lib) query) results).
      rewrite !List.filter_app.
      rewrite (filter_all App.is_info_box (List.filter App.is_info_box scored))
        by apply Forall_filter_true.
      rewrite (filter_none App.is_info_box (sorted_reverse _ _)).
      * rewrite (filter_none App.is_regular (List.filter App.is_info_box scored)).
        -- rewrite (filter_all App.is_regular (sorted_reverse _ _)).
           ++ rewrite app_nil_r. simpl.
              rewrite sorted_reverse_of_sorted by apply sorted_reverse_sorted.
              reflexivity.
           ++ apply Forall_sorted_reverse, Forall_filter_true.
        -- eapply List.Forall_impl; [|apply Forall_filter_true].
           intros r. apply info_box_not_regular.
      * apply Forall_sorted_reverse.
        eapply List.Forall_impl; [|apply Forall_filter_true].
        intros r. apply regular_not_info_box.
    + eapply Permutation_Forall;
        [symmetry; apply (app_rank_Permutation (H := lib))|].
      apply List.Forall_map, List.Forall_forall. intros r _.
      apply Happ.
Qed.

Lemma rank_idempotent_witness :
  Main._rank_results (lib := Fixtures.lib_on_day 12) "apple"
    (Main._rank_results (lib := Fixtures.lib_on_day 10) "apple"
       [Fixtures.apple_pie; Fixtures.dated_pie])
  = Main._rank_results (lib := Fixtures.lib_on_day 10) "apple"
      [Fixtures.apple_pie; Fixtures.dated_pie]
  /\ App._rank_results (lib := Fixtures.lib_on_day 12) "apple"
       (App._rank_results (lib := Fixtures.lib_on_day 10) "apple"
          (App.parse_soup (lib := Fixtures.lib) Fixtures.page))
     = App._rank_results (lib := Fixtures.lib_on_day 10) "apple"
         (App.parse_soup (lib := Fixtures.lib) Fixtures.page).
Proof.
  apply (rank_idempotent (Fixtures.lib_on_day 10) (Fixtures.lib_on_day 12)
           "apple" [Fixtures.apple_pie; Fixtures.dated_pie]).
  - intros url. reflexivity.
  - intros r d _ _. reflexivity.
Defined.

(** Across a threshold the second ranking does change the list: ranked
    on its 29th day the dated result leads with 25 points; ranked again
    on its 31st it has 15. *)
Example rank_again_across_threshold :
  Main.score
    <$> Main._rank_results (lib := Fixtures.lib_on_day 29) "apple"
          [Fixtures.apple_pie; Fixtures.dated_pie]
  = [25; 5]
  /\ Main.score
       <$> Main._rank_results (lib := Fixtures.lib_on_day 31) "apple"
             (Main._rank_results (lib := Fixtures.lib_on_day 29) "apple"
                [Fixtures.apple_pie; Fixtures.dated_pie])
     = [15; 5].
Proof. split; vm_compute; reflexivity. Qed.

(** ** Grouping by category in the [/search] routes *)

Lemma group_of_add {A} (c c' : string) (x : A) (groups : list (string * list A)) :
  group_of c (add_to_group c' x groups)
  = if String.eqb c' c then (group_of c groups ++ [x])%list
    else group_of c groups.
Proof.
  induction groups as [|[k members] rest IH]; simpl.
  - destruct (String.eqb_spec c' c); reflexivity.
  - destruct (String.eqb_spec k c') as [->|Hk]; simpl.
    + destruct (String.eqb_spec c' c); reflexivity.
    + rewrite IH. destruct (String.eqb_spec k c) as [->|Hkc]; [|reflexivity].
      destruct (String.eqb_spec c' c); [congruence | reflexivity].
Qed.

Lemma add_to_group_keys {A} (c : string) (x : A) (groups : list (string * list A)) :
  map fst (add_to_group c x groups)
  = if existsb (String.eqb c) (map fst groups) then map fst groups
    else (map fst groups ++ [c])%list.
Proof.
  induction groups as [|[k members] rest IH]; simpl; [reflexivity|].
  destruct (String.eqb_spec k c) as [->|Hk]; simpl.
  - rewrite String.eqb_refl. reflexivity.
  - rewrite IH. destruct (String.eqb_spec c k); [congruence|]. simpl.
    destruct (existsb _ _); reflexivity.
Qed.

Lemma add_to_group_NoDup {A} (c : string) (x : A) (groups : list (string * list A)) :
  List.NoDup (map fst groups) -> List.NoDup (map fst (add_to_group c x groups)).
Proof.
  intros Hnd. rewrite add_to_group_keys.
  destruct (existsb _ _) eqn:Hex; [exact Hnd|].
  apply (Permutation_NoDup (l := c :: map fst groups));
    [apply Permutation_cons_append|].
  apply List.NoDup_cons; [|exact Hnd]. intros Hin.
  assert (existsb (String.eqb c) (map fst groups) = true).
  { apply existsb_exists. exists c. split; [exact Hin | apply String.eqb_refl]. }
  congruence.
Qed.

Lemma add_to_group_nonempty {A} (c : string) (x : A) (groups : list (string * list A)) :
  Forall (fun g => snd g <> []) groups ->
  Forall (fun g => snd g <> []) (add_to_group c x groups).
Proof.
  induction 1 as [|[k members] rest Hk Hrest IH]; simpl.
  - constructor; [|constructor]. simpl. intros Heq. discriminate Heq.
  - destruct (String.eqb k c).
    + constructor; [|assumption]. simpl. intros Heq.
      apply app_eq_nil in Heq. destruct Heq as [_ Heq]. discriminate Heq.
    + constructor; assumption.
Qed.

(** The result dicts of a list that the route of main.py files under
    [category]. *)
Lemma main_group_results_run (results : list Main.PyItem) :
  forall groups grouped,
    MainWeb.group_results results groups = Ok grouped ->
    (List.NoDup (map fst groups) -> List.NoDup (map fst grouped))
    /\ (Forall (fun g => snd g <> []) groups ->
        Forall (fun g => snd g <> []) grouped)
    /\ forall category,
         group_of category grouped
         = (group_of category groups
            ++ List.filter
                 (fun d => negb (String.eqb (Main.k_type d) "info_box")
                           && String.eqb (Main.k_category d) category)
                 (omap (fun item => match item with
                                    | Main.DictItem d => Some d
                                    | Main.StrItem _ => None
                                    end) results))%list.
Proof.
  induction results as [|[d|s] rest IH]; intros groups grouped; simpl.
  - intros [= <-]. split; [auto|]. split; [auto|].
    intros c. rewrite app_nil_r. reflexivity.
  - destruct (String.eqb (Main.k_type d) "info_box") eqn:Htype; simpl.
    + apply IH.
    + intros Hrun. destruct (IH _ _ Hrun) as (Hnd & Hne & Hgroups).
      split; [intros H0; apply Hnd, add_to_group_NoDup, H0|].
      split; [intros H0; apply Hne, add_to_group_nonempty, H0|].
      intros c. rewrite Hgroups, group_of_add.
      destruct (String.eqb (Main.k_category d) c); simpl;
        [rewrite <- app_assoc|]; reflexivity.
  - discriminate.
Qed.

Lemma app_group_results_run (results : list App.Result) :
  forall groups,
    (List.NoDup (map fst groups) ->
     List.NoDup (map fst (AppWeb.group_results results groups)))
    /\ (Forall (fun g => snd g <> []) groups ->
        Forall (fun g => snd g <> []) (AppWeb.group_results results groups))
    /\ forall category,
         group_of category (AppWeb.group_results results groups)
         = (group_of category groups
            ++ List.filter
                 (fun r => negb (App.is_info_box r)
                           && String.eqb (AppWeb.category_of r) category)
                 results)%list.
Proof.
  induction results as [|r rest IH]; intros groups; simpl.
  - split; [auto|]. split; [auto|]. intros c. rewrite app_nil_r. reflexivity.
  - destruct (App.is_info_box r) eqn:Htype; simpl.
    + apply IH.
    + destruct (IH (add_to_group (AppWeb.category_of r) r groups))
        as (Hnd & Hne & Hgroups).
      split; [intros H0; apply Hnd, add_to_group_NoDup, H0|].
      split; [intros H0; apply Hne, add_to_group_nonempty, H0|].
      intros c. rewrite Hgroups, group_of_add.
      destruct (String.eqb (AppWeb.category_of r) c); simpl;
        [rewrite <- app_assoc|]; reflexivity.
Qed.

(** ** The [/search] and [/suggest] routes of main.py *)

Lemma main_route_unfold `{PyLib} (env : Env) (int_of : string -> Exc Z)
  (q page : option string) (w : World Main.CacheStore) :
  MainWeb.search env int_of q page w
  = match MainWeb.page_arg int_of page with
    | Raise e => (Raise e, w)
    | Ok n =>
        if negb (Py.truthy (Py.strip (default "" q))) then (Ok MainWeb.Home, w)
        else
          match Main.search env (Py.strip (default "" q)) (Z.max 1 n) w with
          | (Ok results, w1) =>
              match MainWeb.group_results results [] with
              | Ok categorized_results =>
                  (Ok (MainWeb.Listing (Py.strip (default "" q)) results
                         categorized_results (Z.max 1 n) (length results)), w1)
              | Raise e =>
                  (Ok (MainWeb.Failed (Py.strip (default "" q))
                         "An error occurred while processing your search. Please try again."),
                   snd (logging ERROR ("Search route error: " +:+ str_exn e) w1))
              end
          | (Raise e, w1) =>
              (Ok (MainWeb.Failed (Py.strip (default "" q))
                     "An error occurred while processing your search. Please try again."),
               snd (logging ERROR ("Search route error: " +:+ str_exn e) w1))
          end
    end.
Proof.
  unfold MainWeb.search. cbv zeta. unfold bind at 1. unfold lift at 1.
  destruct (MainWeb.page_arg int_of page) as [n|e]; [|reflexivity].
  destruct (negb _); [reflexivity|].
  unfold try_except. unfold bind at 1.
  destruct (Main.search env _ _ w) as [[results|e] w1]; [|reflexivity].
  unfold bind at 1. unfold lift at 1.
  destruct (MainWeb.group_results results []); reflexivity.
Qed.

(** X6. What main.py's [/search] route hands to the template when it
    lists results: the stripped, non-empty query; a page number of 1 at
    least; the number of results; and the results that are not info
    boxes filed under their categories, every category once, none
    empty, each holding its results in result order. *)
Theorem main_route_listing `{PyLib} (env : Env) (int_of : string -> Exc Z)
  (q page : option string) (w w' : World Main.CacheStore) (query : string)
  (results : list Main.PyItem)
  (categorized_results : list (string * list Main.ResultDict))
  (n : Z) (total_results : nat) :
  MainWeb.search env int_of q page w
  = (Ok (MainWeb.Listing query results categorized_results n total_results), w') ->
  query = Py.strip (default "" q)
  /\ query <> ""
  /\ 1 <= n
  /\ total_results = length results
  /\ Main.search env query n w = (Ok results, w')
  /\ List.NoDup (map fst categorized_results)
  /\ Forall (fun g => snd g <> []) categorized_results
  /\ forall category,
       group_of category categorized_results
       = List.filter
           (fun d => negb (String.eqb (Main.k_type d) "info_box")
                     && String.eqb (Main.k_category d) category)
           (omap (fun item => match item with
                              | Main.DictItem d => Some d
                              | Main.StrItem _ => None
                              end) results).
Proof.
  rewrite main_route_unfold.
  destruct (MainWeb.page_arg int_of page) as [m|e]; [|discriminate].
  destruct (Py.truthy (Py.strip (default "" q))) eqn:Hq; simpl; [|discriminate].
  destruct (Main.search env _ _ w) as [[found|e] w1] eqn:Hsearch; [|discriminate].
  destruct (MainWeb.group_results found []) as [grouped|e] eqn:Hgroup;
    [|discriminate].
  intros [= <- <- <- <- <- <-].
  destruct (main_group_results_run found [] grouped Hgroup) as (Hnd & Hne & Hg).
  split; [reflexivity|]. split; [apply truthy_true, Hq|].
  split; [lia|]. split; [reflexivity|]. split; [exact Hsearch|].
  split; [apply Hnd; constructor|]. split; [apply Hne; constructor|].
  intros c. rewrite Hg. reflexivity.
Qed.

Lemma main_route_listing_witness :
  exists w' results groups,
    MainWeb.search (lib := Fixtures.lib) Fixtures.env_page MoreFixtures.int_of
      (Some "  m3 ") (Some "-3") Fixtures.main_world
    = (Ok (MainWeb.Listing "m3" results groups 1 2), w')
    /\ length results = 2%nat
    /\ map fst groups = ["general"]
    /\ length (group_of "general" groups) = 2%nat.
Proof.
  destruct (MainWeb.search (lib := Fixtures.lib) Fixtures.env_page
              MoreFixtures.int_of (Some "  m3 ") (Some "-3") Fixtures.main_world)
    as [[[|query results groups n total|]|] w'] eqn:Hrun;
    try (vm_compute in Hrun; discriminate Hrun).
  pose proof (main_route_listing (H := Fixtures.lib) Fixtures.env_page
                MoreFixtures.int_of (Some "  m3 ") (Some "-3")
                Fixtures.main_world w' query results groups n total Hrun)
    as (Hq & _ & _ & Htotal & _).
  exists w', results, groups.
  assert (Hshape : query = "m3" /\ n = 1 /\ total = 2%nat
                   /\ map fst groups = ["general"]
                   /\ length (group_of "general" groups) = 2%nat).
  { vm_compute in Hrun. injection Hrun as <- <- <- <- <- <-.
    repeat split; reflexivity. }
  destruct Hshape as (-> & -> & -> & Hkeys & Hgroup).
  split; [reflexivity|]. split; [symmetry; exact Htotal|]. split; assumption.
Defined.



(** ** The fetchers, request by request *)

(** One attempt of main.py's fetcher in full: the request it sends,
    what it ends with and how long it sleeps. *)
Lemma main_fetch_attempt_full (env : Env) (url : string)
  (params : list (string * Param)) (backoff_factor : Q) (attempt : nat)
  (w : World Main.CacheStore) :
  exists rq w1,
    Main.fetch_attempt env url params backoff_factor attempt w
    = (match http env (length (sent w)) rq with
       | Responded r => if status_code r =? 200 then Ok (Some r) else Ok None
       | NetworkError msg => Raise (RequestException msg)
       end, w1)
    /\ sent w1 = (sent w ++ [rq])%list
    /\ cache w1 = cache w
    /\ req_url rq = url /\ req_params rq = params /\ req_timeout rq = 5
    /\ (let delay := (backoff_factor * 2 ^ Z.of_nat attempt
                      + uniform env (draws w) (1#10) (3#10))%Q in
        now w1 = (now w + delay)%Q \/ now w1 = (now w + delay + delay * 2)%Q).
Proof.
  unfold Main.fetch_attempt, Main._get_headers, bind, random_uniform,
    time_sleep, user_agent, session_get, ret. simpl.
  match goal with
  | |- context [http env _ (mkRequest ?u ?p ?h ?t)] => exists (mkRequest u p h t)
  end.
  destruct (http env _ _) as [r|msg]; simpl.
  - destruct (status_code r =? 200); simpl.
    + eexists. repeat split; try reflexivity. left. reflexivity.
    + destruct (_ || _); simpl; eexists; repeat split; try reflexivity;
        [right | left]; reflexivity.
  - eexists. repeat split; try reflexivity. left. reflexivity.
Qed.

(** What a run of main.py's fetch loop sends. *)
Lemma main_fetch_loop_sends (env : Env) (url : string)
  (params : list (string * Param)) (max_retries : Z) (backoff_factor : Q)
  (attempts : list nat) :
  forall (last_exception : option Exn) (w : World Main.CacheStore),
  exists res w' new,
    Main.fetch_loop env url params max_retries backoff_factor attempts
      last_exception w = (res, w')
    /\ sent w' = (sent w ++ new)%list
    /\ (length new <= length attempts)%nat
    /\ (attempts <> [] -> new <> [])
    /\ Forall (fun rq => req_url rq = url /\ req_params rq = params
                         /\ req_timeout rq = 5) new
    /\ (forall r, res = Ok r ->
          exists rq rest,
            new = (rest ++ [rq])%list
            /\ http env (length (sent w) + length rest) rq = Responded r)
    /\ (forall r, (0 < length attempts)%nat ->
          (forall rq, http env (length (sent w)) rq = Responded r) ->
          status_code r = 200 ->
          res = Ok r /\ length new = 1%nat).
Proof.
  induction attempts as [|attempt rest IH]; intros last w.
  - simpl. destruct last as [e0|]; unfold raise; eexists _, w, [];
      (split; [reflexivity|]); rewrite app_nil_r;
      repeat split; try reflexivity; try (simpl; lia); try constructor;
      try congruence; try discriminate; intros; simpl in *; lia.
  - cbn [Main.fetch_loop].
    destruct (main_fetch_attempt_full env url params backoff_factor attempt w)
      as (rq & w1 & Hrun & Hsent & _ & Hurl & Hparams & Htimeout & _).
    unfold bind at 1. unfold try_except. unfold bind at 1. rewrite Hrun.
    destruct (http env (length (sent w)) rq) as [r|msg] eqn:Hanswer.
    + destruct (Z.eqb_spec (status_code r) 200) as [H200|Hnot].
      * unfold ret. exists (Ok r), w1, [rq].
        split; [reflexivity|]. split; [exact Hsent|].
        split; [simpl; lia|]. split; [discriminate|].
        split; [constructor; [auto | constructor]|]. split.
        -- intros r0 [= <-]. exists rq, []. split; [reflexivity|].
           simpl. rewrite Nat.add_0_r. exact Hanswer.
        -- intros r0 _ Hfirst _. specialize (Hfirst rq).
           rewrite Hanswer in Hfirst. injection Hfirst as <-.
           split; reflexivity.
      * unfold ret. cbv iota beta.
        destruct (IH last w1) as (res & w' & new & Hloop & Hs & Hlen & _ & Hall & Hok & _).
        exists res, w', (rq :: new).
        split; [exact Hloop|].
        split; [rewrite Hs, Hsent, <- app_assoc; reflexivity|].
        split; [simpl; lia|]. split; [discriminate|].
        split; [constructor; auto|]. split.
        -- intros r0 Hr0. destruct (Hok r0 Hr0) as (rq' & rest' & -> & Hanswer').
           exists rq', (rq :: rest'). split; [reflexivity|].
           rewrite Hsent, length_app in Hanswer'. simpl in Hanswer' |- *.
           replace (length (sent w) + S (length rest'))%nat
             with (length (sent w) + 1 + length rest')%nat by lia.
           exact Hanswer'.
        -- intros r0 _ Hfirst H200. specialize (Hfirst rq).
           rewrite Hanswer in Hfirst. injection Hfirst as <-. contradiction.
    + cbv iota beta. simpl is_RequestException. cbv iota.
      unfold bind at 1. unfold logging at 1. cbv beta iota. unfold ret at 1.
      cbv beta iota.
      set (w2 := mkWorld _ _ _ _ _).
      destruct (IH (Some (RequestException msg)) w2)
        as (res & w' & new & Hloop & Hs & Hlen & _ & Hall & Hok & _).
      exists res, w', (rq :: new).
      split; [exact Hloop|].
      split; [rewrite Hs; subst w2; simpl; rewrite Hsent, <- app_assoc; reflexivity|].
      split; [simpl; lia|]. split; [discriminate|].
      split; [constructor; auto|]. split.
      * intros r0 Hr0. destruct (Hok r0 Hr0) as (rq' & rest' & -> & Hanswer').
        exists rq', (rq :: rest'). split; [reflexivity|].
        subst w2. simpl in Hanswer'. rewrite Hsent, length_app in Hanswer'.
        simpl in Hanswer' |- *.
        replace (length (sent w) + S (length rest'))%nat
          with (length (sent w) + 1 + length rest')%nat by lia.
        exact Hanswer'.
      * intros r0 _ Hfirst _. specialize (Hfirst rq). congruence.
Qed.

Lemma app_fetch_attempt_full (env : Env) (url : string)
  (params : list (string * Param)) (w : World (gmap string (list App.Result))) :
  exists rq w1,
    App.fetch_attempt env url params w
    = (match http env (length (sent w)) rq with
       | Responded r => if status_code r =? 200 then Ok (Some r) else Ok None
       | NetworkError msg => Raise (RequestException msg)
       end, w1)
    /\ sent w1 = (sent w ++ [rq])%list
    /\ cache w1 = cache w
    /\ req_url rq = url /\ req_params rq = params /\ req_timeout rq = 10
    /\ now w1 = (now w + uniform env (draws w) (1#2) (3#2))%Q.
Proof.
  unfold App.fetch_attempt, App._get_headers, bind, random_uniform,
    time_sleep, user_agent, session_get, ret. simpl.
  match goal with
  | |- context [http env _ (mkRequest ?u ?p ?h ?t)] => exists (mkRequest u p h t)
  end.
  destruct (http env _ _) as [r|msg]; simpl.
  - destruct (status_code r =? 200); simpl; eexists;
      repeat split; reflexivity.
  - eexists. repeat split; reflexivity.
Qed.

Lemma app_fetch_loop_sends (env : Env) (url : string)
  (params : list (string * Param)) (max_retries : Z) (attempts : list nat) :
  forall (w : World (gmap string (list App.Result))),
  exists res w' new,
    App.fetch_loop env url params max_retries attempts w = (res, w')
    /\ sent w' = (sent w ++ new)%list
    /\ cache w' = cache w
    /\ (length new <= length attempts)%nat
    /\ Forall (fun rq => req_url rq = url /\ req_params rq = params
                         /\ req_timeout rq = 10) new
    /\ (forall r, (0 < length attempts)%nat ->
          (forall rq, http env (length (sent w)) rq = Responded r) ->
          status_code r = 200 ->
          res = Ok (Some r) /\ length new = 1%nat).
Proof.
  induction attempts as [|attempt rest IH]; intros w.
  - simpl. unfold ret. exists (Ok None), w, [].
    rewrite app_nil_r. repeat split; try reflexivity; try constructor;
      simpl in *; lia.
  - cbn [App.fetch_loop].
    destruct (app_fetch_attempt_full env url params w)
      as (rq & w1 & Hrun & Hsent & Hcache & Hurl & Hparams & Htimeout & _).
    unfold bind at 1. unfold try_except. rewrite Hrun.
    destruct (http env (length (sent w)) rq) as [r|msg] eqn:Hanswer.
    + destruct (Z.eqb_spec (status_code r) 200) as [H200|Hnot].
      * unfold ret. exists (Ok (Some r)), w1, [rq].
        split; [reflexivity|]. split; [exact Hsent|]. split; [exact Hcache|].
        split; [simpl; lia|].
        split; [constructor; [auto | constructor]|].
        intros r0 _ Hfirst _. specialize (Hfirst rq).
        rewrite Hanswer in Hfirst. injection Hfirst as <-. split; reflexivity.
      * destruct (IH w1) as (res & w' & new & Hloop & Hs & Hc & Hlen & Hall & _).
        exists res, w', (rq :: new). unfold ret. cbv iota beta.
        split; [exact Hloop|].
        split; [rewrite Hs, Hsent, <- app_assoc; reflexivity|].
        split; [congruence|]. split; [simpl; lia|].
        split; [constructor; auto|].
        intros r0 _ Hfirst H200. specialize (Hfirst rq).
        rewrite Hanswer in Hfirst. injection Hfirst as <-. contradiction.
    + cbv iota beta. simpl is_RequestException. cbv iota.
      unfold bind at 1. unfold logging at 1. cbv beta iota.
      set (w2 := mkWorld _ _ _ _ _).
      destruct (Z.of_nat attempt =? max_retries - 1).
      * unfold raise. exists (Raise (RequestException msg)), w2, [rq].
        split; [reflexivity|]. split; [subst w2; simpl; exact Hsent|].
        split; [exact Hcache|]. split; [simpl; lia|].
        split; [constructor; [auto | constructor]|].
        intros r0 _ Hfirst _. specialize (Hfirst rq). congruence.
      * unfold ret at 1. cbv beta iota.
        destruct (IH w2) as (res & w' & new & Hloop & Hs & Hc & Hlen & Hall & _).
        exists res, w', (rq :: new).
        split; [exact Hloop|].
        split; [rewrite Hs; subst w2; simpl; rewrite Hsent, <- app_assoc; reflexivity|].
        split; [subst w2; simpl in Hc; congruence|]. split; [simpl; lia|].
        split; [constructor; auto|].
        intros r0 _ Hfirst _. specialize (Hfirst rq). congruence.
Qed.



(** The loop of main.py's fetcher when attempt [k] fails at network
    level, no attempt before it gets a 200 and every attempt after it
    is answered with another status: the failure of attempt [k] is
    what it raises, whatever [last_exception] held before. *)
Lemma main_fetch_loop_network_error (env : Env) (url : string)
  (params : list (string * Param)) (max_retries : Z) (backoff_factor : Q)
  (attempts : list nat) :
  forall (last_exception : option Exn) (w : World Main.CacheStore)
         (k : nat) (msg : string),
    (length (sent w) <= k < length (sent w) + length attempts)%nat ->
    (forall j rq, (length (sent w) <= j < k)%nat -> not_200 (http env j rq)) ->
    (forall rq, http env k rq = NetworkError msg) ->
    (forall j rq, (k < j < length (sent w) + length attempts)%nat ->
                  non_200_response (http env j rq)) ->
    fst (Main.fetch_loop env url params max_retries backoff_factor attempts
           last_exception w) = Raise (RequestException msg).
Proof.
  induction attempts as [|attempt rest IH];
    intros last w k msg Hk Hbefore Hat Hafter.
  - simpl in Hk. lia.
  - cbn [Main.fetch_loop].
    destruct (main_fetch_attempt_run env url params backoff_factor attempt w)
      as (rq & w1 & Hrun & Hsent & _).
    assert (Hlen : length (sent w1) = S (length (sent w))).
    { rewrite Hsent, length_app. simpl. lia. }
    unfold bind at 1. unfold try_except. unfold bind at 1. rewrite Hrun.
    destruct (Nat.eq_dec k (length (sent w))) as [->|Hne].
    + rewrite (Hat rq). cbv iota beta. simpl is_RequestException. cbv iota.
      unfold bind at 1. unfold logging at 1. cbv beta iota. unfold ret at 1.
      cbv beta iota.
      set (w2 := mkWorld _ _ _ _ _).
      destruct (main_fetch_loop_exhausted env url params max_retries
                  backoff_factor rest (Some (RequestException msg)) w2)
        as (e & w' & Hloop & _ & _ & Hchar).
      * intros j rq' Hj. apply non_200_not_200, Hafter.
        subst w2. cbn [sent] in Hj. simpl. lia.
      * rewrite Hloop. cbn [fst]. f_equal. apply Hchar.
        intros j rq' Hj. apply Hafter. subst w2. cbn [sent] in Hj. simpl. lia.
    + pose proof (Hbefore (length (sent w)) rq ltac:(simpl in Hk; lia)) as Hhere.
      destruct (http env (length (sent w)) rq) as [r|msg0] eqn:Hanswer.
      * destruct (Z.eqb_spec (status_code r) 200) as [H200|_].
        { exfalso. apply (Hhere r); [reflexivity | exact H200]. }
        unfold ret. cbv iota beta. apply (IH _ _ k msg).
        -- simpl in Hk. lia.
        -- intros j rq' Hj. apply Hbefore. lia.
        -- exact Hat.
        -- intros j rq' Hj. apply Hafter. simpl. lia.
      * cbv iota beta. simpl is_RequestException. cbv iota.
        unfold bind at 1. unfold logging at 1. cbv beta iota. unfold ret at 1.
        cbv beta iota. apply (IH _ _ k msg).
        -- cbn [sent]. simpl in Hk. lia.
        -- intros j rq' Hj. apply Hbefore. cbn [sent] in Hj. lia.
        -- exact Hat.
        -- intros j rq' Hj. apply Hafter. cbn [sent] in Hj. simpl. lia.
Qed.

(** X9. In main.py a network failure outweighs a bad status, and the
    last one counts: when no attempt gets a 200 and attempt [k] is the
    last that failed at network level, the attempts after it being
    answered with a status other than 200, the fetcher raises the
    [RequestException] of attempt [k]. *)
Theorem main_fetch_network_error_wins (env : Env) (url : string)
  (params : list (string * Param)) (max_retries : Z) (backoff_factor : Q)
  (w : World Main.CacheStore) (k : nat) (msg : string) :
  (length (sent w) <= k < length (sent w) + Z.to_nat max_retries)%nat ->
  (forall j rq, (length (sent w) <= j < k)%nat -> not_200 (http env j rq)) ->
  (forall rq, http env k rq = NetworkError msg) ->
  (forall j rq, (k < j < length (sent w) + Z.to_nat max_retries)%nat ->
                non_200_response (http env j rq)) ->
  fst (Main._fetch_with_retry env url params max_retries backoff_factor w)
  = Raise (RequestException msg).
Proof.
  intros Hk Hbefore Hat Hafter. unfold Main._fetch_with_retry.
  apply (main_fetch_loop_network_error env url params max_retries
           backoff_factor (Py.range max_retries) None w k msg);
    rewrite ?length_range; assumption.
Qed.

Lemma main_fetch_network_error_wins_witness :
  fst (Main._fetch_with_retry MoreFixtures.env_flaky
         "https://www.bing.com/search" [] 2 (3#10) Fixtures.main_world)
  = Raise (RequestException "Connection refused")
  /\ fst (Main._fetch_with_retry MoreFixtures.env_two_failures
            "https://www.bing.com/search" [] 2 (3#10) Fixtures.main_world)
     = Raise (RequestException "Read timed out").
Proof.
  split.
  - apply (main_fetch_network_error_wins MoreFixtures.env_flaky
             "https://www.bing.com/search" [] 2 (3#10) Fixtures.main_world
             0%nat "Connection refused").
    + simpl. lia.
    + intros j rq Hj. simpl in Hj. lia.
    + intros rq. reflexivity.
    + intros [|j] rq Hj; [lia|]. eexists. split; [reflexivity | discriminate].
  - apply (main_fetch_network_error_wins MoreFixtures.env_two_failures
             "https://www.bing.com/search" [] 2 (3#10) Fixtures.main_world
             1%nat "Read timed out").
    + simpl. lia.
    + intros [|j] rq Hj r; [discriminate | simpl in Hj; lia].
    + intros rq. reflexivity.
    + intros j rq Hj. simpl in Hj. lia.
Defined.

(** app.py's loop over [range(max_retries)], from attempt [start] on,
    when no attempt gets a 200: every attempt is made, and the one
    numbered [max_retries - 1] decides how the loop ends. *)
Lemma app_fetch_loop_final (env : Env) (url : string)
  (params : list (string * Param)) (max_retries : Z) (count : nat) :
  forall (start : nat) (w : World (gmap string (list App.Result))),
    (forall k rq, (length (sent w) <= k < length (sent w) + count)%nat ->
                  not_200 (http env k rq)) ->
    exists res w',
      App.fetch_loop env url params max_retries (seq start count) w = (res, w')
      /\ (forall i msg,
             (i < count)%nat -> Z.of_nat (start + i) = max_retries - 1 ->
             (forall rq, http env (length (sent w) + i) rq = NetworkError msg) ->
             res = Raise (RequestException msg))
      /\ ((forall i,
              (i < count)%nat -> Z.of_nat (start + i) = max_retries - 1 ->
              forall rq, non_200_response (http env (length (sent w) + i) rq)) ->
          res = Ok None).
Proof.
  induction count as [|count IH]; intros start w Hno.
  - exists (Ok None), w. split; [reflexivity|].
    split; [intros i msg Hi; lia | reflexivity].
  - cbn [seq App.fetch_loop].
    destruct (app_fetch_attempt_run env url params w)
      as (rq & w1 & Hrun & Hsent & _).
    assert (Hlen : length (sent w1) = S (length (sent w))).
    { rewrite Hsent, length_app. simpl. lia. }
    unfold bind at 1. unfold try_except. rewrite Hrun.
    pose proof (Hno (length (sent w)) rq ltac:(lia)) as Hhere.
    destruct (http env (length (sent w)) rq) as [r|msg0] eqn:Hanswer.
    + destruct (Z.eqb_spec (status_code r) 200) as [H200|_].
      { exfalso. apply (Hhere r); [reflexivity | exact H200]. }
      unfold ret. cbv iota beta.
      destruct (IH (S start) w1) as (res & w' & Hloop & Hraise & Hnone).
      { intros k rq' Hk. apply Hno. lia. }
      exists res, w'. split; [exact Hloop|]. split.
      * intros [|i] msg Hi Hfinal Hdown.
        -- specialize (Hdown rq). rewrite Nat.add_0_r in Hdown. congruence.
        -- apply (Hraise i msg); [lia | rewrite <- Hfinal; f_equal; lia|].
           intros rq'. rewrite Hlen.
           replace (S (length (sent w)) + i)%nat
             with (length (sent w) + S i)%nat by lia.
           apply Hdown.
      * intros Hfinal. apply Hnone. intros i Hi Hi' rq'. rewrite Hlen.
        replace (S (length (sent w)) + i)%nat
          with (length (sent w) + S i)%nat by lia.
        apply Hfinal; [lia | rewrite <- Hi'; f_equal; lia].
    + cbv iota beta. simpl is_RequestException. cbv iota.
      unfold bind at 1. unfold logging at 1. cbv beta iota.
      set (w2 := mkWorld _ _ _ _ _).
      destruct (Z.eqb_spec (Z.of_nat start) (max_retries - 1)) as [Hlast|Hnot].
      * unfold raise. cbv beta iota.
        exists (Raise (RequestException msg0)), w2. split; [reflexivity|]. split.
        -- intros i msg Hi Hfinal Hdown.
           assert (i = 0%nat) by lia. subst i.
           specialize (Hdown rq). rewrite Nat.add_0_r in Hdown. congruence.
        -- intros Hfinal. exfalso.
           destruct (Hfinal 0%nat ltac:(lia)
                       ltac:(rewrite Nat.add_0_r; exact Hlast) rq)
             as (r & Hr & _).
           rewrite Nat.add_0_r in Hr. congruence.
      * unfold ret at 1. cbv beta iota.
        destruct (IH (S start) w2) as (res & w' & Hloop & Hraise & Hnone).
        { intros k rq' Hk. apply Hno. subst w2. simpl in Hk. lia. }
        exists res, w'. split; [exact Hloop|]. split.
        -- intros [|i] msg Hi Hfinal Hdown.
           ++ rewrite Nat.add_0_r in Hfinal. contradiction.
           ++ apply (Hraise i msg); [lia | rewrite <- Hfinal; f_equal; lia|].
              intros rq'. subst w2. simpl. rewrite Hlen.
              replace (S (length (sent w)) + i)%nat
                with (length (sent w) + S i)%nat by lia.
              apply Hdown.
        -- intros Hfinal. apply Hnone. intros i Hi Hi' rq'.
           subst w2. simpl. rewrite Hlen.
           replace (S (length (sent w)) + i)%nat
             with (length (sent w) + S i)%nat by lia.
           apply Hfinal; [lia | rewrite <- Hi'; f_equal; lia].
Qed.

(** X10. In app.py only the last attempt can make the fetcher raise:
    when no attempt gets a 200, a network failure of the last attempt
    is raised, and a last attempt answered with a bad status makes the
    fetcher return [None], whatever network failures came before. *)
Theorem app_fetch_last_attempt_decides (env : Env) (url : string)
  (params : list (string * Param)) (max_retries : Z)
  (w : World (gmap string (list App.Result))) :
  0 < max_retries ->
  (forall k rq, (length (sent w) <= k < length (sent w) + Z.to_nat max_retries)%nat ->
                not_200 (http env k rq)) ->
  (forall msg,
      (forall rq, http env (length (sent w) + Z.to_nat max_retries - 1) rq
                  = NetworkError msg) ->
      fst (App._fetch_with_retry env url params max_retries w)
      = Raise (RequestException msg))
  /\ ((forall rq, non_200_response
                    (http env (length (sent w) + Z.to_nat max_retries - 1) rq)) ->
      fst (App._fetch_with_retry env url params max_retries w) = Ok None).
Proof.
  intros Hpos Hno. unfold App._fetch_with_retry, Py.range.
  destruct (app_fetch_loop_final env url params max_retries
              (Z.to_nat max_retries) 0 w Hno) as (res & w' & -> & Hraise & Hnone).
  simpl fst. split.
  - intros msg Hdown.
    apply (Hraise (Z.to_nat max_retries - 1)%nat msg); [lia | simpl; lia|].
    intros rq.
    replace (length (sent w) + (Z.to_nat max_retries - 1))%nat
      with (length (sent w) + Z.to_nat max_retries - 1)%nat by lia.
    apply Hdown.
  - intros Hbad. apply Hnone. intros i Hi Hfinal rq.
    replace (length (sent w) + i)%nat
      with (length (sent w) + Z.to_nat max_retries - 1)%nat by (simpl in Hfinal; lia).
    apply Hbad.
Qed.

Lemma app_fetch_last_attempt_decides_witness :
  fst (App._fetch_with_retry MoreFixtures.env_last_down App.base_url [] 5
         Fixtures.app_world) = Raise (RequestException "Read timed out")
  /\ fst (App._fetch_with_retry MoreFixtures.env_flaky App.base_url [] 5
            Fixtures.app_world) = Ok None.
Proof.
  split.
  - apply (app_fetch_last_attempt_decides MoreFixtures.env_last_down
             App.base_url [] 5 Fixtures.app_world); [lia | |].
    + intros k rq _ r. simpl.
      destruct k as [|[|[|[|[|k]]]]]; intros [= <-]; discriminate.
    + intros rq. reflexivity.
  - apply (app_fetch_last_attempt_decides MoreFixtures.env_flaky
             App.base_url [] 5 Fixtures.app_world); [lia | |].
    + intros [|k] rq _ r; simpl; [discriminate|]. intros [= <-]. discriminate.
    + intros rq. eexists. split; [reflexivity | discriminate].
Defined.

(** ** Pacing *)






(** ** [ImprovedSearch.search], request by request *)

Lemma main_category_in_enum `{PyLib} (url title snippet : string) :
  In (Main._categorize_result url title snippet) category_enum.
Proof.
  unfold Main._categorize_result. cbv zeta.
  pose proof (first_category_in Main.categories
                (Py.lower (urlparse_netloc url))
                (Py.lower title +:+ " " +:+ Py.lower snippet)) as Hin.
  simpl in Hin |- *. intuition.
Qed.

(** What the parser of main.py emits for a container. *)
Lemma main_parse_candidate_fields `{PyLib} (div : Node) (r : Main.SearchResult) :
  Main.parse_candidate div = Some r ->
  Main.title r <> "" /\ Main.url r <> "" /\ Main.snippet r <> ""
  /\ In (Main.category r) category_enum
  /\ Main.favicon r = "https://www.google.com/s2/favicons?domain=" +:+ Main.url r
  /\ Main.score r = 0.
Proof.
  unfold Main.parse_candidate, Main.try_candidate. cbv zeta.
  destruct (Soup.find ["h3"; "h2"; "h1"] [] div); [|discriminate].
  destruct (Soup.find ["a"] [] div); [|discriminate].
  destruct (Soup.get "href" _); [|discriminate].
  destruct (negb _); [discriminate|].
  destruct (_ && _) eqn:Hall; [|discriminate].
  destruct (urlparse _); [|discriminate].
  intros [= <-]. unfold Main.new_SearchResult.
  cbn [Main.title Main.url Main.snippet Main.category Main.favicon Main.score].
  apply andb_prop in Hall. destruct Hall as [Hall Hs].
  apply andb_prop in Hall. destruct Hall as [Ht Hu].
  split; [apply truthy_true, Ht|]. split; [apply truthy_true, Hu|].
  split; [apply truthy_true, Hs|]. split; [apply main_category_in_enum|].
  split; reflexivity.
Qed.

Lemma main_search_single_engine_full `{PyLib} (env : Env)
  (search_url query : string) (page : Z) (w : World Main.CacheStore) :
  exists results w' new,
    Main._search_single_engine env search_url query page w = (Ok results, w')
    /\ Forall (fun r => exists div, Main.parse_candidate div = Some r) results
    /\ sent w' = (sent w ++ new)%list
    /\ (1 <= length new <= 2)%nat
    /\ Forall (fun rq => req_url rq = search_url
                         /\ req_params rq = MainInv.search_params query page
                         /\ req_timeout rq = 5) new.
Proof.
  unfold Main._search_single_engine, try_except, Main._fetch_with_retry.
  cbv zeta. unfold bind at 1.
  fold (MainInv.search_params query page).
  destruct (main_fetch_loop_sends env search_url
              (MainInv.search_params query page) 2 (3#10) (Py.range 2) None w)
    as (res & w1 & new & Hfetch & Hsent & Hlen & Hne & Hall & _).
  rewrite Hfetch.
  assert (Hcount : (1 <= length new <= 2)%nat).
  { split; [|exact Hlen]. destruct new; [exfalso; apply Hne; [discriminate | reflexivity]|].
    simpl. lia. }
  destruct res as [response|e].
  - destruct (response_truthy response && Py.truthy (text response)).
    + destruct (main_parse_results_run (text response) w1)
        as (results & w2 & Hparse & _ & Hsent2 & _ & _ & Hresults).
      rewrite Hparse. exists results, w2, new.
      split; [reflexivity|]. split; [|rewrite Hsent2; auto].
      destruct (html_parser (text response)) as [soup|e]; subst results;
        [|constructor].
      apply List.Forall_forall. intros r Hr. unfold Main.parse_soup in Hr.
      apply list_elem_of_In, list_elem_of_omap in Hr.
      destruct Hr as (div & _ & Hdiv). eauto.
    + unfold ret. simpl. exists [], w1, new. split; [reflexivity|].
      split; [constructor | auto].
  - simpl. unfold bind, logging, ret. simpl. eexists _, _, new.
    split; [reflexivity|]. split; [constructor|]. simpl. auto.
Qed.

(** Tasks that return values satisfying [V] and send, each, between one
    and two requests satisfying [P]: what the pool makes of them. *)
Lemma run_futures_full {C A} (V : A -> Prop) (P : Request -> Prop)
  (tasks : list (M C A)) :
  Forall (fun task => forall w, exists a w' new,
              task w = (Ok a, w') /\ V a
              /\ sent w' = (sent w ++ new)%list /\ cache w' = cache w
              /\ (1 <= length new <= 2)%nat /\ Forall P new) tasks ->
  forall w, exists futures w' new,
    run_futures tasks w = (Ok futures, w')
    /\ Forall (fun future => exists a, future = Ok a /\ V a) futures
    /\ sent w' = (sent w ++ new)%list /\ cache w' = cache w
    /\ (length tasks <= length new <= 2 * length tasks)%nat
    /\ Forall P new.
Proof.
  induction 1 as [|task tasks Ht _ IH]; intros w.
  - exists [], w, []. simpl. unfold ret. rewrite app_nil_r.
    repeat split; try constructor; lia.
  - cbn [run_futures]. unfold bind at 1. unfold run_future.
    destruct (Ht w) as (a & w1 & new1 & Hrun & Ha & Hs1 & Hc1 & Hl1 & Hp1).
    rewrite Hrun. unfold bind at 1.
    destruct (IH w1) as (futures & w2 & new2 & Hrest & Hf & Hs2 & Hc2 & Hl2 & Hp2).
    rewrite Hrest. unfold ret.
    exists (Ok a :: futures), w2, (new1 ++ new2)%list.
    split; [reflexivity|]. split; [constructor; eauto|].
    split; [rewrite Hs2, Hs1, <- app_assoc; reflexivity|].
    split; [congruence|].
    split; [rewrite length_app; simpl; lia|].
    apply Forall_app. auto.
Qed.

Lemma as_completed_full {C A} (env : Env) (V : A -> Prop) (P : Request -> Prop)
  (tasks : list (M C A)) :
  Forall (fun task => forall w, exists a w' new,
              task w = (Ok a, w') /\ V a
              /\ sent w' = (sent w ++ new)%list /\ cache w' = cache w
              /\ (1 <= length new <= 2)%nat /\ Forall P new) tasks ->
  forall w, exists futures w' new,
    as_completed env tasks w = (Ok futures, w')
    /\ Forall (fun future => exists a, future = Ok a /\ V a) futures
    /\ sent w' = (sent w ++ new)%list /\ cache w' = cache w
    /\ (length tasks <= length new <= 2 * length tasks)%nat
    /\ Forall P new.
Proof.
  intros Ht w. unfold as_completed.
  destruct (completes_reversed env (draws w)).
  - destruct (run_futures_full V P (rev tasks) (Forall_rev Ht) w)
      as (futures & w' & new & Hrun & Hf & Hs & Hc & Hl & Hp).
    rewrite length_rev in Hl. eauto 10.
  - apply run_futures_full. exact Ht.
Qed.

Lemma main_collect_Forall (Q : Main.SearchResult -> Prop)
  (futures : list (Exc (list Main.SearchResult))) :
  Forall (fun future => exists a, future = Ok a /\ Forall Q a) futures ->
  forall results errors,
    Forall Q results -> Forall Q (fst (Main.collect futures results errors)).
Proof.
  induction 1 as [|future futures (a & -> & Ha) _ IH]; intros results errors Hr;
    cbn [Main.collect].
  - exact Hr.
  - assert (Hboth : Forall Q (results ++ a)) by (apply Forall_app; auto).
    destruct (5 <=? length (results ++ a))%nat; [exact Hboth|].
    apply IH. exact Hboth.
Qed.

Lemma StronglySorted_map {A B} (f : A -> B) (R : B -> B -> Prop) (l : list A) :
  StronglySorted (fun a b => R (f a) (f b)) l -> StronglySorted R (map f l).
Proof.
  induction 1 as [|a l Hl IH Ha]; simpl; constructor; [exact IH|].
  apply List.Forall_map. exact Ha.
Qed.

Lemma main_dicts_serialized (results : list Main.SearchResult) :
  MainInv.dicts (map (fun r => Main.DictItem (Main.to_dict r)) results)
  = map Main.to_dict results.
Proof. induction results as [|r l IH]; simpl; [reflexivity|]. f_equal. exact IH. Qed.

Lemma main_dicts_strings (suggestions : list string) :
  MainInv.dicts (map Main.StrItem suggestions) = [].
Proof. induction suggestions as [|s l IH]; simpl; [reflexivity | exact IH]. Qed.

(** Ranked and serialized, what the parser emitted is a list of good
    dicts by descending score. *)
Lemma main_serialized_good `{PyLib} (query : string)
  (collected : list Main.SearchResult) :
  Forall (fun r => exists div, Main.parse_candidate div = Some r) collected ->
  MainInv.good_items
    (map (fun r => Main.DictItem (Main.to_dict r))
       (Main._rank_results query collected)).
Proof.
  intros Hparsed. unfold MainInv.good_items. rewrite main_dicts_serialized.
  split.
  - apply List.Forall_map. unfold Main._rank_results. cbv zeta.
    apply Forall_sorted_reverse, List.Forall_map.
    eapply List.Forall_impl; [|exact Hparsed].
    intros r (div & Hdiv).
    destruct (main_parse_candidate_fields div r Hdiv)
      as (Ht & Hu & Hs & Hc & Hf & _).
    unfold MainInv.good_dict. simpl. auto 10.
  - apply StronglySorted_map. unfold Main._rank_results. cbv zeta.
    apply (sorted_reverse_sorted Main.score).
Qed.

Lemma main_strings_good (suggestions : list string) :
  MainInv.good_items (map Main.StrItem suggestions).
Proof.
  unfold MainInv.good_items. rewrite main_dicts_strings.
  split; constructor.
Qed.

(** The miss path of [search] in full. *)
Lemma main_search_miss_full `{PyLib} (env : Env) (query : string) (page : Z)
  (cache_key : string) (w : World Main.CacheStore) :
  exists collected w2 new,
    Main.search_miss env query page cache_key w
    = (Ok (map (fun r => Main.DictItem (Main.to_dict r))
             (Main._rank_results query collected)),
       snd (Main._save_to_cache cache_key
              (map (fun r => Main.DictItem (Main.to_dict r))
                 (Main._rank_results query collected)) 3600 w2))
    /\ Forall (fun r => exists div, Main.parse_candidate div = Some r) collected
    /\ cache w2 = cache w
    /\ sent w2 = (sent w ++ new)%list
    /\ (2 <= length new <= 4)%nat
    /\ Forall (fun rq => In (req_url rq) Main.search_urls
                         /\ req_params rq = MainInv.search_params query page
                         /\ req_timeout rq = 5) new.
Proof.
  unfold Main.search_miss. unfold bind at 1.
  set (tasks := map _ Main.search_urls).
  assert (Htasks : Forall (fun task => forall w, exists a w' new,
              task w = (Ok a, w')
              /\ Forall (fun r => exists div, Main.parse_candidate div = Some r) a
              /\ sent w' = (sent w ++ new)%list /\ cache w' = cache w
              /\ (1 <= length new <= 2)%nat
              /\ Forall (fun rq => In (req_url rq) Main.search_urls
                                   /\ req_params rq = MainInv.search_params query page
                                   /\ req_timeout rq = 5) new) tasks).
  { subst tasks. apply List.Forall_map, List.Forall_forall. intros url Hurl w0.
    destruct (main_search_single_engine_full env url query page w0)
      as (a & w' & new & Hrun & Ha & Hs & Hl & Hp).
    exists a, w', new. split; [exact Hrun|]. split; [exact Ha|].
    split; [exact Hs|].
    split; [pose proof (keeps_main_search_single_engine env url query page w0) as Hk;
            rewrite Hrun in Hk; exact Hk|].
    split; [exact Hl|].
    eapply List.Forall_impl; [|exact Hp].
    intros rq (-> & Hparams & Htimeout). auto. }
  destruct (as_completed_full env _ _ tasks Htasks w)
    as (futures & w2 & new & Hrun & Hf & Hs & Hc & Hl & Hp).
  rewrite Hrun.
  assert (Herr : snd (Main.collect futures [] []) = []).
  { apply (main_collect_values
             (fun a => Forall (fun r => exists div, Main.parse_candidate div = Some r) a)
             futures Hf [] []). }
  pose proof (main_collect_Forall _ futures Hf [] [] ltac:(constructor)) as Hcol.
  destruct (Main.collect futures [] []) as [collected errors].
  simpl in Herr, Hcol. subst errors.
  exists collected, w2, new.
  split.
  - destruct collected; unfold bind; rewrite main_save_to_cache_run; reflexivity.
  - subst tasks. rewrite length_map in Hl. simpl in Hl. auto 10.
Qed.

(** The lookup sends nothing. *)
Lemma main_get_from_cache_sent (key : string) (w : World Main.CacheStore) :
  sent (snd (Main._get_from_cache key w)) = sent w
  /\ now (snd (Main._get_from_cache key w)) = now w.
Proof.
  rewrite main_get_from_cache_run.
  destruct (Main.store (cache w) !! key) as [[data expires]|]; [|auto].
  destruct (Qlt_le_dec (now w) expires); [auto|].
  destruct (cache w); auto.
Qed.

(** [search] of main.py in full: a fresh non-empty entry answers;
    otherwise both engines are asked. *)
Lemma main_search_full `{PyLib} (env : Env) (query : string) (page : Z)
  (w : World Main.CacheStore) :
  exists items w' new,
    Main.search env query page w = (Ok items, w')
    /\ sent w' = (sent w ++ new)%list
    /\ Forall (fun rq => In (req_url rq) Main.search_urls
                         /\ req_params rq = MainInv.search_params query page
                         /\ req_timeout rq = 5) new
    /\ ((exists expires,
            Main.store (cache w) !! Main._get_cache_key query page
            = Some (items, expires)
            /\ (now w < expires)%Q /\ items <> []
            /\ w' = w /\ new = [])
        \/ ((forall item rest expires,
                Main.store (cache w) !! Main._get_cache_key query page
                = Some (item :: rest, expires) ->
                (expires <= now w)%Q)
            /\ (2 <= length new <= 4)%nat)).
Proof.
  rewrite main_search_unfold.
  set (key := Main._get_cache_key query page).
  pose proof (main_get_from_cache_sent key w) as [Hsent _].
  rewrite main_get_from_cache_run in Hsent |- *.
  assert (Hmiss : forall w1, sent w1 = sent w ->
            (forall item rest expires,
                Main.store (cache w) !! key = Some (item :: rest, expires) ->
                (expires <= now w)%Q) ->
            exists items w' new,
              Main.search_miss env query page key w1 = (Ok items, w')
              /\ sent w' = (sent w ++ new)%list
              /\ Forall (fun rq => In (req_url rq) Main.search_urls
                                   /\ req_params rq = MainInv.search_params query page
                                   /\ req_timeout rq = 5) new
              /\ ((exists expires,
                      Main.store (cache w) !! key = Some (items, expires)
                      /\ (now w < expires)%Q /\ items <> []
                      /\ w' = w /\ new = [])
                  \/ ((forall item rest expires,
                          Main.store (cache w) !! key
                          = Some (item :: rest, expires) ->
                          (expires <= now w)%Q)
                      /\ (2 <= length new <= 4)%nat))).
  { intros w1 Hw1 Hstale.
    destruct (main_search_miss_full env query page key w1)
      as (collected & w2 & new & Hrun & _ & _ & Hs & Hl & Hp).
    rewrite Hrun. eexists _, _, new. split; [reflexivity|].
    split; [rewrite main_save_to_cache_run; simpl; rewrite Hs, Hw1; reflexivity|].
    split; [exact Hp|]. right. split; [exact Hstale | exact Hl]. }
  destruct (Main.store (cache w) !! key) as [[data expires]|] eqn:Hk.
  - destruct (Qlt_le_dec (now w) expires) as [Hfresh|Hstale].
    + destruct data as [|item items].
      * apply Hmiss; [reflexivity|]. intros item rest t [=].
      * exists (item :: items), w, []. split; [reflexivity|].
        split; [rewrite app_nil_r; reflexivity|]. split; [constructor|].
        left. exists expires. repeat split; auto.
    + apply Hmiss; [exact Hsent|]. intros item rest t [= _ <-]. exact Hstale.
  - apply Hmiss; [reflexivity|]. intros item rest t [=].
Qed.



(** A non-empty entry that has not expired answers the search. *)
Lemma main_search_fresh `{PyLib} (env : Env) (query : string) (page : Z)
  (w : World Main.CacheStore) (item : Main.PyItem) (items : list Main.PyItem)
  (expires : Q) :
  Main.store (cache w) !! Main._get_cache_key query page
  = Some (item :: items, expires) ->
  (now w < expires)%Q ->
  Main.search env query page w = (Ok (item :: items), w).
Proof.
  intros Hk Hfresh. rewrite main_search_unfold, main_get_from_cache_run, Hk.
  destruct (Qlt_le_dec (now w) expires) as [_|Hstale]; [reflexivity|].
  exfalso. apply (Qlt_not_le _ _ Hfresh Hstale).
Qed.

(** The entry [_save_to_cache] leaves under its key. *)
Lemma main_save_to_cache_entry (key : string) (data : list Main.PyItem)
  (expire_time : Q) (w : World Main.CacheStore) :
  Main.store (cache (snd (Main._save_to_cache key data expire_time w))) !! key
  = Some (data, (now w + expire_time)%Q)
  /\ now (snd (Main._save_to_cache key data expire_time w)) = now w
  /\ sent (snd (Main._save_to_cache key data expire_time w)) = sent w.
Proof.
  rewrite main_save_to_cache_run. simpl.
  destruct (cache w); simpl; rewrite lookup_insert_eq; auto.
Qed.

(** X13. A search of main.py that returned results is repeatable.  Asked
    again at once, with the network in whatever state, [search] returns
    the same list and leaves the world as it is: no request, no log
    line, no change of the cache.  When the first call had to go to
    the network, the same holds for a full hour (3600 seconds) after
    it returned. *)
Theorem main_search_repeat `{PyLib} (env env' : Env) (query : string) (page : Z)
  (w w' : World Main.CacheStore) (item : Main.PyItem)
  (items : list Main.PyItem) :
  Main.search env query page w = (Ok (item :: items), w') ->
  Main.search env' query page w' = (Ok (item :: items), w')
  /\ (sent w' <> sent w ->
      forall seconds, (0 <= seconds)%Q -> (seconds < 3600)%Q ->
        Main.search env' query page (elapse seconds w')
        = (Ok (item :: items), elapse seconds w')).
Proof.
  intros Hrun.
  destruct (main_search_full env query page w)
    as (items0 & w0 & new & Hrun0 & Hsent & _ & Hcase).
  rewrite Hrun in Hrun0. injection Hrun0 as <- <-.
  destruct Hcase as [(expires & Hk & Hfresh & _ & -> & ->)|[_ Hlen]].
  - split; [exact (main_search_fresh env' query page w item items expires Hk Hfresh)|].
    intros Hne. exfalso. apply Hne. reflexivity.
  - rewrite main_search_unfold in Hrun.
    set (key := Main._get_cache_key query page) in *.
    assert (Hmiss : exists w1,
               Main.search_miss env query page key w1 = (Ok (item :: items), w')).
    { rewrite main_get_from_cache_run in Hrun.
      destruct (Main.store (cache w) !! key) as [[data expires]|].
      - destruct (Qlt_le_dec (now w) expires).
        + destruct data as [|item0 items0]; [eauto|].
          exfalso. injection Hrun as _ _ Hw. subst w'.
          rewrite <- (app_nil_r (sent w)) in Hsent at 1.
          apply app_inv_head in Hsent. subst new. simpl in Hlen. lia.
        + eauto.
      - eauto. }
    destruct Hmiss as (w1 & Hmiss).
    destruct (main_search_miss_full env query page key w1)
      as (collected & w2 & new2 & Hfull & _).
    rewrite Hfull in Hmiss. injection Hmiss as Hitems Hw'.
    destruct (main_save_to_cache_entry key
                (map (fun r => Main.DictItem (Main.to_dict r))
                   (Main._rank_results query collected)) 3600 w2)
      as (Hentry & Hnow & _).
    rewrite Hw', Hitems in Hentry. rewrite Hw' in Hnow.
    split.
    + apply (main_search_fresh env' query page w' item items _ Hentry).
      rewrite Hnow. lra.
    + intros _ seconds Hge Hlt.
      apply (main_search_fresh env' query page (elapse seconds w') item items
               _ Hentry).
      simpl. rewrite Hnow. lra.
Qed.

Lemma main_search_repeat_witness :
  exists w' item items,
    Main.search (lib := Fixtures.lib) Fixtures.env_page "m3" 1
      Fixtures.main_world
    = (Ok (item :: items), w')
    /\ Main.search (lib := Fixtures.lib) Fixtures.env_down "m3" 1
         (elapse 3599 w')
       = (Ok (item :: items), elapse 3599 w').
Proof.
  destruct (Main.search (lib := Fixtures.lib) Fixtures.env_page "m3" 1
              Fixtures.main_world)
    as [[[|item items]|] w'] eqn:Hrun;
    try (vm_compute in Hrun; discriminate Hrun).
  exists w', item, items. split; [reflexivity|].
  assert (Hsent : sent w' <> sent Fixtures.main_world).
  { pose proof (f_equal (fun p => length (sent (snd p))) Hrun) as Hlen.
    cbn [snd] in Hlen. intros Heq. rewrite Heq in Hlen.
    vm_compute in Hlen. discriminate Hlen. }
  apply (main_search_repeat (H := Fixtures.lib) Fixtures.env_page
           Fixtures.env_down "m3" 1 Fixtures.main_world w' item items Hrun);
    [exact Hsent | |]; lra.
Defined.

(** ** What main.py caches and returns is well formed *)

Lemma maintains_cache_all_save (G : list Main.PyItem -> Prop) (key : string)
  (data : list Main.PyItem) (expire_time : Q) :
  G data ->
  maintains (MainInv.cache_all G) (Main._save_to_cache key data expire_time).
Proof.
  intros Hdata w HJ. rewrite main_save_to_cache_run. simpl.
  intros k d t Hk. unfold MainInv.cache_all in HJ.
  destruct (cache w) as [db|m]; simpl in *;
    (destruct (decide (key = k)) as [->|Hne];
     [rewrite lookup_insert_eq in Hk; injection Hk as <- <-; exact Hdata
     |rewrite lookup_insert_ne in Hk by exact Hne; exact (HJ k d t Hk)]).
Qed.

Lemma maintains_cache_all_get (G : list Main.PyItem -> Prop) (key : string) :
  maintains (MainInv.cache_all G) (Main._get_from_cache key).
Proof.
  intros w HJ. rewrite main_get_from_cache_run.
  destruct (Main.store (cache w) !! key) as [[data expires]|]; [|exact HJ].
  destruct (Qlt_le_dec (now w) expires); [exact HJ|].
  destruct (cache w) as [db|m] eqn:Hc; simpl; [rewrite Hc; exact HJ|].
  intros k d t Hk. simpl in Hk.
  apply lookup_delete_Some in Hk. destruct Hk as [_ Hk].
  exact (HJ k d t Hk).
Qed.

Lemma main_get_from_cache_all (G : list Main.PyItem -> Prop) (key : string)
  (w : World Main.CacheStore) (data : list Main.PyItem) :
  MainInv.cache_all G (cache w) ->
  fst (Main._get_from_cache key w) = Ok (Some data) ->
  G data.
Proof.
  intros HJ. rewrite main_get_from_cache_run.
  destruct (Main.store (cache w) !! key) as [[stored expires]|] eqn:Hk;
    [|discriminate].
  destruct (Qlt_le_dec (now w) expires); [|discriminate].
  intros [= <-]. exact (HJ key stored expires Hk).
Qed.

Lemma maintains_good_main_search `{PyLib} (env : Env) (query : string)
  (page : Z) :
  maintains (MainInv.cache_all MainInv.good_items) (Main.search env query page).
Proof.
  intros w HJ.
  destruct (main_search_run env query page w)
    as [(item & items & _ & Hhit)|[_ Hmiss]].
  - rewrite Hhit. exact HJ.
  - rewrite Hmiss.
    pose proof (maintains_cache_all_get MainInv.good_items
                  (Main._get_cache_key query page) w HJ) as HJ1.
    destruct (main_search_miss_full env query page
                (Main._get_cache_key query page)
                (snd (Main._get_from_cache (Main._get_cache_key query page) w)))
      as (collected & w2 & new & Hrun & Hparsed & Hcache & _).
    rewrite Hrun. cbn [snd].
    apply maintains_cache_all_save; [apply main_serialized_good, Hparsed|].
    rewrite Hcache. exact HJ1.
Qed.

Lemma maintains_good_main_get_suggestions `{PyLib} (env : Env)
  (query : string) :
  maintains (MainInv.cache_all MainInv.good_items)
    (Main.get_suggestions env query).
Proof.
  unfold Main.get_suggestions, Main._fetch_with_retry.
  destruct (_ || _); [apply maintains_keeps; keeps|].
  cbv zeta. apply maintains_bind; [apply maintains_cache_all_get|].
  intros [[|item items]|].
  - apply maintains_try_except.
    + apply maintains_bind;
        [apply maintains_keeps, keeps_main_fetch_loop|].
      intros response. destruct (_ && _); [|apply maintains_keeps; keeps].
      apply maintains_bind; [apply maintains_keeps; keeps|].
      intros suggestions.
      apply maintains_bind; [|intros _; apply maintains_keeps; keeps].
      apply maintains_cache_all_save, main_strings_good.
    + intros e. apply maintains_keeps. keeps.
  - apply maintains_keeps. keeps.
  - apply maintains_try_except.
    + apply maintains_bind;
        [apply maintains_keeps, keeps_main_fetch_loop|].
      intros response. destruct (_ && _); [|apply maintains_keeps; keeps].
      apply maintains_bind; [apply maintains_keeps; keeps|].
      intros suggestions.
      apply maintains_bind; [|intros _; apply maintains_keeps; keeps].
      apply maintains_cache_all_save, main_strings_good.
    + intros e. apply maintains_keeps. keeps.
Qed.

Lemma reachable_cache_good `{PyLib} (env : Env) (w : World Main.CacheStore) :
  Main.reachable env w -> MainInv.cache_all MainInv.good_items (cache w).
Proof.
  induction 1 as [t|t|w query page _ IH|w query _ IH|w seconds _ IH].
  - intros k d t' Hk. simpl in Hk. rewrite lookup_empty in Hk. discriminate.
  - intros k d t' Hk. simpl in Hk. rewrite lookup_empty in Hk. discriminate.
  - apply maintains_good_main_search. exact IH.
  - apply maintains_good_main_get_suggestions. exact IH.
  - exact IH.
Qed.

(** X14. Whatever an [ImprovedSearch] has been through (searches,
    suggestion lookups, time going by, with Redis or without) and
    whatever the network does next, the result dicts [search] returns,
    fresh or from the cache, are well
    formed: title, URL and snippet are non-empty, the category is one
    of the enumeration, the display URL is the URL cut at
    60 characters, the favicon address is derived from the URL, the
    type is [regular]; and they stand by descending score. *)
Theorem main_search_good_results `{PyLib} (env env' : Env)
  (w : World Main.CacheStore) (query : string) (page : Z) :
  Main.reachable env w ->
  exists items,
    fst (Main.search env' query page w) = Ok items
    /\ Forall MainInv.good_dict (MainInv.dicts items)
    /\ StronglySorted (desc Main.k_score) (MainInv.dicts items).
Proof.
  intros Hreach. pose proof (reachable_cache_good env w Hreach) as HJ.
  destruct (main_search_run env' query page w)
    as [(item & items & Hget & Hhit)|[_ Hmiss]].
  - exists (item :: items). rewrite Hhit. split; [reflexivity|].
    apply (main_get_from_cache_all MainInv.good_items
             (Main._get_cache_key query page) w).
    + exact HJ.
    + rewrite Hget. reflexivity.
  - rewrite Hmiss.
    destruct (main_search_miss_full env' query page
                (Main._get_cache_key query page)
                (snd (Main._get_from_cache (Main._get_cache_key query page) w)))
      as (collected & w2 & new & Hrun & Hparsed & _).
    rewrite Hrun. eexists. split; [reflexivity|].
    apply main_serialized_good, Hparsed.
Qed.

Lemma main_search_good_results_witness :
  exists items,
    fst (Main.search (lib := Fixtures.lib) Fixtures.env_down "m3" 1
           (elapse 60
              (snd (Main.search (lib := Fixtures.lib) Fixtures.env_page "m3" 1
                      (Fixtures.main_world)))))
    = Ok items
    /\ Forall MainInv.good_dict (MainInv.dicts items)
    /\ StronglySorted (desc Main.k_score) (MainInv.dicts items).
Proof.
  apply (main_search_good_results (H := Fixtures.lib) Fixtures.env_page
           Fixtures.env_down
           (elapse 60
              (snd (Main.search (lib := Fixtures.lib) Fixtures.env_page "m3" 1
                      Fixtures.main_world)))
           "m3" 1).
  apply Main.reachable_elapse, Main.reachable_search.
  apply (Main.reachable_in_memory (lib := Fixtures.lib) Fixtures.env_page 0%Q).
Defined.

(** ** [AppleSearch.search], request by request *)

Lemma app_category_in_enum `{PyLib} (url title : string) :
  In (App._categorize_result url title) category_enum.
Proof.
  unfold App._categorize_result. cbv zeta.
  pose proof (first_category_in App.categories
                (Py.lower (urlparse_netloc url)) (Py.lower title)) as Hin.
  simpl in Hin |- *. intuition.
Qed.

(** What the parser of app.py emits for a container. *)
Lemma app_parse_candidate_fields `{PyLib} (div : Node) (r : App.Result) :
  App.parse_candidate div = Some r ->
  App.is_regular r = true /\ AppInv.good_result r.
Proof.
  unfold App.parse_candidate, App.try_candidate. cbv zeta.
  destruct (Soup.find ["a"] [] div) as [l|]; [|discriminate].
  destruct (Soup.get "href" l) as [url|]; [|discriminate].
  destruct (Soup.find ["h3"] [] div) as [title_elem|]; [|discriminate].
  destruct (Py.truthy url) eqn:Hurl; [|discriminate].
  cbn [negb]. destruct (urlparse url); [|discriminate].
  intros [= <-]. split; [reflexivity|].
  cbn [AppInv.good_result App.url App.display_url App.favicon App.category].
  split; [apply truthy_true, Hurl|]. split; [reflexivity|].
  split; [reflexivity|]. apply app_category_in_enum.
Qed.

Lemma app_rescore_regular `{PyLib} (query : string) (r : App.Result) :
  App.is_regular r = true /\ AppInv.good_result r ->
  App.is_regular (App.rescore query r) = true
  /\ AppInv.good_result (App.rescore query r).
Proof. destruct r as [d|d]; simpl; [intros [? _]; discriminate | tauto]. Qed.

(** What the parser and the ranker of app.py make of a document is a
    good page. *)
Lemma app_ranked_good `{PyLib} (results : list App.Result) :
  AppInv.ranked_page results -> AppInv.good_page results.
Proof.
  intros (query & soup & ->). unfold App._rank_results, App.parse_soup.
  cbv zeta.
  set (found := omap App.parse_candidate (Soup.find_all ["div"] ["tF2Cxc"] soup)).
  assert (Hfound : Forall (fun r => App.is_regular r = true
                                    /\ AppInv.good_result r)
                     (map (App.rescore query) found)).
  { apply List.Forall_map, List.Forall_forall. intros r Hr.
    apply app_rescore_regular. subst found.
    apply list_elem_of_In, list_elem_of_omap in Hr.
    destruct Hr as (div & _ & Hdiv).
    exact (app_parse_candidate_fields div r Hdiv). }
  set (box := match App._extract_info_box soup with
              | Some info_box => [App.InfoBoxResult info_box]
              | None => []
              end).
  assert (Hbox : Forall (fun r => App.is_info_box r = true
                                  /\ AppInv.good_result r)
                   (map (App.rescore query) box)
                 /\ (length (map (App.rescore query) box) <= 1)%nat).
  { subst box. destruct (App._extract_info_box soup); simpl.
    - split; [repeat constructor | lia].
    - split; [constructor | lia]. }
  destruct Hbox as [Hbox Hlen].
  rewrite map_app.
  set (boxes := map (App.rescore query) box) in *.
  set (regs := map (App.rescore query) found) in *.
  assert (Hb : List.filter App.is_info_box (boxes ++ regs) = boxes).
  { rewrite List.filter_app.
    rewrite (filter_all App.is_info_box boxes)
      by (eapply List.Forall_impl; [|exact Hbox]; intros r [Hr _]; exact Hr).
    rewrite (filter_none App.is_info_box regs)
      by (eapply List.Forall_impl; [|exact Hfound]; intros r [Hr _];
          apply regular_not_info_box, Hr).
    apply app_nil_r. }
  assert (Hr : List.filter App.is_regular (boxes ++ regs) = regs).
  { rewrite List.filter_app.
    rewrite (filter_none App.is_regular boxes)
      by (eapply List.Forall_impl; [|exact Hbox]; intros r [Hr _];
          apply info_box_not_regular, Hr).
    rewrite (filter_all App.is_regular regs)
      by (eapply List.Forall_impl; [|exact Hfound]; intros r [Hr _]; exact Hr).
    reflexivity. }
  rewrite Hb, Hr.
  exists boxes, (sorted_reverse App.score_key regs).
  split; [reflexivity|]. split; [exact Hlen|].
  split; [eapply List.Forall_impl; [|exact Hbox]; intros r [Hr' _]; exact Hr'|].
  split; [apply Forall_sorted_reverse; eapply List.Forall_impl; [|exact Hfound];
          intros r [Hr' _]; exact Hr'|].
  split; [|apply (sorted_reverse_sorted App.score_key)].
  apply Forall_app. split.
  - eapply List.Forall_impl; [|exact Hbox]. intros r [_ Hg]. exact Hg.
  - apply Forall_sorted_reverse. eapply List.Forall_impl; [|exact Hfound].
    intros r [_ Hg]. exact Hg.
Qed.

Lemma app_good_nil : AppInv.good_page [].
Proof.
  exists [], []. split; [reflexivity|]. split; [simpl; lia|].
  repeat split; constructor.
Qed.

(** [search] of app.py in full: a hit answers from the dict; a miss
    sends between one and five requests and either caches the ranked
    page it returns or returns nothing and leaves the cache alone. *)
Lemma app_search_full `{PyLib} (env : Env) (query : string) (page : Z)
  (w : World (gmap string (list App.Result))) :
  exists results w' new,
    App.search env query page w = (Ok results, w')
    /\ sent w' = (sent w ++ new)%list
    /\ Forall (fun rq => req_url rq = App.base_url
                         /\ req_params rq = AppInv.search_params query page
                         /\ req_timeout rq = 10) new
    /\ ((cache w !! (query +:+ "_" +:+ str_int page) = Some results
         /\ w' = w /\ new = [])
        \/ (cache w !! (query +:+ "_" +:+ str_int page) = None
            /\ (1 <= length new <= 5)%nat
            /\ ((results = [] /\ cache w' = cache w)
                \/ (AppInv.ranked_page results
                    /\ cache w'
                       = <[query +:+ "_" +:+ str_int page := results]> (cache w))))).
Proof.
  unfold App.search. cbv zeta. unfold bind at 1. unfold get_cache at 1.
  cbv beta iota.
  destruct (cache w !! (query +:+ "_" +:+ str_int page)) as [cached|] eqn:Hkey.
  { unfold ret. exists cached, w, []. rewrite app_nil_r.
    split; [reflexivity|]. split; [reflexivity|]. split; [constructor|].
    left. auto. }
  unfold try_except, App._fetch_with_retry. unfold bind at 1.
  fold (AppInv.search_params query page).
  destruct (app_fetch_loop_sends env App.base_url
              (AppInv.search_params query page) 5 (Py.range 5) w)
    as (res & w1 & new & Hrun & Hsent & Hcache & Hlen & Hall & _).
  destruct (app_fetch_loop_run env App.base_url
              (AppInv.search_params query page) 5 (Py.range 5) w)
    as (res0 & w0 & Hrun0 & _ & _ & Hsome & _).
  rewrite Hrun in Hrun0. injection Hrun0 as <- <-.
  specialize (Hsome ltac:(discriminate)).
  rewrite Hsent, length_app in Hsome.
  assert (Hbounds : (1 <= length new <= 5)%nat)
    by (change (length (Py.range 5)) with 5%nat in Hlen; lia).
  rewrite Hrun.
  assert (Hempty : forall w2, sent w2 = sent w1 -> cache w2 = cache w1 ->
            exists results w' new0,
              (Ok [], w2) = (Ok results, w')
              /\ sent w' = (sent w ++ new0)%list
              /\ Forall (fun rq => req_url rq = App.base_url
                                   /\ req_params rq = AppInv.search_params query page
                                   /\ req_timeout rq = 10) new0
              /\ ((None = Some results /\ w' = w /\ new0 = [])
                  \/ (@None (list App.Result) = None
                      /\ (1 <= length new0 <= 5)%nat
                      /\ ((results = [] /\ cache w' = cache w)
                          \/ (AppInv.ranked_page results
                              /\ cache w'
                                 = <[query +:+ "_" +:+ str_int page := results]>
                                     (cache w)))))).
  { intros w2 Hs2 Hc2. exists [], w2, new. split; [reflexivity|].
    split; [congruence|]. split; [exact Hall|]. right.
    split; [reflexivity|]. split; [exact Hbounds|]. left.
    split; [reflexivity | congruence]. }
  destruct res as [[response|]|e].
  - destruct (negb (response_truthy response)).
    + unfold ret. apply Hempty; reflexivity.
    + unfold bind at 1.
      destruct (html_parser (text response)) as [soup|e] eqn:Hsoup.
      * destruct (app_parse_results_run (text response) soup w1 Hsoup)
          as (w2 & Hparse & _ & Hsent2 & _ & Hcache2).
        rewrite Hparse.
        unfold bind, get_cache, put_cache, ret. cbn [fst snd cache].
        eexists _, _, new. split; [reflexivity|]. cbn [sent].
        split; [rewrite Hsent2; exact Hsent|]. split; [exact Hall|]. right.
        split; [reflexivity|]. split; [exact Hbounds|]. right.
        split; [exists query, soup; reflexivity|].
        cbn [cache]. rewrite Hcache2, Hcache. reflexivity.
      * unfold App._parse_results. unfold bind at 1. unfold lift.
        rewrite Hsoup.
        cbn [is_Exception]. unfold bind, logging, ret. cbv beta iota.
        apply Hempty; reflexivity.
  - unfold ret. apply Hempty; reflexivity.
  - cbn [is_Exception]. unfold bind, logging, ret. cbv beta iota.
    apply Hempty; reflexivity.
Qed.

(** X15. What [AppleSearch.search] asks of the network and what it
    caches.  It never raises.  A key the dict holds is answered with
    the stored list, empty or not, and nothing is sent and nothing
    changes.  Otherwise between one and five requests go out, all to
    the search URL with the parameters [q], [start = (page - 1) * 10],
    [num = 10] and [hl = en] and a timeout of ten seconds; and either
    the list returned is a parsed and ranked page and is now stored
    under the key, or the empty list is returned and the cache is as it
    was: a failure is never cached. *)
Theorem app_search_requests `{PyLib} (env : Env) (query : string) (page : Z)
  (w : World (gmap string (list App.Result))) :
  exists results w' new,
    App.search env query page w = (Ok results, w')
    /\ sent w' = (sent w ++ new)%list
    /\ Forall (fun rq => req_url rq = App.base_url
                         /\ req_params rq = AppInv.search_params query page
                         /\ req_timeout rq = 10) new
    /\ ((cache w !! (query +:+ "_" +:+ str_int page) = Some results
         /\ w' = w /\ new = [])
        \/ (cache w !! (query +:+ "_" +:+ str_int page) = None
            /\ (1 <= length new <= 5)%nat
            /\ ((results = [] /\ cache w' = cache w)
                \/ (AppInv.ranked_page results
                    /\ cache w'
                       = <[query +:+ "_" +:+ str_int page := results]> (cache w))))).
Proof. apply app_search_full. Qed.

(** X16. A search of app.py that returned results is repeatable for
    good: asked again after any span of time, with the network in
    whatever state, [search] returns the same list and leaves the world
    as it is.  The dict has no expiry. *)
Theorem app_search_repeat `{PyLib} (env env' : Env) (query : string) (page : Z)
  (w w' : World (gmap string (list App.Result))) (result : App.Result)
  (results : list App.Result) (seconds : Q) :
  App.search env query page w = (Ok (result :: results), w') ->
  App.search env' query page (elapse seconds w')
  = (Ok (result :: results), elapse seconds w').
Proof.
  intros Hrun. apply app_search_hit. cbn [elapse cache].
  destruct (app_search_full env query page w)
    as (results0 & w0 & new & Hrun0 & _ & _ & Hcase).
  rewrite Hrun in Hrun0. injection Hrun0 as <- <-.
  destruct Hcase as [(Hhit & -> & _)|(_ & _ & [[Hnil _]|[_ Hcache]])].
  - exact Hhit.
  - discriminate Hnil.
  - rewrite Hcache. apply lookup_insert_eq.
Qed.

Lemma app_search_repeat_witness :
  exists w' result results,
    App.search (lib := Fixtures.lib) Fixtures.env_page "m3" 1 Fixtures.app_world
    = (Ok (result :: results), w')
    /\ App.search (lib := Fixtures.lib) Fixtures.env_down "m3" 1
         (elapse 86400 w')
       = (Ok (result :: results), elapse 86400 w').
Proof.
  destruct (App.search (lib := Fixtures.lib) Fixtures.env_page "m3" 1
              Fixtures.app_world)
    as [[[|result results]|] w'] eqn:Hrun;
    try (vm_compute in Hrun; discriminate Hrun).
  exists w', result, results. split; [reflexivity|].
  exact (app_search_repeat (H := Fixtures.lib) Fixtures.env_page
           Fixtures.env_down "m3" 1 Fixtures.app_world w' result results
           86400 Hrun).
Defined.

(** ** What app.py caches and returns is well formed *)

Lemma keeps_app_fetch_loop (env : Env) (url : string)
  (params : list (string * Param)) (max_retries : Z) (attempts : list nat) :
  keeps_cache (App.fetch_loop env url params max_retries attempts).
Proof.
  intros w.
  destruct (app_fetch_loop_run env url params max_retries attempts w)
    as (res & w' & Hrun & Hcache & _).
  rewrite Hrun. exact Hcache.
Qed.

Lemma keeps_app_get_suggestions `{PyLib} (env : Env) (query : string) :
  keeps_cache (App.get_suggestions env query).
Proof.
  unfold App.get_suggestions, App._fetch_with_retry. cbv zeta.
  apply keeps_try_except; [|intros e; keeps].
  apply keeps_bind; [apply keeps_app_fetch_loop|]. intros r. keeps.
Qed.

Lemma reachable_cache_ranked `{PyLib} (env : Env)
  (w : World (gmap string (list App.Result))) :
  AppInv.reachable env w -> AppInv.cache_ranked (cache w).
Proof.
  induction 1 as [t|w query page _ IH|w query _ IH|w seconds _ IH].
  - intros k d Hk. simpl in Hk. rewrite lookup_empty in Hk. discriminate.
  - destruct (app_search_full env query page w)
      as (results & w' & new & Hrun & _ & _ & Hcase).
    rewrite Hrun. cbn [snd].
    destruct Hcase as [(_ & -> & _)|(_ & _ & [[_ Hcache]|[Hranked Hcache]])].
    + exact IH.
    + rewrite Hcache. exact IH.
    + rewrite Hcache. intros k d Hk.
      destruct (decide (query +:+ "_" +:+ str_int page = k)) as [<-|Hne].
      * rewrite lookup_insert_eq in Hk. injection Hk as <-. exact Hranked.
      * rewrite lookup_insert_ne in Hk by exact Hne. exact (IH k d Hk).
  - rewrite keeps_app_get_suggestions. exact IH.
  - exact IH.
Qed.

(** X17. Whatever an [AppleSearch] has been through and whatever the
    network does next, the list [search] returns, fresh or from the
    cache, holds at most one info box, which then comes first and has
    score 50, followed by the regular results by descending score; and
    every regular result has a non-empty URL, the display URL and the
    favicon address derived from it, and a category of the
    enumeration. *)
Theorem app_search_good_results `{PyLib} (env env' : Env)
  (w : World (gmap string (list App.Result))) (query : string) (page : Z) :
  AppInv.reachable env w ->
  exists results,
    fst (App.search env' query page w) = Ok results
    /\ exists info_boxes regular_results,
         results = (info_boxes ++ regular_results)%list
         /\ (length info_boxes <= 1)%nat
         /\ Forall (fun r => App.is_info_box r = true) info_boxes
         /\ Forall (fun r => App.is_regular r = true) regular_results
         /\ Forall AppInv.good_result results
         /\ StronglySorted (desc App.score_key) regular_results.
Proof.
  intros Hreach. pose proof (reachable_cache_ranked env w Hreach) as HJ.
  destruct (app_search_full env' query page w)
    as (results & w' & new & Hrun & _ & _ & Hcase).
  rewrite Hrun. exists results. split; [reflexivity|].
  change (AppInv.good_page results).
  destruct Hcase as [(Hhit & _)|(_ & _ & [[-> _]|[Hranked _]])].
  - apply app_ranked_good. exact (HJ _ _ Hhit).
  - apply app_good_nil.
  - apply app_ranked_good. exact Hranked.
Qed.

Lemma app_search_good_results_witness :
  exists results,
    fst (App.search (lib := Fixtures.lib) Fixtures.env_down "m3" 1
           (elapse 60 Fixtures.app_world_cached)) = Ok results
    /\ exists info_boxes regular_results,
         results = (info_boxes ++ regular_results)%list
         /\ (length info_boxes <= 1)%nat
         /\ Forall (fun r => App.is_info_box r = true) info_boxes
         /\ Forall (fun r => App.is_regular r = true) regular_results
         /\ Forall AppInv.good_result results
         /\ StronglySorted (desc App.score_key) regular_results.
Proof.
  apply (app_search_good_results (H := Fixtures.lib) Fixtures.env_page
           Fixtures.env_down (elapse 60 Fixtures.app_world_cached) "m3" 1).
  apply AppInv.reachable_elapse.
  apply (AppInv.reachable_search (lib := Fixtures.lib) Fixtures.env_page
           Fixtures.app_world "m3" 1).
  apply (AppInv.reachable_start (lib := Fixtures.lib) Fixtures.env_page 0%Q).
Defined.

(** ** The [/search] and [/suggest] routes of app.py *)

Lemma app_route_unfold `{PyLib} (env : Env) (int_of : string -> Exc Z)
  (q page : option string) (w : World (gmap string (list App.Result))) :
  AppWeb.search env int_of q page w
  = match AppWeb.page_arg int_of page with
    | Raise e => (Raise e, w)
    | Ok n =>
        if negb (Py.truthy (default "" q)) then (Ok AppWeb.Home, w)
        else
          (Ok (AppWeb.Listing (default "" q)
                 (default [] (match fst (App.search env (default "" q) n w) with
                              | Ok results => Some results
                              | Raise _ => None
                              end))
                 (AppWeb.group_results
                    (default [] (match fst (App.search env (default "" q) n w) with
                                 | Ok results => Some results
                                 | Raise _ => None
                                 end)) [])
                 (List.find App.is_info_box
                    (default [] (match fst (App.search env (default "" q) n w) with
                                 | Ok results => Some results
                                 | Raise _ => None
                                 end)))
                 n
                 (length
                    (default [] (match fst (App.search env (default "" q) n w) with
                                 | Ok results => Some results
                                 | Raise _ => None
                                 end)))),
           snd (App.search env (default "" q) n w))
    end.
Proof.
  unfold AppWeb.search. cbv zeta. unfold bind at 1. unfold lift at 1.
  destruct (AppWeb.page_arg int_of page) as [n|e]; [|reflexivity].
  destruct (negb _); [reflexivity|].
  unfold try_except. unfold bind at 1.
  destruct (app_search_full env (default "" q) n w)
    as (results & w' & new & Hrun & _).
  rewrite Hrun. reflexivity.
Qed.

(** X18. Short of a failure of the template engine itself, the error
    page of app.py's [/search] route is never rendered.  The route lets the [ValueError] of an unreadable page argument out;
    for an empty query it renders the home page and touches nothing;
    for any other query, taken as it is (blanks included) with the page
    number as given (zero and negative numbers included), it renders
    the listing of what [search] returns. *)
Theorem app_route_renders `{PyLib} (env : Env) (int_of : string -> Exc Z)
  (q page : option string) (w : World (gmap string (list App.Result))) :
  (forall e, AppWeb.page_arg int_of page = Raise e ->
             AppWeb.search env int_of q page w = (Raise e, w))
  /\ (forall n, AppWeb.page_arg int_of page = Ok n ->
                default "" q = "" ->
                AppWeb.search env int_of q page w = (Ok AppWeb.Home, w))
  /\ (forall n, AppWeb.page_arg int_of page = Ok n ->
                default "" q <> "" ->
                exists results w',
                  App.search env (default "" q) n w = (Ok results, w')
                  /\ AppWeb.search env int_of q page w
                     = (Ok (AppWeb.Listing (default "" q) results
                              (AppWeb.group_results results [])
                              (List.find App.is_info_box results)
                              n (length results)), w')).
Proof.
  rewrite app_route_unfold. split; [|split].
  - intros e ->. reflexivity.
  - intros n -> ->. reflexivity.
  - intros n -> Hq. rewrite (truthy_nonempty _ Hq). cbn [negb].
    destruct (app_search_full env (default "" q) n w)
      as (results & w' & new & Hrun & _).
    exists results, w'. rewrite Hrun. split; reflexivity.
Qed.

Lemma app_route_renders_witness :
  AppWeb.search (lib := Fixtures.lib) Fixtures.env_page MoreFixtures.int_of
    (Some "m3") (Some "x") Fixtures.app_world
  = (Raise (OtherException "invalid literal for int() with base 10"),
     Fixtures.app_world)
  /\ AppWeb.search (lib := Fixtures.lib) Fixtures.env_page MoreFixtures.int_of
       None (Some "2") Fixtures.app_world
     = (Ok AppWeb.Home, Fixtures.app_world)
  /\ exists results w',
       App.search (lib := Fixtures.lib) Fixtures.env_down " " (-3)
         Fixtures.app_world = (Ok results, w')
       /\ AppWeb.search (lib := Fixtures.lib) Fixtures.env_down
            MoreFixtures.int_of (Some " ") (Some "-3") Fixtures.app_world
          = (Ok (AppWeb.Listing " " results (AppWeb.group_results results [])
                   (List.find App.is_info_box results) (-3) (length results)),
             w').
Proof.
  split; [|split].
  - destruct (app_route_renders (H := Fixtures.lib) Fixtures.env_page
                MoreFixtures.int_of (Some "m3") (Some "x") Fixtures.app_world)
      as (Hraise & _ & _).
    apply Hraise. reflexivity.
  - destruct (app_route_renders (H := Fixtures.lib) Fixtures.env_page
                MoreFixtures.int_of None (Some "2") Fixtures.app_world)
      as (_ & Hhome & _).
    apply (Hhome 2); reflexivity.
  - destruct (app_route_renders (H := Fixtures.lib) Fixtures.env_down
                MoreFixtures.int_of (Some " ") (Some "-3") Fixtures.app_world)
      as (_ & _ & Hlisting).
    apply (Hlisting (-3)); [reflexivity|]. simpl. intros Heq. discriminate Heq.
Defined.

Lemma app_search_good_page `{PyLib} (env env' : Env)
  (w : World (gmap string (list App.Result))) (query : string) (page : Z) :
  AppInv.reachable env w ->
  exists results w',
    App.search env' query page w = (Ok results, w')
    /\ AppInv.good_page results.
Proof.
  intros Hreach. pose proof (reachable_cache_ranked env w Hreach) as HJ.
  destruct (app_search_full env' query page w)
    as (results & w' & new & Hrun & _ & _ & Hcase).
  exists results, w'. split; [exact Hrun|].
  destruct Hcase as [(Hhit & _)|(_ & _ & [[-> _]|[Hranked _]])].
  - apply app_ranked_good. exact (HJ _ _ Hhit).
  - apply app_good_nil.
  - apply app_ranked_good. exact Hranked.
Qed.

Lemma find_none {A} (p : A -> bool) (l : list A) :
  Forall (fun a => p a = false) l -> List.find p l = None.
Proof.
  induction 1 as [|a l Ha _ IH]; simpl; [reflexivity|].
  rewrite Ha. exact IH.
Qed.

(** X19. What app.py's [/search] route hands to the template when it
    lists the results of an [AppleSearch] in any state: the info box,
    when there is one, is the first result; all the other results are
    regular, stand by descending score, and are filed under their
    categories, every category once, none empty, each holding its
    results in rank order; the total is the number of results, the info
    box included. *)
Theorem app_route_listing `{PyLib} (env env' : Env)
  (int_of : string -> Exc Z) (q page : option string)
  (w w' : World (gmap string (list App.Result))) (query : string)
  (results : list App.Result)
  (categorized_results : list (string * list App.Result))
  (info_box : option App.Result) (n : Z) (total_results : nat) :
  AppInv.reachable env w ->
  AppWeb.search env' int_of q page w
  = (Ok (AppWeb.Listing query results categorized_results info_box n
           total_results), w') ->
  total_results = length results
  /\ exists regular_results,
       results = (match info_box with
                  | Some box => [box]
                  | None => []
                  end ++ regular_results)%list
       /\ (forall box, info_box = Some box -> App.is_info_box box = true)
       /\ Forall (fun r => App.is_regular r = true) regular_results
       /\ StronglySorted (desc App.score_key) regular_results
       /\ List.NoDup (map fst categorized_results)
       /\ Forall (fun g => snd g <> []) categorized_results
       /\ forall category,
            group_of category categorized_results
            = List.filter
                (fun r => String.eqb (AppWeb.category_of r) category)
                regular_results.
Proof.
  intros Hreach. rewrite app_route_unfold.
  destruct (AppWeb.page_arg int_of page) as [m|e]; [|discriminate].
  destruct (negb _); [discriminate|].
  destruct (app_search_good_page env env' w (default "" q) m Hreach)
    as (found & w1 & Hrun & boxes & regs & -> & Hlen & Hboxes & Hregs & _ & Hsorted).
  rewrite Hrun. cbn [fst snd default].
  intros [= <- <- <- <- <- <- <-]. split; [reflexivity|].
  exists regs.
  assert (Hnot : Forall (fun r => App.is_info_box r = false) regs).
  { eapply List.Forall_impl; [|exact Hregs].
    intros r Hr. apply regular_not_info_box, Hr. }
  destruct (app_group_results_run (boxes ++ regs) []) as (Hnd & Hne & Hg).
  assert (Hfilter : forall category,
             List.filter (fun r => negb (App.is_info_box r)
                                   && String.eqb (AppWeb.category_of r) category)
               (boxes ++ regs)
             = List.filter (fun r => String.eqb (AppWeb.category_of r) category)
                 regs).
  { intros c. rewrite List.filter_app.
    rewrite (filter_none _ boxes)
      by (eapply List.Forall_impl; [|exact Hboxes]; intros r Hr; cbv beta;
          rewrite Hr; reflexivity).
    cbn [app]. apply List.filter_ext_in. intros r Hr.
    rewrite List.Forall_forall in Hnot. rewrite (Hnot r Hr). reflexivity. }
  destruct boxes as [|box [|box' boxes]]; [| |simpl in Hlen; lia].
  - cbn [app]. rewrite (find_none _ regs Hnot).
    split; [reflexivity|]. split; [intros box [=]|].
    split; [exact Hregs|]. split; [exact Hsorted|].
    split; [apply Hnd; constructor|]. split; [apply Hne; constructor|].
    intros c. rewrite Hg. apply (Hfilter c).
  - inversion Hboxes as [|? ? Hbox _]; subst.
    cbn [app List.find]. rewrite Hbox.
    split; [reflexivity|]. split; [intros b [= <-]; exact Hbox|].
    split; [exact Hregs|]. split; [exact Hsorted|].
    split; [apply Hnd; constructor|]. split; [apply Hne; constructor|].
    intros c. rewrite Hg. apply (Hfilter c).
Qed.

Lemma app_route_listing_witness :
  exists w' results groups box regular_results,
    AppWeb.search (lib := Fixtures.lib) Fixtures.env_page MoreFixtures.int_of
      (Some "m3") (Some "1") Fixtures.app_world
    = (Ok (AppWeb.Listing "m3" results groups (Some box) 1 3), w')
    /\ results = box :: regular_results
    /\ App.is_info_box box = true
    /\ length regular_results = 2%nat
    /\ map fst groups = ["general"]
    /\ group_of "general" groups = regular_results.
Proof.
  destruct (AppWeb.search (lib := Fixtures.lib) Fixtures.env_page
              MoreFixtures.int_of (Some "m3") (Some "1") Fixtures.app_world)
    as [[[|query results groups [box|] n total|]|] w'] eqn:Hrun;
    try (vm_compute in Hrun; discriminate Hrun).
  destruct (app_route_listing (H := Fixtures.lib) Fixtures.env_page
              Fixtures.env_page MoreFixtures.int_of (Some "m3") (Some "1")
              Fixtures.app_world w' query results groups (Some box) n total
              (AppInv.reachable_start (lib := Fixtures.lib) Fixtures.env_page 0%Q)
              Hrun)
    as (Htotal & regs & Hresults & Hbox & _ & _ & _ & _ & Hgroups).
  exists w', results, groups, box, regs.
  assert (Hshape : query = "m3" /\ n = 1 /\ total = 3%nat
                   /\ map fst groups = ["general"]
                   /\ Forall (fun r => String.eqb (AppWeb.category_of r) "general"
                                       = true) (tl results)).
  { vm_compute in Hrun. injection Hrun as <- <- <- <- <- <- <-.
    repeat split; try reflexivity. repeat constructor. }
  destruct Hshape as (-> & -> & -> & Hkeys & Hgeneral).
  split; [reflexivity|]. split; [exact Hresults|].
  split; [apply Hbox; reflexivity|].
  rewrite Hresults in Htotal, Hgeneral. cbn [app length tl] in Htotal, Hgeneral.
  split; [lia|]. split; [exact Hkeys|].
  rewrite Hgroups. apply filter_all. exact Hgeneral.
Defined.

(** ** Suggestions, request by request *)

(** The part of main.py's [get_suggestions] that follows a cache miss. *)
Lemma main_suggestions_miss_full `{PyLib} (env : Env) (query : string)
  (w : World Main.CacheStore) :
  exists suggestions w' new,
    try_except
      (response <- Main._fetch_with_retry env
                     "https://suggestqueries.google.com/complete/search"
                     [("client", PStr "chrome"); ("q", PStr query)] 2 (3#10);;
       if response_truthy response && (status_code response =? 200) then
         suggestions <- lift (json_second (text response));;
         Main._save_to_cache ("suggest_" +:+ query)
           (map Main.StrItem suggestions) 1800;;;
         ret (map Main.StrItem suggestions)
       else ret [])
      is_Exception
      (fun e => logging ERROR ("Suggestion error: " +:+ str_exn e);;; ret [])
      w
    = (Ok suggestions, w')
    /\ sent w' = (sent w ++ new)%list
    /\ (1 <= length new <= 2)%nat
    /\ Forall (fun rq => req_url rq
                         = "https://suggestqueries.google.com/complete/search"
                         /\ req_params rq
                            = [("client", PStr "chrome"); ("q", PStr query)]
                         /\ req_timeout rq = 5) new
    /\ (suggestions = []
        \/ Main.store (cache w') !! ("suggest_" +:+ query)
           = Some (suggestions, (now w' + 1800)%Q)).
Proof.
  unfold try_except, Main._fetch_with_retry. unfold bind at 1.
  destruct (main_fetch_loop_sends env
              "https://suggestqueries.google.com/complete/search"
              [("client", PStr "chrome"); ("q", PStr query)] 2 (3#10)
              (Py.range 2) None w)
    as (res & w1 & new & Hfetch & Hsent & Hlen & Hne & Hall & _).
  rewrite Hfetch.
  assert (Hcount : (1 <= length new <= 2)%nat).
  { split; [|exact Hlen].
    destruct new; [exfalso; apply Hne; [discriminate | reflexivity]|].
    simpl. lia. }
  destruct res as [response|e].
  - destruct (response_truthy response && (status_code response =? 200)).
    + unfold bind at 1. unfold lift.
      destruct (json_second (text response)) as [suggestions|e].
      * unfold bind at 1. rewrite main_save_to_cache_run. unfold ret.
        eexists _, _, new. split; [reflexivity|].
        cbn [sent now cache]. split; [exact Hsent|]. split; [exact Hcount|].
        split; [exact Hall|]. right.
        destruct (cache w1); cbn [Main.store]; apply lookup_insert_eq.
      * cbn [is_Exception]. unfold bind, logging, ret. cbv beta iota.
        eexists _, _, new. split; [reflexivity|]. cbn [sent]. auto.
    + unfold ret. exists [], w1, new. auto 10.
  - cbn [is_Exception]. unfold bind, logging, ret. cbv beta iota.
    eexists _, _, new. split; [reflexivity|]. cbn [sent]. auto.
Qed.

Lemma main_get_suggestions_full `{PyLib} (env : Env) (query : string)
  (w : World Main.CacheStore) :
  exists suggestions w' new,
    Main.get_suggestions env query w = (Ok suggestions, w')
    /\ sent w' = (sent w ++ new)%list
    /\ Forall (fun rq => req_url rq
                         = "https://suggestqueries.google.com/complete/search"
                         /\ req_params rq
                            = [("client", PStr "chrome"); ("q", PStr query)]
                         /\ req_timeout rq = 5) new
    /\ (((String.length query < 2)%nat
         /\ suggestions = [] /\ w' = w /\ new = [])
        \/ (exists expires,
               Main.store (cache w) !! ("suggest_" +:+ query)
               = Some (suggestions, expires)
               /\ (now w < expires)%Q /\ suggestions <> []
               /\ w' = w /\ new = [])
        \/ ((2 <= String.length query)%nat
            /\ (1 <= length new <= 2)%nat
            /\ (suggestions = []
                \/ Main.store (cache w') !! ("suggest_" +:+ query)
                   = Some (suggestions, (now w' + 1800)%Q)))).
Proof.
  unfold Main.get_suggestions.
  destruct (negb (Py.truthy query) || (String.length query <? 2)%nat) eqn:Hguard.
  { exists [], w, []. unfold ret. rewrite app_nil_r.
    split; [reflexivity|]. split; [reflexivity|]. split; [constructor|].
    left. split; [|auto]. apply orb_true_iff in Hguard.
    destruct Hguard as [Hempty|Hshort].
    - destruct query; [simpl; lia | discriminate Hempty].
    - apply Nat.ltb_lt in Hshort. exact Hshort. }
  apply orb_false_iff in Hguard. destruct Hguard as [_ Hlong].
  apply Nat.ltb_ge in Hlong.
  cbv zeta. unfold bind at 1.
  pose proof (main_get_from_cache_sent ("suggest_" +:+ query) w) as [Hsent0 _].
  rewrite main_get_from_cache_run in Hsent0 |- *.
  assert (Hmiss : forall w1, sent w1 = sent w ->
            exists suggestions w' new,
              try_except
                (response <- Main._fetch_with_retry env
                               "https://suggestqueries.google.com/complete/search"
                               [("client", PStr "chrome"); ("q", PStr query)]
                               2 (3#10);;
                 if response_truthy response && (status_code response =? 200)
                 then
                   suggestions <- lift (json_second (text response));;
                   Main._save_to_cache ("suggest_" +:+ query)
                     (map Main.StrItem suggestions) 1800;;;
                   ret (map Main.StrItem suggestions)
                 else ret [])
                is_Exception
                (fun e => logging ERROR ("Suggestion error: " +:+ str_exn e);;;
                          ret [])
                w1
              = (Ok suggestions, w')
              /\ sent w' = (sent w ++ new)%list
              /\ Forall (fun rq => req_url rq
                                   = "https://suggestqueries.google.com/complete/search"
                                   /\ req_params rq
                                      = [("client", PStr "chrome");
                                         ("q", PStr query)]
                                   /\ req_timeout rq = 5) new
              /\ (((String.length query < 2)%nat
                   /\ suggestions = [] /\ w' = w /\ new = [])
                  \/ (exists expires,
                         Main.store (cache w) !! ("suggest_" +:+ query)
                         = Some (suggestions, expires)
                         /\ (now w < expires)%Q /\ suggestions <> []
                         /\ w' = w /\ new = [])
                  \/ ((2 <= String.length query)%nat
                      /\ (1 <= length new <= 2)%nat
                      /\ (suggestions = []
                          \/ Main.store (cache w') !! ("suggest_" +:+ query)
                             = Some (suggestions, (now w' + 1800)%Q))))).
  { intros w1 Hw1.
    destruct (main_suggestions_miss_full env query w1)
      as (suggestions & w' & new & Hrun & Hs & Hl & Hp & Hsaved).
    exists suggestions, w', new. split; [exact Hrun|].
    split; [rewrite Hs, Hw1; reflexivity|]. split; [exact Hp|].
    right. right. auto. }
  destruct (Main.store (cache w) !! ("suggest_" +:+ query))
    as [[data expires]|] eqn:Hk.
  - destruct (Qlt_le_dec (now w) expires) as [Hfresh|Hstale].
    + destruct data as [|item items].
      * apply Hmiss. reflexivity.
      * exists (item :: items), w, []. unfold ret. rewrite app_nil_r.
        split; [reflexivity|]. split; [reflexivity|]. split; [constructor|].
        right. left. exists expires. repeat split; auto.
    + apply Hmiss. exact Hsent0.
  - apply Hmiss. reflexivity.
Qed.

Lemma main_get_suggestions_short `{PyLib} (srv : Main.RedisServer)
  (env : Env) (query : string) (w : World Main.CacheStore) :
  (String.length query < 2)%nat ->
  Main.get_suggestions (srv := srv) env query w = (Ok [], w).
Proof.
  intros Hshort. unfold Main.get_suggestions.
  destruct (Nat.ltb_spec (String.length query) 2) as [_|Hlong]; [|lia].
  rewrite orb_true_r. reflexivity.
Qed.

(** X20. What [ImprovedSearch.get_suggestions] asks of the network and
    what it caches.  It sends nothing for a query shorter than two
    characters, server or no server.  For a longer query, with
    [redis_client] set and no server answering, it raises
    [ConnectionError] at the cache lookup, which stands before the
    [try], and sends nothing.  With a cache store that answers it
    returns: it sends nothing when the cache holds a non-empty list
    under [suggest_<query>] that has not expired, and that list is
    returned with the world as it is; otherwise one or two requests go
    out, to the suggestion endpoint with [client = chrome] and the
    query, with a timeout of five seconds, and what it then returns is
    either the empty list or a list it has just stored under
    [suggest_<query>] for 1800 seconds. *)
Theorem main_suggestions_requests `{PyLib} `{Main.RedisServer} (env : Env)
  (query : string) (w : World Main.CacheStore) :
  ((String.length query < 2)%nat ->
   Main.get_suggestions env query w = (Ok [], w))
  /\ ((2 <= String.length query)%nat ->
      Main.answers (cache w) = false ->
      Main.get_suggestions env query w = (Raise Main.ConnectionError, w))
  /\ (Main.answers (cache w) = true ->
      exists suggestions w' new,
        Main.get_suggestions env query w = (Ok suggestions, w')
        /\ sent w' = (sent w ++ new)%list
        /\ Forall (fun rq => req_url rq
                             = "https://suggestqueries.google.com/complete/search"
                             /\ req_params rq
                                = [("client", PStr "chrome"); ("q", PStr query)]
                             /\ req_timeout rq = 5) new
        /\ (((String.length query < 2)%nat
             /\ suggestions = [] /\ w' = w /\ new = [])
            \/ (exists expires,
                   Main.store (cache w) !! ("suggest_" +:+ query)
                   = Some (suggestions, expires)
                   /\ (now w < expires)%Q /\ suggestions <> []
                   /\ w' = w /\ new = [])
            \/ ((2 <= String.length query)%nat
                /\ (1 <= length new <= 2)%nat
                /\ (suggestions = []
                    \/ Main.store (cache w') !! ("suggest_" +:+ query)
                       = Some (suggestions, (now w' + 1800)%Q))))).
Proof.
  split; [apply main_get_suggestions_short|].
  split; [apply main_get_suggestions_down|].
  intros Ha. rewrite (main_get_suggestions_answers _ env query w Ha).
  apply main_get_suggestions_full.
Qed.

Lemma main_suggestions_requests_witness :
  Main.get_suggestions (lib := Fixtures.lib) (srv := no_server)
    Fixtures.env_page "m" Fixtures.redis_world
  = (Ok [], Fixtures.redis_world)
  /\ Main.get_suggestions (lib := Fixtures.lib) (srv := no_server)
       Fixtures.env_page "m3" Fixtures.redis_world
     = (Raise Main.ConnectionError, Fixtures.redis_world)
  /\ exists suggestions w',
       Main.get_suggestions (lib := Fixtures.lib_suggesting) (srv := server_up)
         Fixtures.env_page "m3" Fixtures.redis_world
       = (Ok suggestions, w')
       /\ length (sent w') = 1%nat.
Proof.
  destruct (main_suggestions_requests (H := Fixtures.lib) (H0 := no_server)
              Fixtures.env_page "m" Fixtures.redis_world) as (Hshort & _).
  destruct (main_suggestions_requests (H := Fixtures.lib) (H0 := no_server)
              Fixtures.env_page "m3" Fixtures.redis_world) as (_ & Hdown & _).
  destruct (main_suggestions_requests (H := Fixtures.lib_suggesting)
              (H0 := server_up) Fixtures.env_page "m3" Fixtures.redis_world)
    as (_ & _ & Hup).
  split; [apply Hshort; simpl; lia|].
  split; [apply Hdown; [simpl; lia | reflexivity]|].
  destruct (Hup eq_refl) as (suggestions & w' & new & Hrun & _).
  exists suggestions, w'. split; [exact Hrun|].
  pose proof (f_equal (fun p => length (sent (snd p))) Hrun) as Hlen.
  cbn [snd] in Hlen. rewrite <- Hlen. vm_compute. reflexivity.
Defined.

(** A non-empty entry that has not expired answers the lookup. *)
Lemma main_suggestions_fresh `{PyLib} (env : Env) (query : string)
  (w : World Main.CacheStore) (item : Main.PyItem) (items : list Main.PyItem)
  (expires : Q) :
  (2 <= String.length query)%nat ->
  Main.store (cache w) !! ("suggest_" +:+ query) = Some (item :: items, expires) ->
  (now w < expires)%Q ->
  Main.get_suggestions env query w = (Ok (item :: items), w).
Proof.
  intros Hlong Hk Hfresh. unfold Main.get_suggestions.
  assert (Hguard : negb (Py.truthy query) || (String.length query <? 2)%nat
                   = false).
  { apply orb_false_iff. split.
    - destruct query; [simpl in Hlong; lia | reflexivity].
    - apply Nat.ltb_ge. exact Hlong. }
  rewrite Hguard. cbv zeta. unfold bind at 1.
  rewrite main_get_from_cache_run, Hk.
  destruct (Qlt_le_dec (now w) expires) as [_|Hstale]; [reflexivity|].
  exfalso. apply (Qlt_not_le _ _ Hfresh Hstale).
Qed.

(** X21. A suggestion lookup of main.py that returned suggestions is
    repeatable.  Asked again at once, with the network in whatever
    state, [get_suggestions] returns the same list and leaves the world
    as it is; and when the first call had to go to the network, the
    same holds for half an hour (1800 seconds) after it returned. *)
Theorem main_suggestions_repeat `{PyLib} (env env' : Env) (query : string)
  (w w' : World Main.CacheStore) (item : Main.PyItem)
  (items : list Main.PyItem) :
  Main.get_suggestions env query w = (Ok (item :: items), w') ->
  Main.get_suggestions env' query w' = (Ok (item :: items), w')
  /\ (sent w' <> sent w ->
      forall seconds, (0 <= seconds)%Q -> (seconds < 1800)%Q ->
        Main.get_suggestions env' query (elapse seconds w')
        = (Ok (item :: items), elapse seconds w')).
Proof.
  intros Hrun.
  destruct (main_get_suggestions_full env query w)
    as (suggestions & w0 & new & Hrun0 & Hsent & _ & Hcase).
  rewrite Hrun in Hrun0. injection Hrun0 as <- <-.
  destruct Hcase
    as [(_ & Hnil & _)|[(expires & Hk & Hfresh & _ & -> & ->)
                       |(Hlong & _ & [Hnil|Hsaved])]].
  - discriminate Hnil.
  - assert (Hlong : (2 <= String.length query)%nat).
    { destruct (Nat.le_gt_cases 2 (String.length query)) as [Hge|Hlt];
        [exact Hge|]. exfalso. unfold Main.get_suggestions in Hrun.
      apply Nat.ltb_lt in Hlt. rewrite Hlt, orb_true_r in Hrun.
      discriminate Hrun. }
    split; [exact (main_suggestions_fresh env' query w item items expires
                     Hlong Hk Hfresh)|].
    intros Hne. exfalso. apply Hne. reflexivity.
  - discriminate Hnil.
  - split.
    + apply (main_suggestions_fresh env' query w' item items _ Hlong Hsaved).
      lra.
    + intros _ seconds Hge Hlt.
      apply (main_suggestions_fresh env' query (elapse seconds w') item items
               _ Hlong Hsaved).
      simpl. lra.
Qed.

Lemma main_suggestions_repeat_witness :
  exists w',
    Main.get_suggestions (lib := Fixtures.lib_suggesting) Fixtures.env_page "m3"
      Fixtures.main_world
    = (Ok [Main.StrItem "m3 chip"; Main.StrItem "m3 max"], w')
    /\ Main.get_suggestions (lib := Fixtures.lib_suggesting) Fixtures.env_down
         "m3" (elapse 1799 w')
       = (Ok [Main.StrItem "m3 chip"; Main.StrItem "m3 max"], elapse 1799 w').
Proof.
  destruct (Main.get_suggestions (lib := Fixtures.lib_suggesting)
              Fixtures.env_page "m3" Fixtures.main_world)
    as [[suggestions|] w'] eqn:Hrun;
    [|vm_compute in Hrun; discriminate Hrun].
  assert (Hlist : suggestions = [Main.StrItem "m3 chip"; Main.StrItem "m3 max"]).
  { pose proof (f_equal fst Hrun) as Hfst. vm_compute in Hfst.
    injection Hfst as <-. reflexivity. }
  subst suggestions. exists w'. split; [reflexivity|].
  assert (Hsent : sent w' <> sent Fixtures.main_world).
  { pose proof (f_equal (fun p => length (sent (snd p))) Hrun) as Hlen.
    cbn [snd] in Hlen. intros Heq. rewrite Heq in Hlen.
    vm_compute in Hlen. discriminate Hlen. }
  apply (main_suggestions_repeat (H := Fixtures.lib_suggesting)
           Fixtures.env_page Fixtures.env_down "m3" Fixtures.main_world w'
           (Main.StrItem "m3 chip") [Main.StrItem "m3 max"] Hrun);
    [exact Hsent | |]; lra.
Defined.

(** X22. What [AppleSearch.get_suggestions] asks of the network.  It
    never raises and never touches the cache; each call sends between
    one and five requests, to the suggestion endpoint with
    [client = firefox] and the query, with a timeout of ten seconds; and
    it returns the empty list when no request is answered with a 200. *)
Theorem app_suggestions_requests `{PyLib} (env : Env) (query : string)
  (w : World (gmap string (list App.Result))) :
  exists suggestions w' new,
    App.get_suggestions env query w = (Ok suggestions, w')
    /\ sent w' = (sent w ++ new)%list
    /\ (1 <= length new <= 5)%nat
    /\ Forall (fun rq => req_url rq = App.suggest_base_url
                         /\ req_params rq
                            = [("client", PStr "firefox"); ("q", PStr query)]
                         /\ req_timeout rq = 10) new
    /\ cache w' = cache w
    /\ (never_200 env -> suggestions = []).
Proof.
  unfold App.get_suggestions, App._fetch_with_retry, try_except. cbv zeta.
  unfold bind at 1.
  destruct (app_fetch_loop_sends env App.suggest_base_url
              [("client", PStr "firefox"); ("q", PStr query)] 5 (Py.range 5) w)
    as (res & w1 & new & Hrun & Hsent & Hcache & Hlen & Hall & _).
  destruct (app_fetch_loop_run env App.suggest_base_url
              [("client", PStr "firefox"); ("q", PStr query)] 5 (Py.range 5) w)
    as (res0 & w0 & Hrun0 & _ & _ & Hsome & Hok & _).
  rewrite Hrun in Hrun0. injection Hrun0 as <- <-.
  specialize (Hsome ltac:(discriminate)).
  rewrite Hsent, length_app in Hsome.
  assert (Hbounds : (1 <= length new <= 5)%nat)
    by (change (length (Py.range 5)) with 5%nat in Hlen; lia).
  rewrite Hrun.
  destruct res as [[response|]|e].
  - destruct (response_truthy response && (status_code response =? 200)).
    + unfold lift. destruct (json_second (text response)) as [suggestions|e].
      * exists suggestions, w1, new. split; [reflexivity|].
        repeat (split; [assumption|]). intros Hnever. exfalso.
        destruct (Hok response eq_refl) as (H200 & k & rq & Hanswer).
        exact (Hnever k rq response Hanswer H200).
      * cbn [is_Exception]. unfold bind, logging, ret. cbv beta iota.
        eexists _, _, new. split; [reflexivity|]. cbn [sent cache]. auto 10.
    + unfold ret. exists [], w1, new. auto 10.
  - unfold ret. exists [], w1, new. auto 10.
  - cbn [is_Exception]. unfold bind, logging, ret. cbv beta iota.
    eexists _, _, new. split; [reflexivity|]. cbn [sent cache]. auto 10.
Qed.

(** X23. Short of a failure of [jsonify] itself, main.py's [/suggest]
    route never raises.  While the cache store answers, and for every
    query shorter than two characters once stripped, its handler is not
    used: the route answers as [get_suggestions] does on the stripped
    query.  With [redis_client] set and no server answering, a longer
    query makes [get_suggestions] raise [ConnectionError]; the handler
    of the route logs it as a suggestion route error and the route
    answers the empty list. *)
Theorem main_suggest_route `{PyLib} `{Main.RedisServer} (env : Env)
  (q : option string) (w : World Main.CacheStore) :
  (exists suggestions, fst (MainWeb.suggest env q w) = Ok suggestions)
  /\ (Main.answers (cache w) = true
      \/ (String.length (Py.strip (default "" q)) < 2)%nat ->
      MainWeb.suggest env q w
      = Main.get_suggestions env (Py.strip (default "" q)) w)
  /\ (Main.answers (cache w) = false ->
      (2 <= String.length (Py.strip (default "" q)))%nat ->
      MainWeb.suggest env q w
      = (Ok [],
         snd (logging ERROR
                ("Suggestion route error: " +:+ str_exn Main.ConnectionError)
                w))).
Proof.
  assert (Hup : Main.answers (cache w) = true ->
                exists suggestions w',
                  Main.get_suggestions env (Py.strip (default "" q)) w
                  = (Ok suggestions, w')).
  { intros Ha. rewrite (main_get_suggestions_answers _ env _ w Ha).
    destruct (main_get_suggestions_full env (Py.strip (default "" q)) w)
      as (suggestions & w' & new & Hrun & _).
    eauto. }
  unfold MainWeb.suggest, try_except. cbv zeta.
  split; [|split].
  - destruct (Main.answers (cache w)) eqn:Ha.
    + destruct (Hup eq_refl) as (suggestions & w' & ->). eauto.
    + destruct (Nat.lt_ge_cases (String.length (Py.strip (default "" q))) 2)
        as [Hshort|Hlong].
      * rewrite (main_get_suggestions_short _ env _ w Hshort). eauto.
      * rewrite (main_get_suggestions_down _ env _ w Hlong Ha).
        cbn [is_Exception]. unfold bind, logging, ret. cbv beta iota. eauto.
  - intros [Ha|Hshort].
    + destruct (Hup Ha) as (suggestions & w' & ->). reflexivity.
    + rewrite (main_get_suggestions_short _ env _ w Hshort). reflexivity.
  - intros Ha Hlong.
    rewrite (main_get_suggestions_down _ env _ w Hlong Ha).
    cbn [is_Exception]. unfold bind, logging, ret. reflexivity.
Qed.

Lemma main_suggest_route_witness :
  MainWeb.suggest (lib := Fixtures.lib) (srv := no_server) Fixtures.env_page
    (Some " m3 ") Fixtures.redis_world
  = (Ok [],
     mkWorld 0%Q [] 0 (Main.Redis ∅)
       [(ERROR,
         "Suggestion route error: Error 111 connecting to localhost:6379. Connection refused.")])
  /\ MainWeb.suggest (lib := Fixtures.lib) (srv := no_server) Fixtures.env_page
       (Some " m3 ") Fixtures.main_world
     = Main.get_suggestions (lib := Fixtures.lib) (srv := no_server)
         Fixtures.env_page "m3" Fixtures.main_world.
Proof.
  destruct (main_suggest_route (H := Fixtures.lib) (H0 := no_server)
              Fixtures.env_page (Some " m3 ") Fixtures.redis_world)
    as (_ & _ & Hdown).
  destruct (main_suggest_route (H := Fixtures.lib) (H0 := no_server)
              Fixtures.env_page (Some " m3 ") Fixtures.main_world)
    as (_ & Hup & _).
  split.
  - rewrite Hdown; [reflexivity | reflexivity | simpl; lia].
  - apply Hup. left. reflexivity.
Defined.

(** ** Unwrapping a redirect link *)

Lemma append_cons (a : ascii) (t r : string) :
  String a t +:+ r = String a (t +:+ r).
Proof. reflexivity. Qed.

Lemma append_assoc_string (a b c : string) : (a +:+ b) +:+ c = a +:+ (b +:+ c).
Proof.
  induction a as [|x a IH]; [reflexivity|].
  rewrite !append_cons, IH. reflexivity.
Qed.

Lemma append_nil_string (a : string) : a +:+ "" = a.
Proof.
  induction a as [|x a IH]; [reflexivity|].
  rewrite append_cons, IH. reflexivity.
Qed.

Lemma prefix_empty (s : string) : String.prefix "" s = true.
Proof. destruct s; reflexivity. Qed.

(** [c in s] is false: [c] is none of the characters of [s]. *)
Lemma contains_char_cons (c a : ascii) (t : string) :
  Py.contains (String c "") (String a t) = false ->
  c <> a /\ Py.contains (String c "") t = false.
Proof.
  cbn [Py.contains String.prefix]. intros Hc.
  apply orb_false_iff in Hc. destruct Hc as [Hp Ht]. split; [|exact Ht].
  intros ->. destruct (Ascii.ascii_dec a a) as [_|Hne]; [|apply Hne; reflexivity].
  rewrite prefix_empty in Hp. discriminate Hp.
Qed.

Lemma split_amp_head (target : string) :
  Py.contains "&" target = false ->
  forall word rest,
    Py.split_sep_aux "&" 0 word (target +:+ String "&" rest)
    = (word +:+ target) :: Py.split_sep_aux "&" 0 "" rest.
Proof.
  induction target as [|a t IH]; intros Hno word rest.
  - change ("" +:+ String "&" rest) with (String "&" rest).
    cbn [Py.split_sep_aux String.prefix].
    destruct (Ascii.ascii_dec "&" "&") as [_|Hne]; [|exfalso; apply Hne; reflexivity].
    rewrite prefix_empty, append_nil_string. reflexivity.
  - apply contains_char_cons in Hno. destruct Hno as [Hne Hno].
    rewrite append_cons. cbn [Py.split_sep_aux String.prefix].
    destruct (Ascii.ascii_dec "&" a) as [Heq|_]; [contradiction|].
    rewrite (IH Hno). rewrite append_assoc_string. reflexivity.
Qed.

Lemma split_amp_whole (target : string) :
  Py.contains "&" target = false ->
  forall word, Py.split_sep_aux "&" 0 word target = [word +:+ target].
Proof.
  induction target as [|a t IH]; intros Hno word.
  - cbn [Py.split_sep_aux]. rewrite append_nil_string. reflexivity.
  - apply contains_char_cons in Hno. destruct Hno as [Hne Hno].
    cbn [Py.split_sep_aux String.prefix].
    destruct (Ascii.ascii_dec "&" a) as [Heq|_]; [contradiction|].
    rewrite (IH Hno). rewrite append_assoc_string. reflexivity.
Qed.

(** No [/url?q=] starts inside a string without a question mark, even
    when an ampersand follows it. *)
Lemma no_redirect_prefix (s r : string) :
  Py.contains "?" s = false ->
  (forall c r', r = String c r' -> c = "&"%char) ->
  String.prefix "/url?q=" (s +:+ r) = false.
Proof.
  intros Hno Hr.
  destruct (String.prefix "/url?q=" (s +:+ r)) eqn:Hp; [|reflexivity].
  exfalso. destruct (prefix_split _ _ Hp) as [t Ht]. clear Hp.
  change ("/url?q=" +:+ t) with (String "/" (String "u" (String "r" (String "l"
            (String "?" (String "q" (String "=" t))))))) in Ht.
  assert (Hend : forall c k, r = String c k -> c <> "&"%char -> False)
    by (intros c k Hk Hc; apply Hc, (Hr c k Hk)).
  destruct s as [|a1 s].
  { change ("" +:+ r) with r in Ht. exact (Hend _ _ Ht ltac:(discriminate)). }
  apply contains_char_cons in Hno. destruct Hno as [_ Hno].
  rewrite append_cons in Ht. injection Ht as _ Ht.
  destruct s as [|a2 s].
  { change ("" +:+ r) with r in Ht. exact (Hend _ _ Ht ltac:(discriminate)). }
  apply contains_char_cons in Hno. destruct Hno as [_ Hno].
  rewrite append_cons in Ht. injection Ht as _ Ht.
  destruct s as [|a3 s].
  { change ("" +:+ r) with r in Ht. exact (Hend _ _ Ht ltac:(discriminate)). }
  apply contains_char_cons in Hno. destruct Hno as [_ Hno].
  rewrite append_cons in Ht. injection Ht as _ Ht.
  destruct s as [|a4 s].
  { change ("" +:+ r) with r in Ht. exact (Hend _ _ Ht ltac:(discriminate)). }
  apply contains_char_cons in Hno. destruct Hno as [_ Hno].
  rewrite append_cons in Ht. injection Ht as _ Ht.
  destruct s as [|a5 s].
  { change ("" +:+ r) with r in Ht. exact (Hend _ _ Ht ltac:(discriminate)). }
  apply contains_char_cons in Hno. destruct Hno as [Hne _].
  rewrite append_cons in Ht. injection Ht as Ha _.
  apply Hne. symmetry. exact Ha.
Qed.

(** The first part of a split at [/url?q=] starts with the word read
    so far. *)
Lemma split_redirect_hd (s : string) :
  forall word, exists tail,
    hd "" (Py.split_sep_aux "/url?q=" 0 word s) = word +:+ tail.
Proof.
  induction s as [|c t IH]; intros word.
  - exists "". cbn [Py.split_sep_aux hd]. rewrite append_nil_string. reflexivity.
  - cbn [Py.split_sep_aux].
    destruct (String.prefix "/url?q=" (String c t)).
    + exists "". cbn [hd]. rewrite append_nil_string. reflexivity.
    + destruct (IH (word +:+ String c "")) as [tail Htail].
      exists (String c tail). rewrite Htail, append_assoc_string. reflexivity.
Qed.

Lemma split_redirect_target (target : string) :
  Py.contains "?" target = false ->
  forall word rest, exists tail,
    hd "" (Py.split_sep_aux "/url?q=" 0 word (target +:+ String "&" rest))
    = word +:+ target +:+ String "&" tail.
Proof.
  induction target as [|a t IH]; intros Hno word rest.
  - change ("" +:+ String "&" rest) with (String "&" rest).
    cbn [Py.split_sep_aux].
    pose proof (no_redirect_prefix "" (String "&" rest) Hno
                  ltac:(intros c r' [= <- _]; reflexivity)) as Hp.
    change ("" +:+ String "&" rest) with (String "&" rest) in Hp.
    rewrite Hp.
    destruct (split_redirect_hd rest (word +:+ String "&" "")) as [tail Htail].
    exists tail. rewrite Htail, append_assoc_string. reflexivity.
  - pose proof (no_redirect_prefix (String a t) (String "&" rest) Hno
                  ltac:(intros c r' [= <- _]; reflexivity)) as Hp.
    rewrite append_cons in Hp |- *. cbn [Py.split_sep_aux]. rewrite Hp.
    apply contains_char_cons in Hno. destruct Hno as [_ Hno].
    destruct (IH Hno (word +:+ String a "") rest) as [tail Htail].
    exists tail. rewrite Htail, append_assoc_string. reflexivity.
Qed.

Lemma split_redirect_whole (target : string) :
  Py.contains "?" target = false ->
  forall word, Py.split_sep_aux "/url?q=" 0 word target = [word +:+ target].
Proof.
  induction target as [|a t IH]; intros Hno word.
  - cbn [Py.split_sep_aux]. rewrite append_nil_string. reflexivity.
  - pose proof (no_redirect_prefix (String a t) "" Hno
                  ltac:(intros c r' [=])) as Hp.
    rewrite append_nil_string in Hp. cbn [Py.split_sep_aux]. rewrite Hp.
    apply contains_char_cons in Hno. destruct Hno as [_ Hno].
    rewrite (IH Hno), append_assoc_string. reflexivity.
Qed.

Lemma split_redirect_first (t : string) :
  Py.split_sep "/url?q=" ("/url?q=" +:+ t)
  = "" :: Py.split_sep_aux "/url?q=" 0 "" t.
Proof.
  unfold Py.split_sep.
  change ("/url?q=" +:+ t) with (String "/" (String "u" (String "r" (String "l"
            (String "?" (String "q" (String "=" t))))))).
  cbn. rewrite prefix_empty. reflexivity.
Qed.

Lemma nth_0_hd {A} (l : list A) (d : A) : nth 0 l d = hd d l.
Proof. destruct l; reflexivity. Qed.

(** X24. The link of a result that Google wraps in a redirect is
    unwrapped to its target: for a target without a question mark or an
    ampersand (both arrive percent-encoded), the [href]
    [/url?q=<target>&<tracking parameters>] gives the target, and so
    does [/url?q=<target>] alone. *)
Theorem unwrap_redirect_target (target rest : string) :
  Py.contains "?" target = false ->
  Py.contains "&" target = false ->
  Main.unwrap_redirect ("/url?q=" +:+ target +:+ String "&" rest) = target
  /\ Main.unwrap_redirect ("/url?q=" +:+ target) = target.
Proof.
  intros Hq Ha. unfold Main.unwrap_redirect. split.
  - rewrite split_redirect_first. cbn [nth].
    destruct (split_redirect_target target Hq "" rest) as [tail Htail].
    rewrite nth_0_hd, Htail. change ("" +:+ target +:+ String "&" tail)
      with (target +:+ String "&" tail).
    unfold Py.split_sep. rewrite (split_amp_head target Ha). reflexivity.
  - rewrite split_redirect_first. cbn [nth].
    rewrite (split_redirect_whole target Hq). cbn [nth].
    change ("" +:+ target) with target.
    unfold Py.split_sep. rewrite (split_amp_whole target Ha). reflexivity.
Qed.

Lemma unwrap_redirect_target_witness :
  Main.unwrap_redirect
    ("/url?q=" +:+ "https://www.apple.com/mac/" +:+ String "&" "sa=U&ved=2ah")
  = "https://www.apple.com/mac/"
  /\ Main.unwrap_redirect ("/url?q=" +:+ "https://www.apple.com/mac/")
     = "https://www.apple.com/mac/".
Proof.
  apply (unwrap_redirect_target "https://www.apple.com/mac/" "sa=U&ved=2ah");
    reflexivity.
Defined.

(** ** Cache keys *)

(** X25. The entries of main.py's cache do not disturb each other:
    what [_get_from_cache] returns for a key is the same before and
    after a save under another key, and before and after a lookup of
    another key (which may drop that other entry when it has
    expired). *)
Theorem main_cache_keys_independent (key key' : string)
  (data : list Main.PyItem) (expire_time : Q) (w : World Main.CacheStore) :
  key' <> key ->
  fst (Main._get_from_cache key'
         (snd (Main._save_to_cache key data expire_time w)))
  = fst (Main._get_from_cache key' w)
  /\ fst (Main._get_from_cache key' (snd (Main._get_from_cache key w)))
     = fst (Main._get_from_cache key' w).
Proof.
  intros Hne. split.
  - rewrite main_save_to_cache_run. rewrite !main_get_from_cache_run.
    cbn [snd cache now].
    assert (Hk : Main.store
                   (match cache w with
                    | Main.Redis db =>
                        Main.Redis (<[key := (data, (now w + expire_time)%Q)]> db)
                    | Main.InMemory m =>
                        Main.InMemory (<[key := (data, (now w + expire_time)%Q)]> m)
                    end) !! key'
                 = Main.store (cache w) !! key').
    { destruct (cache w); cbn [Main.store]; apply lookup_insert_ne; congruence. }
    rewrite Hk.
    destruct (Main.store (cache w) !! key') as [[d e]|]; [|reflexivity].
    destruct (Qlt_le_dec (now w) e); reflexivity.
  - rewrite (main_get_from_cache_run key').
    rewrite (main_get_from_cache_run key'), (main_get_from_cache_run key).
    destruct (Main.store (cache w) !! key) as [[d0 e0]|]; [|reflexivity].
    destruct (Qlt_le_dec (now w) e0); [reflexivity|].
    cbn [snd].
    destruct (cache w) as [db|m] eqn:Hc; [rewrite Hc; reflexivity|].
    cbn [cache now Main.store].
    rewrite lookup_delete_ne by congruence.
    destruct (m !! key') as [[d e]|]; [|reflexivity].
    destruct (Qlt_le_dec (now w) e); reflexivity.
Qed.

Lemma main_cache_keys_independent_witness :
  fst (Main._get_from_cache "suggest_m3"
         (snd (Main._save_to_cache "md5:m3_1" [Main.StrItem "x"] 3600
                 Fixtures.main_world)))
  = fst (Main._get_from_cache "suggest_m3" Fixtures.main_world)
  /\ fst (Main._get_from_cache "suggest_m3"
            (snd (Main._get_from_cache "md5:m3_1" Fixtures.main_world)))
     = fst (Main._get_from_cache "suggest_m3" Fixtures.main_world).
Proof.
  apply (main_cache_keys_independent "md5:m3_1" "suggest_m3"
           [Main.StrItem "x"] 3600 Fixtures.main_world).
  intros Heq. discriminate Heq.
Defined.

(** X26. In app.py the pages of a query are cached apart: a search for
    one page leaves what the dict holds for every other page of the
    same query as it was. *)
Theorem app_search_other_pages `{PyLib} (env : Env) (query : string)
  (page page' : Z) (w : World (gmap string (list App.Result))) :
  page' <> page ->
  cache (snd (App.search env query page w))
    !! (query +:+ "_" +:+ str_int page')
  = cache w !! (query +:+ "_" +:+ str_int page').
Proof.
  intros Hne.
  destruct (app_search_full env query page w)
    as (results & w' & new & Hrun & _ & _ & Hcase).
  rewrite Hrun. cbn [snd].
  destruct Hcase as [(_ & -> & _)|(_ & _ & [[_ ->]|[_ ->]])];
    [reflexivity | reflexivity |].
  apply lookup_insert_ne. intros Heq. apply Hne.
  apply String.app_inj in Heq. apply String.app_inj in Heq.
  unfold str_int in Heq. symmetry. exact (pretty_Z_inj _ _ Heq).
Qed.

Lemma app_search_other_pages_witness :
  cache (snd (App.search (lib := Fixtures.lib) Fixtures.env_page "m3" 2
                Fixtures.app_world_cached))
    !! ("m3" +:+ "_" +:+ str_int 1)
  = cache Fixtures.app_world_cached !! ("m3" +:+ "_" +:+ str_int 1).
Proof.
  apply (app_search_other_pages (H := Fixtures.lib) Fixtures.env_page "m3" 2 1
           Fixtures.app_world_cached).
  lia.
Defined.

(** ** The quota of [search] *)

Lemma main_collect_quota_from (futures : list (Exc (list Main.SearchResult))) :
  forall results errors,
    (length results < 5)%nat ->
    exists taken left,
      futures = (taken ++ left)%list
      /\ fst (Main.collect futures results errors)
         = (results ++ concat (values taken))%list
      /\ (left <> [] ->
          (5 <= length (results ++ concat (values taken)))%nat)
      /\ forall before after,
           taken = (before ++ after)%list -> after <> [] ->
           (length (results ++ concat (values before)) < 5)%nat.
Proof.
  induction futures as [|[a|e] rest IH]; intros results errors Hshort.
  - exists [], []. simpl. rewrite app_nil_r. split; [reflexivity|]. split; [reflexivity|].
    split; [intros Hne; exfalso; apply Hne; reflexivity|].
    intros before after Heq Hne. symmetry in Heq.
    apply app_eq_nil in Heq. destruct Heq as [_ ->].
    exfalso. apply Hne. reflexivity.
  - cbn [Main.collect]. cbv zeta.
    destruct (Nat.leb_spec 5 (length (results ++ a))) as [Hfull|Hmore].
    + exists [Ok a], rest. split; [reflexivity|].
      assert (Hval : concat (values [Ok a]) = a) by (simpl; apply app_nil_r).
      rewrite Hval. split; [reflexivity|]. split; [intros _; exact Hfull|].
      intros before after Heq Hne.
      destruct before as [|b before].
      * simpl. rewrite app_nil_r. exact Hshort.
      * exfalso. injection Heq as _ Heq. symmetry in Heq.
        apply app_eq_nil in Heq. destruct Heq as [_ ->]. apply Hne. reflexivity.
    + destruct (IH (results ++ a)%list errors Hmore)
        as (taken & left & Hsplit & Hres & Hleft & Hprefix).
      exists (Ok a :: taken), left. split; [rewrite Hsplit; reflexivity|].
      assert (Hval : forall l, (results ++ concat (values (Ok a :: l)))%list
                               = ((results ++ a) ++ concat (values l))%list)
        by (intros l; simpl; rewrite app_assoc; reflexivity).
      rewrite Hval. split; [exact Hres|]. split; [exact Hleft|].
      intros before after Heq Hne.
      destruct before as [|b before].
      * simpl. rewrite app_nil_r. exact Hshort.
      * injection Heq as <- Heq. rewrite Hval. exact (Hprefix _ _ Heq Hne).
  - cbn [Main.collect].
    destruct (IH results (errors ++ [str_exn e])%list Hshort)
      as (taken & left & Hsplit & Hres & Hleft & Hprefix).
    exists (Raise e :: taken), left. split; [rewrite Hsplit; reflexivity|].
    assert (Hval : forall l, values (Raise e :: l : list (Exc (list Main.SearchResult)))
                             = values l) by reflexivity.
    rewrite Hval. split; [exact Hres|]. split; [exact Hleft|].
    intros before after Heq Hne.
    destruct before as [|b before].
    + simpl. rewrite app_nil_r. exact Hshort.
    + injection Heq as <- Heq. rewrite Hval. exact (Hprefix _ _ Heq Hne).
Qed.

(** X27. The quota of main.py's [search]: the result batches of the
    engines are taken in the order in which they complete, whole, until
    five results at least are in hand; what completes later is left
    out, and no batch is taken once the quota is met. *)
Theorem main_collect_quota (futures : list (Exc (list Main.SearchResult))) :
  exists taken left,
    futures = (taken ++ left)%list
    /\ fst (Main.collect futures [] []) = concat (values taken)
    /\ (left <> [] -> (5 <= length (concat (values taken)))%nat)
    /\ forall before after,
         taken = (before ++ after)%list -> after <> [] ->
         (length (concat (values before)) < 5)%nat.
Proof.
  destruct (main_collect_quota_from futures [] [] ltac:(simpl; lia))
    as (taken & left & Hsplit & Hres & Hleft & Hprefix).
  exists taken, left. auto.
Qed.
